(** * Arista SRT: the telemetry extraction and normalization pipeline

    A shallow embedding of [arista-srt.py]: the counter normalizer
    ([get_interface_counters]), the environment text parser
    ([get_environment_info]), the port ordering ([sort_eth_interfaces]), the
    chart projection ([prepare_interface_data]) and the run boundary
    ([generate_html_report], [main]).

    Conventions of the embedding.
    - A Python [str] is a [string]; a character is a code point below 256 and
      the character classes follow CPython's tables on that range.
    - A Python [dict] is an association list in insertion order.
    - A raise is a value [Raise e] of the type [outcome].
    - JSON numbers are [num]: a Python [int] or a Python [float]. *)

From Stdlib Require Import ZArith List String Ascii Bool Lia Arith.
From Stdlib Require Import Permutation Sorted Floats DecimalString.
Import ListNotations.

Local Open Scope Z_scope.
Local Open Scope list_scope.
Local Open Scope string_scope.

(** ** Exceptions *)

Inductive exn : Type :=
| KeyError (key : string)
| IndexError (what : string)
| OverflowError (what : string)
| ValueError (what : string)
| OSError (what : string)
| Exception (message : string).

Inductive outcome (A : Type) : Type :=
| Ok (a : A)
| Raise (e : exn).

Arguments Ok {A} a.
Arguments Raise {A} e.

Definition bind {A B : Type} (m : outcome A) (k : A -> outcome B) : outcome B :=
  match m with
  | Ok a => k a
  | Raise e => Raise e
  end.

Notation "x <- m ;; k" := (bind m (fun x => k))
  (at level 61, m at next level, right associativity).

Fixpoint mapM {A B : Type} (f : A -> outcome B) (l : list A) : outcome (list B) :=
  match l with
  | [] => Ok []
  | a :: l' => b <- f a ;; bs <- mapM f l' ;; Ok (b :: bs)
  end.

(** [str(e)] as [print(f"...{e}")] shows it. *)
Definition exn_message (e : exn) : string :=
  match e with
  | KeyError key => "'" ++ key ++ "'"
  | IndexError what => what
  | OverflowError what => what
  | ValueError what => what
  | OSError what => what
  | Exception message => message
  end.

(** ** Python strings *)

Module PyStr.

Definition code (c : ascii) : nat := nat_of_ascii c.

Definition between (lo hi : nat) (c : ascii) : bool :=
  (lo <=? code c)%nat && (code c <=? hi)%nat.

(** [str.isspace], the regular expression class [\s] and what [str.strip]
    removes: the same set. *)
Definition isspace (c : ascii) : bool :=
  between 9 13 c || between 28 32 c || between 133 133 c || between 160 160 c.

(** The regular expression class [\d]. *)
Definition isdigit (c : ascii) : bool := between 48 57 c.

(** The regular expression class [\w]. *)
Definition isword (c : ascii) : bool :=
  between 48 57 c || between 65 90 c || between 95 95 c || between 97 122 c
  || between 170 170 c || between 178 179 c || between 181 181 c
  || between 185 186 c || between 188 190 c || between 192 214 c
  || between 216 246 c || between 248 255 c.

(** A line boundary of [str.splitlines]. *)
Definition islinebreak (c : ascii) : bool :=
  between 10 13 c || between 28 30 c || between 133 133 c.

Definition is_char (d c : ascii) : bool := Ascii.eqb d c.

Fixpoint rev_onto (s acc : string) : string :=
  match s with
  | EmptyString => acc
  | String c s' => rev_onto s' (String c acc)
  end.

Definition rev (s : string) : string := rev_onto s EmptyString.

Fixpoint lstrip (s : string) : string :=
  match s with
  | EmptyString => EmptyString
  | String c s' => if isspace c then lstrip s' else s
  end.

Definition rstrip (s : string) : string := rev (lstrip (rev s)).

(** [s.strip()] *)
Definition strip (s : string) : string := rstrip (lstrip s).

(** [s.startswith(p)] *)
Definition startswith (s p : string) : bool := String.prefix p s.

(** [needle in s] *)
Fixpoint contains (needle s : string) : bool :=
  String.prefix needle s ||
  match s with
  | EmptyString => false
  | String _ s' => contains needle s'
  end.

(** [s.replace(old, new)] for a non-empty [old]: occurrences are replaced from
    the left and do not overlap. [skip] counts the characters of a replaced
    occurrence that are still to be passed over. *)
Fixpoint replace_from (skip : nat) (old new s : string) : string :=
  match s with
  | EmptyString => EmptyString
  | String c s' =>
      match skip with
      | S k => replace_from k old new s'
      | O =>
          if String.prefix old s
          then new ++ replace_from (String.length old - 1) old new s'
          else String c (replace_from O old new s')
      end
  end.

Definition replace (old new s : string) : string := replace_from O old new s.

(** [s.splitlines()]: [cur] is the line being read, reversed; [after_cr] says
    that the previous character was a carriage return, so that a line feed
    now belongs to the same boundary. *)
Fixpoint splitlines_from (cur : string) (after_cr : bool) (s : string) : list string :=
  match s with
  | EmptyString =>
      match cur with
      | EmptyString => []
      | _ => [rev cur]
      end
  | String c s' =>
      if after_cr && is_char "010" c then splitlines_from EmptyString false s'
      else if islinebreak c
      then rev cur :: splitlines_from EmptyString (is_char "013" c) s'
      else splitlines_from (String c cur) false s'
  end.

Definition splitlines (s : string) : list string :=
  splitlines_from EmptyString false s.

Fixpoint drop (n : nat) (s : string) : string :=
  match n, s with
  | O, _ => s
  | S n', String _ s' => drop n' s'
  | S _, EmptyString => EmptyString
  end.

Fixpoint take (n : nat) (s : string) : string :=
  match n, s with
  | S n', String c s' => String c (take n' s')
  | _, _ => EmptyString
  end.

(** Length of the longest prefix of [s] made of characters of the class. *)
Fixpoint run_length (cls : ascii -> bool) (s : string) : nat :=
  match s with
  | String c s' => if cls c then S (run_length cls s') else O
  | EmptyString => O
  end.

(** [re.findall(r'\d+', s)]: the maximal runs of decimal digits, in order.
    [cur] is the run being read, reversed. *)
Fixpoint findall_digits_from (cur : string) (s : string) : list string :=
  match s with
  | EmptyString =>
      match cur with
      | EmptyString => []
      | _ => [rev cur]
      end
  | String c s' =>
      if isdigit c then findall_digits_from (String c cur) s'
      else match cur with
           | EmptyString => findall_digits_from EmptyString s'
           | _ => rev cur :: findall_digits_from EmptyString s'
           end
  end.

Definition findall_digits (s : string) : list string :=
  findall_digits_from EmptyString s.

Definition digit_value (c : ascii) : Z := Z.of_nat (code c) - 48.

Fixpoint int_from (acc : Z) (s : string) : Z :=
  match s with
  | EmptyString => acc
  | String c s' => int_from (10 * acc + digit_value c) s'
  end.

(** [int(s)] on a run of decimal digits. *)
Definition int (s : string) : Z := int_from 0 s.

End PyStr.

(** ** Regular expressions

    The patterns of the program are sequences of literals, greedy repetitions
    of one character class and capture groups that are not nested. [re_match]
    is [re.match]: it matches at the start of the string, tries the longest
    repetition first and backtracks, and returns the captured groups. *)

Module Re.

Inductive item : Type :=
| Lit (s : string)
| Rep (least : nat) (cls : ascii -> bool)
| Open
| Close.

Definition capture (t : string) (cur : option string) : option string :=
  match cur with
  | Some g => Some (g ++ t)
  | None => None
  end.

(** A greedy repetition: the counts from the longest run [k] down to [least],
    the first one the rest of the pattern accepts. *)
Fixpoint longest_first {R : Type} (least k : nat) (rest : nat -> option R) : option R :=
  if (k <? least)%nat then None
  else
    match rest k with
    | Some r => Some r
    | None =>
        match k with
        | O => None
        | S k' => longest_first least k' rest
        end
    end.

Fixpoint match_from (p : list item) (s : string) (cur : option string)
  (groups : list string) : option (list string) :=
  match p with
  | [] => Some groups
  | Lit t :: p' =>
      if String.prefix t s
      then match_from p' (PyStr.drop (String.length t) s) (capture t cur) groups
      else None
  | Open :: p' => match_from p' s (Some EmptyString) groups
  | Close :: p' =>
      match cur with
      | Some g => match_from p' s None (groups ++ [g])%list
      | None => None
      end
  | Rep least cls :: p' =>
      longest_first least (PyStr.run_length cls s)
        (fun k => match_from p' (PyStr.drop k s) (capture (PyStr.take k s) cur) groups)
  end.

Definition re_match (p : list item) (s : string) : option (list string) :=
  match_from p s None [].

(** [m.group(i)] for [i >= 1]. *)
Definition group (m : list string) (i : nat) : outcome string :=
  match nth_error m (i - 1) with
  | Some g => Ok g
  | None => Raise (IndexError "no such group")
  end.

Definition s : ascii -> bool := PyStr.isspace.
Definition S' : ascii -> bool := fun c => negb (PyStr.isspace c).
Definition w : ascii -> bool := PyStr.isword.
Definition d : ascii -> bool := PyStr.isdigit.
Definition dot : ascii -> bool := fun c => negb (PyStr.is_char "010" c).
Definition chr (x : ascii) : ascii -> bool := PyStr.is_char x.
Definition either (a b : ascii -> bool) : ascii -> bool := fun c => a c || b c.

(** The number of groups a pattern closes. *)
Fixpoint closes (p : list item) : nat :=
  match p with
  | [] => O
  | Close :: p' => S (closes p')
  | _ :: p' => closes p'
  end.

End Re.

(** ** Numbers and dictionaries *)

(** A JSON number as Python holds it. *)
Inductive num : Type :=
| Int (z : Z)
| Float (f : float).

(** The truth value of a number: zero, of either kind and either sign, is
    false. *)
Definition truthy (x : num) : bool :=
  match x with
  | Int z => negb (z =? 0)%Z
  | Float f => negb (PrimFloat.eqb f 0%float)
  end.

Definition float_of_int (z : Z) : spec_float :=
  match z with
  | Z0 => S754_zero false
  | Zpos p => S754_finite false p 0
  | Zneg p => S754_finite true p 0
  end.

(** [x / 1_000_000]: true division. On an [int] Python rounds the exact
    quotient once, to the nearest float, and raises when that float is not
    finite; on a [float] the divisor is converted and the division is
    IEEE 754's. *)
Definition div_million (x : num) : outcome num :=
  match x with
  | Int z =>
      match SFdiv prec emax (float_of_int z) (float_of_int 1000000) with
      | S754_infinity _ =>
          Raise (OverflowError "integer division result too large for a float")
      | q => Ok (Float (SF2Prim q))
      end
  | Float f => Ok (Float (f / 1000000)%float)
  end.

Definition dict (V : Type) : Type := list (string * V).

Definition keys {V : Type} (d : dict V) : list string := map fst d.

(** [d.get(k)] *)
Fixpoint dict_get {V : Type} (k : string) (d : dict V) : option V :=
  match d with
  | [] => None
  | (k', v) :: d' => if String.eqb k k' then Some v else dict_get k d'
  end.

(** [d.get(k, default)] *)
Definition get {V : Type} (d : dict V) (k : string) (default : V) : V :=
  match dict_get k d with
  | Some v => v
  | None => default
  end.

(** [d[k] = v]: a key already present keeps its place. *)
Fixpoint dict_set {V : Type} (k : string) (v : V) (d : dict V) : dict V :=
  match d with
  | [] => [(k, v)]
  | (k', v') :: d' =>
      if String.eqb k k' then (k', v) :: d' else (k', v') :: dict_set k v d'
  end.

(** [{k: v for k, v in items}] *)
Definition dict_of_items {V : Type} (items : list (string * V)) : dict V :=
  fold_left (fun d kv => dict_set (fst kv) (snd kv) d) items [].

(** [sum(l)] over integers. *)
Definition sum (l : list Z) : Z := fold_left Z.add l 0.

(** ** Counter normalizer: [get_interface_counters] *)

(** An entry of the device's rate counters: each key may be missing. *)
Record RateData : Type := mkRateData {
  rate_description : option string;
  rate_outBpsRate : option num;
  rate_inBpsRate : option num
}.

(** An entry of the device's error counters: counter name to count. *)
Definition ErrorData : Type := dict Z.

Record PortCounters : Type := mkPortCounters {
  description : string;
  outBpsRate : num;
  inBpsRate : num;
  totalErrors : Z;
  inErrors : Z;
  outErrors : Z;
  frameTooLongs : Z;
  frameTooShorts : Z;
  fcsErrors : Z;
  alignmentErrors : Z;
  symbolErrors : Z
}.

Definition or_default {A : Type} (o : option A) (default : A) : A :=
  match o with
  | Some a => a
  | None => default
  end.

(** The long-form prefix collapsed to the short alias. *)
Definition canonical (port : string) : string :=
  PyStr.replace "Ethernet" "Eth" port.

(** The body of the loop: the record stored under the canonical name. *)
Definition port_record (rate_data : RateData) (error_data : ErrorData) : PortCounters :=
  let total_errors :=
    sum [ get error_data "inErrors" 0;
          get error_data "outErrors" 0;
          get error_data "frameTooLongs" 0;
          get error_data "frameTooShorts" 0;
          get error_data "fcsErrors" 0;
          get error_data "alignmentErrors" 0;
          get error_data "symbolErrors" 0 ] in
  {| description := or_default (rate_description rate_data) "";
     outBpsRate := or_default (rate_outBpsRate rate_data) (Int 0);
     inBpsRate := or_default (rate_inBpsRate rate_data) (Int 0);
     totalErrors := total_errors;
     inErrors := get error_data "inErrors" 0;
     outErrors := get error_data "outErrors" 0;
     frameTooLongs := get error_data "frameTooLongs" 0;
     frameTooShorts := get error_data "frameTooShorts" 0;
     fcsErrors := get error_data "fcsErrors" 0;
     alignmentErrors := get error_data "alignmentErrors" 0;
     symbolErrors := get error_data "symbolErrors" 0 |}.

Definition combine_step (interfaces_errors : dict ErrorData)
  (combined_data : dict PortCounters) (item : string * RateData) : dict PortCounters :=
  let (port, rate_data) := item in
  let modified_port := canonical port in
  let error_data := get interfaces_errors port [] in
  dict_set modified_port (port_record rate_data error_data) combined_data.

(** The loop of [get_interface_counters] over [interfaces_rates.items()]. *)
Definition combined_data (interfaces_rates : dict RateData)
  (interfaces_errors : dict ErrorData) : dict PortCounters :=
  fold_left (combine_step interfaces_errors) interfaces_rates [].

(** The sum the total is to equal. *)
Definition sum_of_seven (p : PortCounters) : Z :=
  inErrors p + outErrors p + frameTooLongs p + frameTooShorts p
  + fcsErrors p + alignmentErrors p + symbolErrors p.

(** A record without errors. *)
Definition no_errors (p : PortCounters) : Prop :=
  inErrors p = 0 /\ outErrors p = 0 /\ frameTooLongs p = 0 /\ frameTooShorts p = 0
  /\ fcsErrors p = 0 /\ alignmentErrors p = 0 /\ symbolErrors p = 0
  /\ totalErrors p = 0.

(** The error counters with a total of the device's own added to every
    entry. *)
Definition with_device_total (v : Z) (errors : dict ErrorData) : dict ErrorData :=
  map (fun e => (fst e, ("totalErrors", v) :: snd e)) errors.

(** ** Port ordering: [sort_eth_interfaces] *)

(** [a < b] on lists of integers. *)
Fixpoint list_lt (a b : list Z) : bool :=
  match a, b with
  | _, [] => false
  | [], _ :: _ => true
  | x :: a', y :: b' => if (x =? y)%Z then list_lt a' b' else (x <? y)%Z
  end.

Definition interface_sort_key (interface_name : string) : list Z :=
  let parts := PyStr.findall_digits interface_name in
  map PyStr.int parts.

Section Sorted.

Context {A : Type} (key : A -> list Z).

(** [x] goes before the first element whose key is not smaller than its
    own. *)
Fixpoint insert (x : A) (l : list A) : list A :=
  match l with
  | [] => [x]
  | y :: l' => if list_lt (key y) (key x) then y :: insert x l' else x :: y :: l'
  end.

(** [sorted(l, key=key)]: the stable sort, which is what Python's sort is;
    here by insertion, from the last element to the first. *)
Fixpoint sorted (l : list A) : list A :=
  match l with
  | [] => []
  | x :: l' => insert x (sorted l')
  end.

(** [x] may stand before [y]: the key of [y] is not below the key of [x]. *)
Definition key_le (x y : A) : Prop := list_lt (key y) (key x) = false.

Definition has_key (k : list Z) (x : A) : bool :=
  if list_eq_dec Z.eq_dec (key x) k then true else false.

End Sorted.

Definition eth_interfaces (interfaces : dict PortCounters) : dict PortCounters :=
  dict_of_items (filter (fun item => PyStr.startswith (fst item) "Eth") interfaces).

Definition sort_eth_interfaces (interfaces : dict PortCounters)
  : list (string * PortCounters) :=
  sorted (fun x => interface_sort_key (fst x)) (eth_interfaces interfaces).

(** ** Projection: [prepare_interface_data] *)

Record Series : Type := mkSeries {
  labels : list string;
  port_numbers : list Z;
  in_bps_data : list num;
  out_bps_data : list num;
  in_errors_data : list Z;
  out_errors_data : list Z;
  frame_too_longs_data : list Z;
  frame_too_shorts_data : list Z;
  fcs_errors_data : list Z;
  alignment_errors_data : list Z;
  symbol_errors_data : list Z;
  total_errors_data : list Z
}.

(** [int(re.findall(r'\d+', port)[0])] *)
Definition port_number (port : string) : outcome Z :=
  match PyStr.findall_digits port with
  | [] => Raise (IndexError "list index out of range")
  | part :: _ => Ok (PyStr.int part)
  end.

(** [rate / 1_000_000 if rate else 0] *)
Definition scaled (rate : num) : outcome num :=
  if truthy rate then div_million rate else Ok (Int 0).

Definition prepare_interface_data (sorted_interfaces : list (string * PortCounters))
  : outcome Series :=
  let labels := map fst sorted_interfaces in
  port_numbers <- mapM port_number labels ;;
  in_bps_data <- mapM (fun item => scaled (inBpsRate (snd item))) sorted_interfaces ;;
  out_bps_data <- mapM (fun item => scaled (outBpsRate (snd item))) sorted_interfaces ;;
  Ok {| labels := labels;
        port_numbers := port_numbers;
        in_bps_data := in_bps_data;
        out_bps_data := out_bps_data;
        in_errors_data := map (fun item => inErrors (snd item)) sorted_interfaces;
        out_errors_data := map (fun item => outErrors (snd item)) sorted_interfaces;
        frame_too_longs_data := map (fun item => frameTooLongs (snd item)) sorted_interfaces;
        frame_too_shorts_data := map (fun item => frameTooShorts (snd item)) sorted_interfaces;
        fcs_errors_data := map (fun item => fcsErrors (snd item)) sorted_interfaces;
        alignment_errors_data := map (fun item => alignmentErrors (snd item)) sorted_interfaces;
        symbol_errors_data := map (fun item => symbolErrors (snd item)) sorted_interfaces;
        total_errors_data := map (fun item => totalErrors (snd item)) sorted_interfaces |}.

(** What one index of the series says about one port. *)
Definition describes (data : Series) (i : nat) (port : string) (p : PortCounters) : Prop :=
  nth_error (labels data) i = Some port
  /\ (exists n, nth_error (port_numbers data) i = Some n /\ port_number port = Ok n)
  /\ (exists r, nth_error (in_bps_data data) i = Some r /\ scaled (inBpsRate p) = Ok r)
  /\ (exists r, nth_error (out_bps_data data) i = Some r /\ scaled (outBpsRate p) = Ok r)
  /\ nth_error (in_errors_data data) i = Some (inErrors p)
  /\ nth_error (out_errors_data data) i = Some (outErrors p)
  /\ nth_error (frame_too_longs_data data) i = Some (frameTooLongs p)
  /\ nth_error (frame_too_shorts_data data) i = Some (frameTooShorts p)
  /\ nth_error (fcs_errors_data data) i = Some (fcsErrors p)
  /\ nth_error (alignment_errors_data data) i = Some (alignmentErrors p)
  /\ nth_error (symbol_errors_data data) i = Some (symbolErrors p)
  /\ nth_error (total_errors_data data) i = Some (totalErrors p).

Definition all_of_length (data : Series) (n : nat) : Prop :=
  List.length (labels data) = n
  /\ List.length (port_numbers data) = n
  /\ List.length (in_bps_data data) = n
  /\ List.length (out_bps_data data) = n
  /\ List.length (in_errors_data data) = n
  /\ List.length (out_errors_data data) = n
  /\ List.length (frame_too_longs_data data) = n
  /\ List.length (frame_too_shorts_data data) = n
  /\ List.length (fcs_errors_data data) = n
  /\ List.length (alignment_errors_data data) = n
  /\ List.length (symbol_errors_data data) = n
  /\ List.length (total_errors_data data) = n.

(** ** Text table parser: [get_environment_info] *)

Module Patterns.
Import Re.

(** [System cooling status is:\s*(\w+)] *)
Definition cooling : list item :=
  [Lit "System cooling status is:"; Rep 0 s; Open; Rep 1 w; Close].

(** [Ambient temperature:\s*(\d+)C] *)
Definition temperature : list item :=
  [Lit "Ambient temperature:"; Rep 0 s; Open; Rep 1 d; Close; Lit "C"].

(** [Airflow:\s*(.+)] *)
Definition airflow : list item :=
  [Lit "Airflow:"; Rep 0 s; Open; Rep 1 dot; Close].

(** [[-\s]+] *)
Definition header : list item :=
  [Rep 1 (either (chr "-") s)].

(** [(\S+)\s+(\w+)\s+(\d+)%\s+(\d+)%] *)
Definition fan : list item :=
  [Open; Rep 1 S'; Close; Rep 1 s;
   Open; Rep 1 w; Close; Rep 1 s;
   Open; Rep 1 d; Close; Lit "%"; Rep 1 s;
   Open; Rep 1 d; Close; Lit "%"].

(** [(\S+)\s+([\w-]+)\s+(\d+W)\s+([\d\.]+A)\s+([\d\.]+A)\s+([\d\.]+W)\s+(\w+)] *)
Definition power : list item :=
  [Open; Rep 1 S'; Close; Rep 1 s;
   Open; Rep 1 (either w (chr "-")); Close; Rep 1 s;
   Open; Rep 1 d; Lit "W"; Close; Rep 1 s;
   Open; Rep 1 (either d (chr ".")); Lit "A"; Close; Rep 1 s;
   Open; Rep 1 (either d (chr ".")); Lit "A"; Close; Rep 1 s;
   Open; Rep 1 (either d (chr ".")); Lit "W"; Close; Rep 1 s;
   Open; Rep 1 w; Close].

End Patterns.

(** What [get_environment_info] returns. *)
Record EnvironmentSnapshot : Type := mkEnvironmentSnapshot {
  Cooling_Status : string;
  Ambient_Temperature : string;
  Fan_Status : list string;
  Power_Supply_Status : list string
}.

(** The variables of the loop over the lines. *)
Record ParserState : Type := mkParserState {
  cooling_status : string;
  ambient_temperature : string;
  airflow : string;
  fan_status_list : list string;
  power_supply_status_list : list string;
  parsing_fan : bool;
  parsing_power : bool
}.

Definition initial_state : ParserState :=
  {| cooling_status := "N/A";
     ambient_temperature := "N/A";
     airflow := "N/A";
     fan_status_list := [];
     power_supply_status_list := [];
     parsing_fan := false;
     parsing_power := false |}.

Definition set_cooling_status (v : string) (st : ParserState) : ParserState :=
  mkParserState v (ambient_temperature st) (airflow st) (fan_status_list st)
    (power_supply_status_list st) (parsing_fan st) (parsing_power st).

Definition set_ambient_temperature (v : string) (st : ParserState) : ParserState :=
  mkParserState (cooling_status st) v (airflow st) (fan_status_list st)
    (power_supply_status_list st) (parsing_fan st) (parsing_power st).

Definition set_airflow (v : string) (st : ParserState) : ParserState :=
  mkParserState (cooling_status st) (ambient_temperature st) v (fan_status_list st)
    (power_supply_status_list st) (parsing_fan st) (parsing_power st).

Definition set_parsing (fan power : bool) (st : ParserState) : ParserState :=
  mkParserState (cooling_status st) (ambient_temperature st) (airflow st)
    (fan_status_list st) (power_supply_status_list st) fan power.

Definition append_fan (v : string) (st : ParserState) : ParserState :=
  mkParserState (cooling_status st) (ambient_temperature st) (airflow st)
    (fan_status_list st ++ [v])%list (power_supply_status_list st)
    (parsing_fan st) (parsing_power st).

Definition append_power (v : string) (st : ParserState) : ParserState :=
  mkParserState (cooling_status st) (ambient_temperature st) (airflow st)
    (fan_status_list st) (power_supply_status_list st ++ [v])%list
    (parsing_fan st) (parsing_power st).

Definition is_empty (line : string) : bool :=
  match line with
  | EmptyString => true
  | String _ _ => false
  end.

Definition fan_row (m : list string) : outcome string :=
  g1 <- Re.group m 1 ;;
  let fan_label := PyStr.replace "Ethernet" "Eth" g1 in
  status <- Re.group m 2 ;;
  configured_speed <- Re.group m 3 ;;
  actual_speed <- Re.group m 4 ;;
  Ok ("<strong>" ++ fan_label ++ " Status:</strong> " ++ status
      ++ ", <strong>Configured Speed:</strong> " ++ configured_speed
      ++ "%, <strong>Actual Speed:</strong> " ++ actual_speed ++ "%").

Definition power_row (m : list string) : outcome string :=
  g1 <- Re.group m 1 ;;
  let supply_label := PyStr.replace "Ethernet" "Eth" g1 in
  model <- Re.group m 2 ;;
  capacity <- Re.group m 3 ;;
  input_current <- Re.group m 4 ;;
  output_current <- Re.group m 5 ;;
  power <- Re.group m 6 ;;
  status <- Re.group m 7 ;;
  Ok ("<strong>" ++ supply_label ++ " Status:</strong> " ++ status
      ++ ", <strong>Model:</strong> " ++ model
      ++ ", <strong>Capacity:</strong> " ++ capacity
      ++ ", <strong>Input Current:</strong> " ++ input_current
      ++ ", <strong>Output Current:</strong> " ++ output_current
      ++ ", <strong>Power:</strong> " ++ power).

(** The rules a stripped, non-empty line goes through, in the order of the
    source; every rule that applies ends the line ([continue]). *)
Definition parse_stripped (st : ParserState) (line : string) : outcome ParserState :=
  match Re.re_match Patterns.cooling line with
  | Some cooling_match =>
      g <- Re.group cooling_match 1 ;; Ok (set_cooling_status g st)
  | None =>
  match Re.re_match Patterns.temperature line with
  | Some temp_match =>
      g <- Re.group temp_match 1 ;; Ok (set_ambient_temperature (g ++ "C") st)
  | None =>
  match Re.re_match Patterns.airflow line with
  | Some airflow_match =>
      g <- Re.group airflow_match 1 ;; Ok (set_airflow g st)
  | None =>
  if PyStr.startswith line "Fan" && PyStr.contains "Status" line
  then Ok (set_parsing true false st)
  else if PyStr.startswith line "Power" && PyStr.contains "Supply" line
  then Ok (set_parsing false true st)
  else
  match Re.re_match Patterns.header line with
  | Some _ => Ok st
  | None =>
  if parsing_fan st then
    match Re.re_match Patterns.fan line with
    | Some fan_match => row <- fan_row fan_match ;; Ok (append_fan row st)
    | None => Ok st
    end
  else if parsing_power st then
    match Re.re_match Patterns.power line with
    | Some power_match => row <- power_row power_match ;; Ok (append_power row st)
    | None => Ok st
    end
  else Ok st
  end end end end.

(** One turn of the loop. *)
Definition parse_line (st : ParserState) (raw : string) : outcome ParserState :=
  let line := PyStr.strip raw in
  if is_empty line then Ok st else parse_stripped st line.

Fixpoint parse_lines (st : ParserState) (lines : list string) : outcome ParserState :=
  match lines with
  | [] => Ok st
  | raw :: lines' => st' <- parse_line st raw ;; parse_lines st' lines'
  end.

Definition sentinel : EnvironmentSnapshot :=
  {| Cooling_Status := "N/A";
     Ambient_Temperature := "N/A";
     Fan_Status := ["N/A"];
     Power_Supply_Status := ["N/A"] |}.

Definition or_sentinel (l : list string) : list string :=
  match l with
  | [] => ["N/A"]
  | _ :: _ => l
  end.

(** The device's answer to [show environment all]: the key [messages] may be
    missing. *)
Record EnvInfo : Type := mkEnvInfo {
  env_messages : option (list string)
}.

(** [get_environment_info] from [env_info] on: the parser proper. *)
Definition parse_environment (env_info : EnvInfo) : outcome EnvironmentSnapshot :=
  let messages := or_default (env_messages env_info) [] in
  match messages with
  | [] => Ok sentinel
  | message_str :: _ =>
      let lines := PyStr.splitlines message_str in
      st <- parse_lines initial_state lines ;;
      Ok {| Cooling_Status := cooling_status st;
            Ambient_Temperature := ambient_temperature st;
            Fan_Status := or_sentinel (fan_status_list st);
            Power_Supply_Status := or_sentinel (power_supply_status_list st) |}
  end.

(** The header conditions of the two tables. *)
Definition fan_header (line : string) : bool :=
  PyStr.startswith line "Fan" && PyStr.contains "Status" line.

Definition power_header (line : string) : bool :=
  PyStr.startswith line "Power" && PyStr.contains "Supply" line.

(** What one stripped line can do to the variables of the loop. *)
Inductive line_effect (st : ParserState) (line : string) : ParserState -> Prop :=
| effect_cooling (m : list string) (g : string) :
    Re.re_match Patterns.cooling line = Some m ->
    line_effect st line (set_cooling_status g st)
| effect_temperature (g : string) :
    line_effect st line (set_ambient_temperature g st)
| effect_airflow (g : string) :
    line_effect st line (set_airflow g st)
| effect_fan_header :
    fan_header line = true ->
    line_effect st line (set_parsing true false st)
| effect_power_header :
    power_header line = true ->
    line_effect st line (set_parsing false true st)
| effect_skip :
    line_effect st line st
| effect_fan_row (row : string) :
    parsing_fan st = true ->
    line_effect st line (append_fan row st)
| effect_power_row (row : string) :
    parsing_fan st = false -> parsing_power st = true ->
    line_effect st line (append_power row st).

(** The lines the loop runs over: those of the first message, none when
    there is no message. *)
Definition text_lines (env_info : EnvInfo) : list string :=
  match or_default (env_messages env_info) [] with
  | [] => []
  | message_str :: _ => PyStr.splitlines message_str
  end.

(** A line some rule of the loop acts on, in the state [st]. *)
Definition recognized (st : ParserState) (line : string) : bool :=
  let matches p :=
    match Re.re_match p line with
    | Some _ => true
    | None => false
    end in
  matches Patterns.cooling || matches Patterns.temperature || matches Patterns.airflow
  || fan_header line || power_header line
  || parsing_fan st && matches Patterns.fan
  || negb (parsing_fan st) && parsing_power st && matches Patterns.power.

(** ** The run: [generate_html_report] and [main]

    What a run leaves behind is a [World]: the files written and the lines
    printed. An [action] threads the world and may raise. *)

Record World : Type := mkWorld {
  files : list (string * string);
  stdout : list string
}.

Definition action (A : Type) : Type := World -> World * outcome A.

Definition ret {A : Type} (a : A) : action A := fun w => (w, Ok a).

Definition and_then {A B : Type} (m : action A) (k : A -> action B) : action B :=
  fun w =>
    match m w with
    | (w', Ok a) => k a w'
    | (w', Raise e) => (w', Raise e)
    end.

Notation "x <~ m ;; k" := (and_then m (fun x => k))
  (at level 61, m at next level, right associativity).

(** A computation that has no effect on the world. *)
Definition lift {A : Type} (m : outcome A) : action A := fun w => (w, m).

Definition print (line : string) : action unit :=
  fun w => (mkWorld (files w) (stdout w ++ [line])%list, Ok tt).

(** [with open(name, 'w') as f: f.write(content)]; the file system is taken
    to accept the write. *)
Definition write_file (name content : string) : action unit :=
  fun w => (mkWorld (files w ++ [(name, content)])%list (stdout w), Ok tt).

(** [try: body except Exception as e: handler(e)] *)
Definition try_except {A : Type} (body : action A) (handler : exn -> action A) : action A :=
  fun w =>
    match body w with
    | (w', Ok a) => (w', Ok a)
    | (w', Raise e) => handler e w'
    end.

(** The device's answers. Each object is typed by the command it answers;
    what may be missing is a key. *)
Record VersionInfo : Type := mkVersionInfo {
  bootupTimestamp : option num;
  modelName : option string;
  serialNumber : option string;
  systemMacAddress : option string;
  version : option string;
  architecture : option string;
  memTotal : option num;
  memFree : option num
}.

Inductive payload : Type :=
| Version (version_info : VersionInfo)
| Hostname (fqdn : option string)
| RateCounters (interfaces : option (dict RateData))
| ErrorCounters (interfaceErrorCounters : option (dict ErrorData))
| Environment (env_info : EnvInfo).

Record Response : Type := mkResponse {
  result : option (list payload)
}.

(** [response['result'][i]] *)
Definition result_at (response : Response) (i : nat) : outcome payload :=
  match result response with
  | None => Raise (KeyError "result")
  | Some results =>
      match nth_error results i with
      | Some p => Ok p
      | None => Raise (IndexError "list index out of range")
      end
  end.

(** [p['interfaces']] *)
Definition interfaces_of (p : payload) : outcome (dict RateData) :=
  match p with
  | RateCounters (Some interfaces) => Ok interfaces
  | _ => Raise (KeyError "interfaces")
  end.

(** [p['interfaceErrorCounters']] *)
Definition error_counters_of (p : payload) : outcome (dict ErrorData) :=
  match p with
  | ErrorCounters (Some counters) => Ok counters
  | _ => Raise (KeyError "interfaceErrorCounters")
  end.

(** An object read with [.get]: the keys of another kind of object are
    missing from it. *)
Definition version_of (p : payload) : VersionInfo :=
  match p with
  | Version version_info => version_info
  | _ => mkVersionInfo None None None None None None None None
  end.

Definition fqdn_of (p : payload) : option string :=
  match p with
  | Hostname fqdn => fqdn
  | _ => None
  end.

Definition env_info_of (p : payload) : EnvInfo :=
  match p with
  | Environment env_info => env_info
  | _ => mkEnvInfo None
  end.

Record SwitchInfo : Type := mkSwitchInfo {
  FQDN : string;
  Model : string;
  Serial : string;
  MAC_Address : string;
  Image_Version : string;
  Architecture : string;
  Uptime : string;
  Total_Memory_MB : string;
  Free_Memory_MB : string
}.

(** [str(n)] on an integer. *)
Definition str (n : Z) : string := DecimalString.NilZero.string_of_int (Z.to_int n).

Definition format_uptime (seconds : Z) : string :=
  let weeks := seconds / (7 * 24 * 60 * 60) in
  let days := (seconds mod (7 * 24 * 60 * 60)) / (24 * 60 * 60) in
  let hours := (seconds mod (24 * 60 * 60)) / 3600 in
  let minutes := (seconds mod 3600) / 60 in
  str weeks ++ " weeks, " ++ str days ++ " days, " ++ str hours ++ " hours and "
  ++ str minutes ++ " minutes".

Section Run.

(** The collaborators of the run: the command executor, the clock, the
    number formatting and the page template. *)
Variable execute_command : list string -> outcome Response.
(** [int(datetime.now().timestamp() - bootup_timestamp)] *)
Variable seconds_since : num -> Z.
(** [f"{x / 1024:.2f}"] *)
Variable megabytes : num -> string.
(** [datetime.now().strftime('%Y-%d-%m-%H-%M')] *)
Variable formatted_datetime : string.
(** The page: the interface rows, the chart data and the template. *)
Variable html_content :
  SwitchInfo -> EnvironmentSnapshot -> list (string * PortCounters) -> Series -> string.

Definition get_switch_info : outcome SwitchInfo :=
  response <- execute_command ["show version"; "show hostname"] ;;
  p0 <- result_at response 0 ;;
  let version_info := version_of p0 in
  p1 <- result_at response 1 ;;
  let hostname_info := fqdn_of p1 in
  let bootup_timestamp := or_default (bootupTimestamp version_info) (Int 0) in
  let uptime_seconds := seconds_since bootup_timestamp in
  Ok {| FQDN := or_default hostname_info "N/A";
        Model := or_default (modelName version_info) "N/A";
        Serial := or_default (serialNumber version_info) "N/A";
        MAC_Address := or_default (systemMacAddress version_info) "N/A";
        Image_Version := or_default (version version_info) "N/A";
        Architecture := or_default (architecture version_info) "N/A";
        Uptime := format_uptime uptime_seconds;
        Total_Memory_MB := megabytes (or_default (memTotal version_info) (Int 0));
        Free_Memory_MB := megabytes (or_default (memFree version_info) (Int 0)) |}.

Definition get_interface_counters : outcome (dict PortCounters) :=
  response_rates <- execute_command ["show interfaces counters rates"] ;;
  response_errors <- execute_command ["show interfaces counters errors"] ;;
  r0 <- result_at response_rates 0 ;;
  interfaces_rates <- interfaces_of r0 ;;
  e0 <- result_at response_errors 0 ;;
  interfaces_errors <- error_counters_of e0 ;;
  Ok (combined_data interfaces_rates interfaces_errors).

Definition get_environment_info : outcome EnvironmentSnapshot :=
  response <- execute_command ["show environment all"] ;;
  p0 <- result_at response 0 ;;
  parse_environment (env_info_of p0).

Definition generate_html_report : action unit :=
  switch_info <~ lift get_switch_info ;;
  interface_counters <~ lift get_interface_counters ;;
  environment_info <~ lift get_environment_info ;;
  let sorted_eth_interfaces := sort_eth_interfaces interface_counters in
  data <~ lift (prepare_interface_data sorted_eth_interfaces) ;;
  write_file (FQDN switch_info ++ "-" ++ formatted_datetime ++ "-report.html")
    (html_content switch_info environment_info sorted_eth_interfaces data).

Definition main : action unit :=
  try_except
    (_ <~ generate_html_report ;; print "Report generated successfully")
    (fun e => print ("Error generating report: " ++ exn_message e)).

(** The status the interpreter exits with once [main()] is over: 0 when it
    returned, 1 when an exception escaped it. *)
Definition exit_status (w : World) : Z :=
  match snd (main w) with
  | Ok _ => 0
  | Raise _ => 1
  end.

(** The exception [e] is the first one a fetching step of the run raises. *)
Definition first_raise (e : exn) : Prop :=
  get_switch_info = Raise e
  \/ (exists s, get_switch_info = Ok s /\ get_interface_counters = Raise e)
  \/ (exists s c,
        get_switch_info = Ok s /\ get_interface_counters = Ok c /\ get_environment_info = Raise e).

End Run.

(** ** Further parts of the report *)

(** The four numbers [format_uptime] prints. *)
Definition uptime_parts (seconds : Z) : Z * Z * Z * Z :=
  (seconds / (7 * 24 * 60 * 60),
   (seconds mod (7 * 24 * 60 * 60)) / (24 * 60 * 60),
   (seconds mod (24 * 60 * 60)) / 3600,
   (seconds mod 3600) / 60).

(** [l[i]] *)
Definition item_at {A : Type} (l : list A) (i : nat) : outcome A :=
  match nth_error l i with
  | Some a => Ok a
  | None => Raise (IndexError "list index out of range")
  end.

(** The entries of the three charts, as [generate_html_report] builds them
    before [json.dumps]. *)
Module Traffic.
Record point : Type := mkPoint {
  port_number : string;
  InBpsRate : num;
  OutBpsRate : num
}.
End Traffic.

Module Errors.
Record point : Type := mkPoint {
  port_number : string;
  InErrors : Z;
  OutErrors : Z;
  FrameTooLongs : Z;
  FrameTooShorts : Z;
  FCSErrors : Z;
  AlignmentErrors : Z;
  SymbolErrors : Z
}.
End Errors.

Module Pie.
Record point : Type := mkPoint {
  port : string;
  totalErrors : Z
}.
End Pie.

(** [f"Eth{data['port_numbers'][i]}"] *)
Definition chart_category (data : Series) (i : nat) : outcome string :=
  n <- item_at (port_numbers data) i ;; Ok ("Eth" ++ str n).

Definition traffic_point (data : Series) (i : nat) : outcome Traffic.point :=
  category <- chart_category data i ;;
  rate_in <- item_at (in_bps_data data) i ;;
  rate_out <- item_at (out_bps_data data) i ;;
  Ok (Traffic.mkPoint category rate_in rate_out).

(** [range(n)] *)
Definition range (n : nat) : list nat := seq 0 n.

Definition traffic_chart_data (data : Series) : outcome (list Traffic.point) :=
  mapM (traffic_point data) (range (List.length (labels data))).

Definition error_point (data : Series) (i : nat) : outcome Errors.point :=
  category <- chart_category data i ;;
  e1 <- item_at (in_errors_data data) i ;;
  e2 <- item_at (out_errors_data data) i ;;
  e3 <- item_at (frame_too_longs_data data) i ;;
  e4 <- item_at (frame_too_shorts_data data) i ;;
  e5 <- item_at (fcs_errors_data data) i ;;
  e6 <- item_at (alignment_errors_data data) i ;;
  e7 <- item_at (symbol_errors_data data) i ;;
  Ok (Errors.mkPoint category e1 e2 e3 e4 e5 e6 e7).

Definition error_chart_data (data : Series) : outcome (list Errors.point) :=
  mapM (error_point data) (range (List.length (labels data))).

(** The pie chart runs over [enumerate(sorted_eth_interfaces)] and keeps the
    indices whose total is positive; [i] is the index of the first item. *)
Fixpoint pie_chart_from (data : Series) (i : nat)
  (sorted_eth_interfaces : list (string * PortCounters)) : outcome (list Pie.point) :=
  match sorted_eth_interfaces with
  | [] => Ok []
  | _ :: rest =>
      total <- item_at (total_errors_data data) i ;;
      if (0 <? total)%Z
      then
        category <- chart_category data i ;;
        total' <- item_at (total_errors_data data) i ;;
        points <- pie_chart_from data (S i) rest ;;
        Ok (Pie.mkPoint category total' :: points)
      else pie_chart_from data (S i) rest
  end.

Definition pie_chart_data (sorted_eth_interfaces : list (string * PortCounters))
  (data : Series) : outcome (list Pie.point) :=
  pie_chart_from data 0 sorted_eth_interfaces.

Section Rows.

(** [f"{x:.2f}"] on a float. *)
Variable format_2f : num -> string.

(** One row of the statistics table; [index] counts from zero. *)
Definition interface_row (index : nat) (item : string * PortCounters) : outcome string :=
  let (port, data) := item in
  rate_out <- div_million (outBpsRate data) ;;
  rate_in <- div_million (inBpsRate data) ;;
  Ok ("<tr><th scope='row'>" ++ str (Z.of_nat index + 1) ++ "</th><td>" ++ port
      ++ "</td><td>" ++ description data ++ "</td>"
      ++ "<td>" ++ format_2f rate_out ++ "</td><td>" ++ format_2f rate_in ++ "</td>"
      ++ "<td>" ++ str (inErrors data) ++ "</td><td>" ++ str (outErrors data) ++ "</td>"
      ++ "<td>" ++ str (frameTooLongs data) ++ "</td><td>" ++ str (frameTooShorts data)
      ++ "</td>"
      ++ "<td>" ++ str (fcsErrors data) ++ "</td><td>" ++ str (alignmentErrors data)
      ++ "</td>"
      ++ "<td>" ++ str (symbolErrors data) ++ "</td></tr>").

Fixpoint interface_rows_from (index : nat) (rows : string)
  (sorted_interfaces : list (string * PortCounters)) : outcome string :=
  match sorted_interfaces with
  | [] => Ok rows
  | item :: rest =>
      row <- interface_row index item ;;
      interface_rows_from (S index) (rows ++ row) rest
  end.

Definition generate_interface_rows (sorted_interfaces : list (string * PortCounters))
  : outcome string :=
  interface_rows_from 0 "" sorted_interfaces.

End Rows.

(** Every character of the string is of the class. *)
Fixpoint all_chars (cls : ascii -> bool) (s : string) : bool :=
  match s with
  | EmptyString => true
  | String c s' => cls c && all_chars cls s'
  end.

(** The string does not start with a character of the class. *)
Definition stops (cls : ascii -> bool) (s : string) : bool :=
  match s with
  | EmptyString => true
  | String c _ => negb (cls c)
  end.

(** The runs a finished run of digits leaves behind. *)
Definition flush (cur : string) : list string :=
  match cur with
  | EmptyString => []
  | _ => [PyStr.rev cur]
  end.

(** A non-empty string of decimal digits. *)
Definition digit_run (part : string) : Prop :=
  part <> "" /\ all_chars PyStr.isdigit part = true.

(** A non-empty string of characters of the class. *)
Definition run_of (cls : ascii -> bool) (s : string) : bool :=
  negb (is_empty s) && all_chars cls s.

(** The two values the snapshot shows are a sentinel or well formed. *)
Definition status_values_well_formed (cooling temperature : string) : Prop :=
  (cooling = "N/A" \/ run_of PyStr.isword cooling = true)
  /\ (temperature = "N/A"
      \/ exists digits, run_of PyStr.isdigit digits = true
                        /\ temperature = digits ++ "C").

(** The string starts with a character of the class. *)
Definition starts_with (cls : ascii -> bool) (s : string) : bool :=
  match s with
  | EmptyString => false
  | String c _ => cls c
  end.

(** The entry the loop of the normalizer stores for an item of the rate
    counters. *)
Definition normalized_entry (interfaces_errors : dict ErrorData)
  (item : string * RateData) : string * PortCounters :=
  (canonical (fst item), port_record (snd item) (get interfaces_errors (fst item) [])).

(** The two tables of the environment text, and the table a stripped line is
    the header of, the fan rule being tried first. *)
Inductive table : Type :=
| FanTable
| PowerTable.

Definition header_of (line : string) : option table :=
  if fan_header line then Some FanTable
  else if power_header line then Some PowerTable
  else None.

Definition in_table (t : table) (st : ParserState) : Prop :=
  match t with
  | FanTable => parsing_fan st = true /\ parsing_power st = false
  | PowerTable => parsing_fan st = false /\ parsing_power st = true
  end.

(** ** The run with what the interpreter and the file system refuse

    [int] refuses a digit run of more than 4300 digits, the default of
    [sys.get_int_max_str_digits()], with a [ValueError]; the clock
    arithmetic and the memory formatting of [get_switch_info] may raise;
    [open] may refuse the name, and the write may fail once the file is
    there. The definitions of this module are those of the run above with
    these raises in place. *)

Definition int_max_str_digits : nat := 4300.

Definition int_limit_message (digits : nat) : string :=
  "Exceeds the limit (4300 digits) for integer string conversion: value has "
  ++ str (Z.of_nat digits)
  ++ " digits; use sys.set_int_max_str_digits() to increase the limit".

Module Full.

(** [int(s)] on a digit run: leading zeros count as digits. *)
Definition int (s : string) : outcome Z :=
  if (String.length s <=? int_max_str_digits)%nat then Ok (PyStr.int s)
  else Raise (ValueError (int_limit_message (String.length s))).

Definition interface_sort_key (interface_name : string) : outcome (list Z) :=
  let parts := PyStr.findall_digits interface_name in
  mapM int parts.

(** [sorted(items, key=...)] calls the key function on every item, in order,
    before it compares any two; the items are then sorted by the keys
    computed. *)
Definition sort_eth_interfaces (interfaces : dict PortCounters)
  : outcome (list (string * PortCounters)) :=
  keyed <- mapM (fun x => k <- interface_sort_key (fst x) ;; Ok (k, x))
             (eth_interfaces interfaces) ;;
  Ok (map snd (sorted fst keyed)).

(** [int(re.findall(r'\d+', port)[0])] *)
Definition port_number (port : string) : outcome Z :=
  match PyStr.findall_digits port with
  | [] => Raise (IndexError "list index out of range")
  | part :: _ => int part
  end.

Definition prepare_interface_data (sorted_interfaces : list (string * PortCounters))
  : outcome Series :=
  let labels := map fst sorted_interfaces in
  port_numbers <- mapM port_number labels ;;
  in_bps_data <- mapM (fun item => scaled (inBpsRate (snd item))) sorted_interfaces ;;
  out_bps_data <- mapM (fun item => scaled (outBpsRate (snd item))) sorted_interfaces ;;
  Ok {| labels := labels;
        port_numbers := port_numbers;
        in_bps_data := in_bps_data;
        out_bps_data := out_bps_data;
        in_errors_data := map (fun item => inErrors (snd item)) sorted_interfaces;
        out_errors_data := map (fun item => outErrors (snd item)) sorted_interfaces;
        frame_too_longs_data := map (fun item => frameTooLongs (snd item)) sorted_interfaces;
        frame_too_shorts_data := map (fun item => frameTooShorts (snd item)) sorted_interfaces;
        fcs_errors_data := map (fun item => fcsErrors (snd item)) sorted_interfaces;
        alignment_errors_data := map (fun item => alignmentErrors (snd item)) sorted_interfaces;
        symbol_errors_data := map (fun item => symbolErrors (snd item)) sorted_interfaces;
        total_errors_data := map (fun item => totalErrors (snd item)) sorted_interfaces |}.

(** An [int] as the arithmetic of a [float] with an [int] converts it: to
    the nearest float, and not at all when that float is not finite. *)
Definition float_of_long (z : Z) : outcome float :=
  match binary_normalize prec emax z 0 false with
  | S754_infinity _ => Raise (OverflowError "int too large to convert to float")
  | q => Ok (SF2Prim q)
  end.

(** [int(f)] on a float: the integer part. *)
Definition int_of_float (f : float) : outcome Z :=
  match Prim2SF f with
  | S754_zero _ => Ok 0
  | S754_finite s m e =>
      let magnitude := Z.shiftl (Zpos m) e in
      Ok (if s then - magnitude else magnitude)
  | S754_infinity _ => Raise (OverflowError "cannot convert float infinity to integer")
  | S754_nan => Raise (ValueError "cannot convert float NaN to integer")
  end.

(** [int(current_timestamp - bootup_timestamp)] *)
Definition seconds_since (current_timestamp : float) (bootup_timestamp : num)
  : outcome Z :=
  b <- match bootup_timestamp with
       | Int z => float_of_long z
       | Float f => Ok f
       end ;;
  int_of_float (current_timestamp - b)%float.

Section Run.

Variable execute_command : list string -> outcome Response.
(** [datetime.now().timestamp()] *)
Variable current_timestamp : float.
(** [f"{x:.2f}"] on a float. *)
Variable format_2f : num -> string.
(** [datetime.now().strftime('%Y-%d-%m-%H-%M')] *)
Variable formatted_datetime : string.
(** The page: the interface rows, the chart data and the template. *)
Variable html_content :
  SwitchInfo -> EnvironmentSnapshot -> list (string * PortCounters) -> Series -> string.
(** [open(name, 'w', encoding='utf-8')]: the file is there, empty, once it
    has returned. *)
Variable open_file : string -> outcome unit.
(** [f.write(content)] and the closing of the file, by name and content. *)
Variable write_text : string -> string -> outcome unit.
(** What the file holds when the write has failed. *)
Variable left_behind : string -> string -> string.

(** [f"{x / 1024:.2f}"]: the true division of [div_million], by 1024. *)
Definition megabytes (x : num) : outcome string :=
  match x with
  | Int z =>
      match SFdiv prec emax (float_of_int z) (float_of_int 1024) with
      | S754_infinity _ =>
          Raise (OverflowError "integer division result too large for a float")
      | q => Ok (format_2f (Float (SF2Prim q)))
      end
  | Float f => Ok (format_2f (Float (f / 1024)%float))
  end.

(** The uptime is computed before the dictionary is built; the two memory
    figures are formatted while it is built, the total first. *)
Definition get_switch_info : outcome SwitchInfo :=
  response <- execute_command ["show version"; "show hostname"] ;;
  p0 <- result_at response 0 ;;
  let version_info := version_of p0 in
  p1 <- result_at response 1 ;;
  let hostname_info := fqdn_of p1 in
  let bootup_timestamp := or_default (bootupTimestamp version_info) (Int 0) in
  uptime_seconds <- seconds_since current_timestamp bootup_timestamp ;;
  total_memory <- megabytes (or_default (memTotal version_info) (Int 0)) ;;
  free_memory <- megabytes (or_default (memFree version_info) (Int 0)) ;;
  Ok {| FQDN := or_default hostname_info "N/A";
        Model := or_default (modelName version_info) "N/A";
        Serial := or_default (serialNumber version_info) "N/A";
        MAC_Address := or_default (systemMacAddress version_info) "N/A";
        Image_Version := or_default (version version_info) "N/A";
        Architecture := or_default (architecture version_info) "N/A";
        Uptime := format_uptime uptime_seconds;
        Total_Memory_MB := total_memory;
        Free_Memory_MB := free_memory |}.

(** [with open(name, 'w', encoding='utf-8') as f: f.write(content)] *)
Definition write_file (name content : string) : action unit :=
  fun w =>
    match open_file name with
    | Raise e => (w, Raise e)
    | Ok _ =>
        match write_text name content with
        | Ok _ => (mkWorld (files w ++ [(name, content)])%list (stdout w), Ok tt)
        | Raise e =>
            (mkWorld (files w ++ [(name, left_behind name content)])%list (stdout w),
             Raise e)
        end
    end.

Definition generate_html_report : action unit :=
  switch_info <~ lift get_switch_info ;;
  interface_counters <~ lift (get_interface_counters execute_command) ;;
  environment_info <~ lift (get_environment_info execute_command) ;;
  sorted_eth_interfaces <~ lift (sort_eth_interfaces interface_counters) ;;
  data <~ lift (prepare_interface_data sorted_eth_interfaces) ;;
  write_file (FQDN switch_info ++ "-" ++ formatted_datetime ++ "-report.html")
    (html_content switch_info environment_info sorted_eth_interfaces data).

Definition main : action unit :=
  try_except
    (_ <~ generate_html_report ;; print "Report generated successfully")
    (fun e => print ("Error generating report: " ++ exn_message e)).

Definition exit_status (w : World) : Z :=
  match snd (main w) with
  | Ok _ => 0
  | Raise _ => 1
  end.

End Run.

End Full.

(** The port has a digit run, and [int] takes the first one. *)
Definition has_port_number (port : string) : Prop :=
  exists part parts,
    PyStr.findall_digits port = part :: parts
    /\ (String.length part <= int_max_str_digits)%nat.

(** [c * n] *)
Definition repeated (c : ascii) (n : nat) : string :=
  string_of_list_ascii (List.repeat c n).

(** No digit run of the name is beyond the limit of [int]. *)
Definition within_int_limit (name : string) : Prop :=
  Forall (fun part => (String.length part <= int_max_str_digits)%nat)
    (PyStr.findall_digits name).

(** * Properties *)

(** ** Dictionaries *)

Section DictFacts.

Context {V : Type}.

Lemma dict_get_set_same (k : string) (v : V) (d : dict V) :
  dict_get k (dict_set k v d) = Some v.
Proof.
  induction d as [|[k' v'] d IH]; simpl.
  - now rewrite String.eqb_refl.
  - destruct (String.eqb k k') eqn:E; simpl; rewrite E; auto.
Qed.

Lemma dict_get_set_other (k k' : string) (v : V) (d : dict V) :
  k <> k' -> dict_get k' (dict_set k v d) = dict_get k' d.
Proof.
  intros Hne. induction d as [|[k0 v0] d IH]; simpl.
  - destruct (String.eqb k' k) eqn:E; auto.
    apply String.eqb_eq in E. congruence.
  - destruct (String.eqb k k0) eqn:E; simpl.
    + apply String.eqb_eq in E. subst k0.
      destruct (String.eqb k' k) eqn:E'; auto.
      apply String.eqb_eq in E'. congruence.
    + now rewrite IH.
Qed.

Lemma keys_dict_set (k k' : string) (v : V) (d : dict V) :
  In k' (keys (dict_set k v d)) <-> k' = k \/ In k' (keys d).
Proof.
  unfold keys. induction d as [|[k0 v0] d IH]; simpl.
  - intuition.
  - destruct (String.eqb k k0) eqn:E; simpl.
    + apply String.eqb_eq in E. subst k0. intuition.
    + rewrite IH. intuition.
Qed.

Lemma In_dict_set (k : string) (v : V) (d : dict V) (e : string * V) :
  In e (dict_set k v d) -> e = (k, v) \/ In e d.
Proof.
  induction d as [|[k0 v0] d IH]; simpl.
  - intuition.
  - destruct (String.eqb k k0) eqn:E; simpl.
    + apply String.eqb_eq in E. subst k0. intuition.
    + intuition.
Qed.

Lemma NoDup_dict_set (k : string) (v : V) (d : dict V) :
  NoDup (keys d) -> NoDup (keys (dict_set k v d)).
Proof.
  unfold keys. induction d as [|[k0 v0] d IH]; simpl; intros Hnd.
  - constructor; [intros [] | constructor].
  - inversion Hnd as [|? ? Hnotin Hnd']; subst.
    destruct (String.eqb k k0) eqn:E; simpl.
    + now constructor.
    + constructor; [|auto].
      intros Hin. apply (keys_dict_set k k0 v d) in Hin.
      destruct Hin as [->|Hin]; [|contradiction].
      now rewrite String.eqb_refl in E.
Qed.

Lemma dict_get_not_in (k : string) (d : dict V) :
  ~ In k (keys d) -> dict_get k d = None.
Proof.
  unfold keys. induction d as [|[k0 v0] d IH]; simpl; intros Hnotin; auto.
  destruct (String.eqb k k0) eqn:E.
  - apply String.eqb_eq in E. subst. intuition.
  - apply IH. intuition.
Qed.

(** Appending a fresh key: what [d[k] = v] does when [k] is new. *)
Lemma dict_set_fresh (k : string) (v : V) (d : dict V) :
  ~ In k (keys d) -> dict_set k v d = (d ++ [(k, v)])%list.
Proof.
  unfold keys. induction d as [|[k0 v0] d IH]; simpl; intros Hnotin; auto.
  destruct (String.eqb k k0) eqn:E.
  - apply String.eqb_eq in E. subst. intuition.
  - f_equal. apply IH. intuition.
Qed.

Lemma dict_of_items_from (items d : dict V) :
  NoDup (keys (d ++ items)%list) ->
  fold_left (fun d kv => dict_set (fst kv) (snd kv) d) items d = (d ++ items)%list.
Proof.
  revert d. induction items as [|[k v] items IH]; intros d Hnd; simpl.
  - now rewrite app_nil_r.
  - assert (Hsplit : (d ++ (k, v) :: items = (d ++ [(k, v)]) ++ items)%list)
      by now rewrite <- app_assoc.
    rewrite dict_set_fresh.
    + rewrite IH; [now rewrite <- app_assoc|]. now rewrite <- Hsplit.
    + unfold keys in Hnd. rewrite map_app in Hnd. simpl in Hnd.
      apply NoDup_remove_2 in Hnd. intros Hin. apply Hnd.
      apply in_or_app. now left.
Qed.

(** A dictionary rebuilt from its own items is itself. *)
Lemma dict_of_items_id (d : dict V) :
  NoDup (keys d) -> dict_of_items d = d.
Proof.
  intros Hnd. unfold dict_of_items. now rewrite dict_of_items_from.
Qed.

End DictFacts.

(** ** Counter normalizer *)

Lemma port_record_total (rate_data : RateData) (error_data : ErrorData) :
  totalErrors (port_record rate_data error_data)
  = sum_of_seven (port_record rate_data error_data).
Proof.
  unfold sum_of_seven, port_record, sum. simpl. lia.
Qed.

(** A total supplied by the device under the key [totalErrors] is not read. *)
Lemma port_record_ignores_device_total (rate_data : RateData)
  (error_data : ErrorData) (v : Z) :
  port_record rate_data (("totalErrors", v) :: error_data)
  = port_record rate_data error_data.
Proof. reflexivity. Qed.

Lemma port_record_no_errors (rate_data : RateData) :
  let p := port_record rate_data [] in
  inErrors p = 0 /\ outErrors p = 0 /\ frameTooLongs p = 0 /\ frameTooShorts p = 0
  /\ fcsErrors p = 0 /\ alignmentErrors p = 0 /\ symbolErrors p = 0
  /\ totalErrors p = 0.
Proof. cbv. repeat split. Qed.

(** Every entry of the mapping under construction was built by the loop body
    from an entry of the rate counters. *)
Lemma combined_data_entries (errors : dict ErrorData) (rates : dict RateData)
  (acc : dict PortCounters) (e : string * PortCounters) :
  In e (fold_left (combine_step errors) rates acc) ->
  In e acc \/
  exists port rate_data,
    In (port, rate_data) rates /\
    e = (canonical port, port_record rate_data (get errors port [])).
Proof.
  revert acc. induction rates as [|[port rd] rates IH]; intros acc Hin; simpl in *.
  - now left.
  - apply IH in Hin. destruct Hin as [Hin|(port' & rd' & Hin' & He)].
    + apply In_dict_set in Hin. destruct Hin as [He|Hin]; [|now left].
      right. exists port, rd. split; [now left|exact He].
    + right. exists port', rd'. split; [now right|exact He].
Qed.

Lemma combined_data_keys_from (errors : dict ErrorData) (rates : dict RateData)
  (acc : dict PortCounters) (k : string) :
  In k (keys (fold_left (combine_step errors) rates acc)) <->
  In k (keys acc) \/ In k (map canonical (keys rates)).
Proof.
  revert acc. induction rates as [|[port rd] rates IH]; intros acc; simpl.
  - intuition.
  - rewrite IH. unfold combine_step. rewrite keys_dict_set. intuition.
Qed.

Lemma combined_data_NoDup (rates : dict RateData) (errors : dict ErrorData) :
  NoDup (keys (combined_data rates errors)).
Proof.
  unfold combined_data.
  assert (H : forall acc, NoDup (keys acc) ->
                NoDup (keys (fold_left (combine_step errors) rates acc))).
  { induction rates as [|[port rd] rates IH]; intros acc Hacc; simpl; auto.
    apply IH. now apply NoDup_dict_set. }
  apply H. constructor.
Qed.

(** Later ports with another canonical name leave an entry as it is. *)
Lemma combined_data_get_kept (errors : dict ErrorData) (rates : dict RateData)
  (acc : dict PortCounters) (k : string) :
  (forall q, In q (keys rates) -> canonical q <> k) ->
  dict_get k (fold_left (combine_step errors) rates acc) = dict_get k acc.
Proof.
  revert acc. induction rates as [|[port rd] rates IH]; intros acc Hother; simpl; auto.
  rewrite IH.
  - unfold combine_step. apply dict_get_set_other. apply Hother. now left.
  - intros q Hq. apply Hother. now right.
Qed.

Lemma combined_data_get_last (errors : dict ErrorData)
  (before after : dict RateData) (port : string) (rate_data : RateData) :
  (forall q, In q (keys after) -> canonical q <> canonical port) ->
  dict_get (canonical port)
    (combined_data (before ++ (port, rate_data) :: after)%list errors)
  = Some (port_record rate_data (get errors port [])).
Proof.
  intros Hother. unfold combined_data. rewrite fold_left_app. simpl.
  rewrite combined_data_get_kept by exact Hother.
  unfold combine_step at 1. apply dict_get_set_same.
Qed.

Lemma port_record_with_device_total (v : Z) (errors : dict ErrorData)
  (port : string) (rate_data : RateData) :
  port_record rate_data (get (with_device_total v errors) port [])
  = port_record rate_data (get errors port []).
Proof.
  unfold get. induction errors as [|[k ed] errors IH]; simpl; auto.
  destruct (String.eqb port k); auto.
Qed.

Lemma combined_data_with_device_total (v : Z) (rates : dict RateData)
  (errors : dict ErrorData) :
  combined_data rates (with_device_total v errors) = combined_data rates errors.
Proof.
  unfold combined_data. generalize (@nil (string * PortCounters)).
  induction rates as [|[port rd] rates IH]; intros acc; simpl; auto.
  rewrite IH. now rewrite port_record_with_device_total.
Qed.

(** C1. Every record of the mapping the counter normalizer returns has its
    [totalErrors] equal to the sum of its seven error fields, and the mapping
    is the same whatever total the device supplies: the total is recomputed,
    never read. *)
Theorem total_errors_is_recomputed_sum (rates : dict RateData)
  (errors : dict ErrorData) (port : string) (p : PortCounters) (v : Z) :
  In (port, p) (combined_data rates errors) ->
  totalErrors p
  = inErrors p + outErrors p + frameTooLongs p + frameTooShorts p
    + fcsErrors p + alignmentErrors p + symbolErrors p
  /\ combined_data rates (with_device_total v errors) = combined_data rates errors.
Proof.
  intros Hin. split; [|apply combined_data_with_device_total].
  apply combined_data_entries in Hin.
  destruct Hin as [[]|(port0 & rd & _ & He)].
  inversion He; subst. apply port_record_total.
Qed.

Lemma total_errors_is_recomputed_sum_witness :
  let errors := [("Ethernet1", [("inErrors", 3); ("fcsErrors", 4); ("totalErrors", 99)])] in
  let p := mkPortCounters "uplink" (Int 10) (Int 20) 7 3 0 0 0 4 0 0 in
  totalErrors p
  = inErrors p + outErrors p + frameTooLongs p + frameTooShorts p
    + fcsErrors p + alignmentErrors p + symbolErrors p
  /\ combined_data
       [("Ethernet1", mkRateData (Some "uplink") (Some (Int 10)) (Some (Int 20)))]
       (with_device_total 100 errors)
     = combined_data
         [("Ethernet1", mkRateData (Some "uplink") (Some (Int 10)) (Some (Int 20)))]
         errors.
Proof.
  apply (total_errors_is_recomputed_sum
           [("Ethernet1", mkRateData (Some "uplink") (Some (Int 10)) (Some (Int 20)))]
           [("Ethernet1", [("inErrors", 3); ("fcsErrors", 4); ("totalErrors", 99)])]
           "Eth1").
  simpl. left. reflexivity.
Defined.

(** Later ports of the same canonical name that have no error entry either
    leave a record without errors in place. *)
Lemma combined_data_get_absent (errors : dict ErrorData) (rates : dict RateData)
  (k : string) :
  (forall q, In q (keys rates) -> canonical q = k -> dict_get q errors = None) ->
  forall acc p0,
    dict_get k acc = Some p0 -> no_errors p0 ->
    exists p,
      dict_get k (fold_left (combine_step errors) rates acc) = Some p /\ no_errors p.
Proof.
  induction rates as [|[q rd] rates IH]; intros Habsent acc p0 Hget Hzero;
    cbn [fold_left]; [eauto|].
  assert (Hrest : forall q', In q' (keys rates) -> canonical q' = k ->
                             dict_get q' errors = None)
    by (intros q' Hq'; apply Habsent; now right).
  unfold combine_step at 2.
  destruct (string_dec (canonical q) k) as [Heq|Hne].
  - assert (Hq : dict_get q errors = None) by (apply Habsent; [now left|exact Heq]).
    unfold get. rewrite Hq, Heq.
    apply (IH Hrest _ (port_record rd [])).
    + apply dict_get_set_same.
    + apply port_record_no_errors.
  - apply (IH Hrest _ p0); [|exact Hzero].
    now rewrite dict_get_set_other.
Qed.

(** C3, as the code has it. For every pair of mappings, the mapping returned
    is keyed by the canonical names of the rate counters' keys and by nothing
    else; and a port of the rate counters that the error counters do not
    have, when the later ports of the rate counters with the same canonical
    name are not in the error counters either, has a record whose seven error
    fields and [totalErrors] are zero. *)
Theorem normalizer_keys_and_absent_errors (rates : dict RateData)
  (errors : dict ErrorData) :
  (forall k, In k (keys (combined_data rates errors))
             <-> In k (map canonical (keys rates)))
  /\ (forall before after port rate_data,
        rates = (before ++ (port, rate_data) :: after)%list ->
        dict_get port errors = None ->
        (forall q, In q (keys after) -> canonical q = canonical port ->
                   dict_get q errors = None) ->
        exists p,
          dict_get (canonical port) (combined_data rates errors) = Some p
          /\ inErrors p = 0 /\ outErrors p = 0 /\ frameTooLongs p = 0
          /\ frameTooShorts p = 0 /\ fcsErrors p = 0 /\ alignmentErrors p = 0
          /\ symbolErrors p = 0 /\ totalErrors p = 0).
Proof.
  split.
  - intros k. unfold combined_data. rewrite combined_data_keys_from. simpl. intuition.
  - intros before after port rate_data -> Hnone Hlater.
    unfold combined_data. rewrite fold_left_app. cbn [fold_left].
    apply (combined_data_get_absent errors after (canonical port) Hlater _
             (port_record rate_data [])).
    + unfold combine_step at 1. unfold get. rewrite Hnone. apply dict_get_set_same.
    + apply port_record_no_errors.
Qed.

Lemma normalizer_keys_and_absent_errors_witness :
  let rates :=
    [("Ethernet1", mkRateData (Some "uplink") (Some (Int 1000000)) (Some (Int 2000000)));
     ("Ethernet2", mkRateData None None None);
     ("Eth1", mkRateData None None None)] in
  let errors := [("Ethernet2", [("inErrors", 5)])] in
  exists p,
    dict_get (canonical "Ethernet1") (combined_data rates errors) = Some p
    /\ inErrors p = 0 /\ outErrors p = 0 /\ frameTooLongs p = 0
    /\ frameTooShorts p = 0 /\ fcsErrors p = 0 /\ alignmentErrors p = 0
    /\ symbolErrors p = 0 /\ totalErrors p = 0.
Proof.
  apply (proj2 (normalizer_keys_and_absent_errors
                  [("Ethernet1",
                    mkRateData (Some "uplink") (Some (Int 1000000)) (Some (Int 2000000)));
                   ("Ethernet2", mkRateData None None None);
                   ("Eth1", mkRateData None None None)]
                  [("Ethernet2", [("inErrors", 5)])])
           []
           [("Ethernet2", mkRateData None None None);
            ("Eth1", mkRateData None None None)]
           "Ethernet1"
           (mkRateData (Some "uplink") (Some (Int 1000000)) (Some (Int 2000000)))).
  - reflexivity.
  - reflexivity.
  - simpl. intros q [<-|[<-|[]]] Hq; [vm_compute in Hq; discriminate|reflexivity].
Defined.

(** C3 as stated fails where two keys of the rate counters share a canonical
    name: [Ethernet1] is absent from the error counters, and the record under
    its canonical name [Eth1] is the one built later for the key [Eth1], with
    that key's errors. *)
Lemma absent_errors_overwritten_by_alias :
  In "Ethernet1"
    (keys [("Ethernet1", mkRateData None None None);
           ("Eth1", mkRateData None None None)])
  /\ dict_get "Ethernet1" [("Eth1", [("inErrors", 5)])] = None
  /\ dict_get (canonical "Ethernet1")
       (combined_data
          [("Ethernet1", mkRateData None None None);
           ("Eth1", mkRateData None None None)]
          [("Eth1", [("inErrors", 5)])])
     = Some (mkPortCounters "" (Int 0) (Int 0) 5 5 0 0 0 0 0 0).
Proof.
  split; [simpl; now left|]. split; reflexivity.
Qed.

(** ** Port ordering *)

Lemma list_lt_irrefl (a : list Z) : list_lt a a = false.
Proof.
  induction a as [|x a IH]; simpl; auto.
  now rewrite Z.eqb_refl.
Qed.

Lemma list_lt_asym (a b : list Z) : list_lt a b = true -> list_lt b a = false.
Proof.
  revert b. induction a as [|x a IH]; intros [|y b]; simpl; auto; try discriminate.
  destruct (Z.eqb_spec x y) as [->|Hne].
  - rewrite Z.eqb_refl. apply IH.
  - destruct (Z.eqb_spec y x); [congruence|].
    intros H. apply Z.ltb_lt in H. apply Z.ltb_ge. lia.
Qed.

(** Whatever lies below [c] lies below [b] or has [b] below [c]. *)
Lemma list_lt_cotrans (a b c : list Z) :
  list_lt a c = true -> list_lt a b = true \/ list_lt b c = true.
Proof.
  revert b c. induction a as [|x a IH]; intros [|y b] [|z c]; simpl; auto;
    try discriminate.
  destruct (Z.eqb_spec x z) as [->|Hxz].
  - intros H. destruct (Z.eqb_spec z y) as [->|Hzy].
    + rewrite Z.eqb_refl. now apply IH.
    + destruct (Z.eqb_spec y z); [congruence|].
      destruct (Z.ltb_spec z y); [now left|]. right. apply Z.ltb_lt. lia.
  - intros H. apply Z.ltb_lt in H.
    destruct (Z.eqb_spec x y) as [->|Hxy].
    + right. destruct (Z.eqb_spec y z); [congruence|]. now apply Z.ltb_lt.
    + destruct (Z.ltb_spec x y); [now left|]. right.
      destruct (Z.eqb_spec y z); [lia|]. apply Z.ltb_lt. lia.
Qed.

Lemma list_lt_trans (a b c : list Z) :
  list_lt a b = true -> list_lt b c = true -> list_lt a c = true.
Proof.
  intros Hab Hbc. destruct (list_lt_cotrans b a c Hbc) as [Hba|Hac]; auto.
  apply list_lt_asym in Hab. congruence.
Qed.

(** Two keys neither of which is below the other are the same key. *)
Lemma list_lt_connected (a b : list Z) :
  list_lt a b = false -> list_lt b a = false -> a = b.
Proof.
  revert b. induction a as [|x a IH]; intros [|y b]; simpl; auto; try discriminate.
  destruct (Z.eqb_spec x y) as [->|Hxy].
  - rewrite Z.eqb_refl. intros H1 H2. f_equal. now apply IH.
  - destruct (Z.eqb_spec y x); [congruence|].
    intros H1 H2. apply Z.ltb_ge in H1, H2. lia.
Qed.

(** [a < b] is the lexicographic order of the integers: the lists part at a
    position where [a] has the smaller integer, or [a] is a proper prefix of
    [b]. *)
Lemma list_lt_lexicographic (a b : list Z) :
  list_lt a b = true <->
  (exists common x y a' b',
      a = (common ++ x :: a')%list /\ b = (common ++ y :: b')%list /\ x < y)
  \/ (exists y b', b = (a ++ y :: b')%list).
Proof.
  split.
  - revert b. induction a as [|x a IH]; intros [|y b]; simpl; try discriminate.
    + intros _. right. now exists y, b.
    + destruct (Z.eqb_spec x y) as [->|Hxy].
      * intros H. apply IH in H.
        destruct H as [(common & x' & y' & a' & b' & -> & -> & Hlt)|(y' & b' & ->)].
        -- left. now exists (y :: common), x', y', a', b'.
        -- right. now exists y', b'.
      * intros H. apply Z.ltb_lt in H. left. now exists [], x, y, a, b.
  - intros [(common & x & y & a' & b' & -> & -> & Hlt)|(y & b' & ->)].
    + induction common as [|c common IH]; simpl.
      * destruct (Z.eqb_spec x y); [lia|]. now apply Z.ltb_lt.
      * now rewrite Z.eqb_refl.
    + induction a as [|x a IH]; simpl; auto. now rewrite Z.eqb_refl.
Qed.

Section SortedFacts.

Context {A : Type} (key : A -> list Z).

Lemma key_le_trans (x y z : A) : key_le key x y -> key_le key y z -> key_le key x z.
Proof.
  unfold key_le. intros Hxy Hyz.
  destruct (list_lt (key z) (key x)) eqn:E; auto.
  destruct (list_lt_cotrans _ (key y) _ E); congruence.
Qed.

Lemma insert_perm (x : A) (l : list A) : Permutation (x :: l) (insert key x l).
Proof.
  induction l as [|y l IH]; simpl; auto.
  destruct (list_lt (key y) (key x)); auto.
  rewrite perm_swap. now constructor.
Qed.

Lemma sorted_perm (l : list A) : Permutation l (sorted key l).
Proof.
  induction l as [|x l IH]; simpl; auto.
  rewrite <- insert_perm. now constructor.
Qed.

Lemma insert_sorted (x : A) (l : list A) :
  StronglySorted (key_le key) l -> StronglySorted (key_le key) (insert key x l).
Proof.
  induction 1 as [|y l Hl IH Hy]; simpl.
  - repeat constructor.
  - destruct (list_lt (key y) (key x)) eqn:E.
    + constructor; auto.
      apply (Permutation_Forall (insert_perm x l)). constructor; auto.
      unfold key_le. now apply list_lt_asym.
    + constructor; [now constructor|]. constructor; [exact E|].
      eapply Forall_impl; [|exact Hy]. intros z Hz.
      now apply key_le_trans with y.
Qed.

Lemma sorted_sorted (l : list A) : StronglySorted (key_le key) (sorted key l).
Proof.
  induction l as [|x l IH]; simpl; [constructor|now apply insert_sorted].
Qed.

(** Insertion moves [x] past smaller keys only, so the entries of any one
    key stay in the order they had. *)
Lemma filter_insert (k : list Z) (x : A) (l : list A) :
  filter (has_key key k) (insert key x l) = filter (has_key key k) (x :: l).
Proof.
  induction l as [|y l IH]; auto.
  cbn [insert]. destruct (list_lt (key y) (key x)) eqn:E; auto.
  cbn [filter] in *. rewrite IH. unfold has_key.
  destruct (list_eq_dec Z.eq_dec (key x) k) as [Hx|Hx]; auto.
  destruct (list_eq_dec Z.eq_dec (key y) k) as [Hy|Hy]; auto.
  rewrite Hx, Hy, list_lt_irrefl in E. discriminate.
Qed.

Lemma sorted_stable (k : list Z) (l : list A) :
  filter (has_key key k) (sorted key l) = filter (has_key key k) l.
Proof.
  induction l as [|x l IH]; auto.
  cbn [sorted]. rewrite filter_insert. cbn [filter]. now rewrite IH.
Qed.

End SortedFacts.

Lemma keys_filter_incl {V : Type} (f : string * V -> bool) (d : dict V) (k : string) :
  In k (keys (filter f d)) -> In k (keys d).
Proof.
  unfold keys. rewrite !in_map_iff. intros (e & He & Hin).
  apply filter_In in Hin. exists e. tauto.
Qed.

Lemma NoDup_keys_filter {V : Type} (f : string * V -> bool) (d : dict V) :
  NoDup (keys d) -> NoDup (keys (filter f d)).
Proof.
  induction d as [|[k v] d IH]; simpl; intros Hnd; auto.
  inversion Hnd as [|? ? Hnotin Hnd']; subst.
  destruct (f (k, v)); simpl; auto.
  constructor; auto. intros Hin. apply Hnotin.
  now apply keys_filter_incl in Hin.
Qed.

(** On a dictionary, whose keys are distinct, the comprehension is the
    filter. *)
Lemma eth_interfaces_filter (interfaces : dict PortCounters) :
  NoDup (keys interfaces) ->
  eth_interfaces interfaces
  = filter (fun item => PyStr.startswith (fst item) "Eth") interfaces.
Proof.
  intros Hnd. unfold eth_interfaces. apply dict_of_items_id.
  now apply NoDup_keys_filter.
Qed.

(** C2. The port ordering returns the Ethernet ports, all of them and nothing
    else, in an order in which no port stands before a port with a smaller
    digit tuple, and in which the ports of any one digit tuple keep the order
    they had. The tuples are compared as lists of integers, lexicographically,
    and two ports neither of which is below the other have the same tuple.
    The Ethernet ports are those of the mapping whose name starts with the
    short alias. Names with the tuples (1,1), (1,2), (1,10), (2,1) come out
    in that sequence. *)
Theorem port_ordering_by_digit_tuple (interfaces : dict PortCounters) :
  let key := fun x : string * PortCounters => interface_sort_key (fst x) in
  let ordered := sort_eth_interfaces interfaces in
  Permutation (eth_interfaces interfaces) ordered
  /\ StronglySorted (fun x y => list_lt (key y) (key x) = false) ordered
  /\ (forall k, filter (has_key key k) ordered
                = filter (has_key key k) (eth_interfaces interfaces))
  /\ (forall a b,
        list_lt a b = true <->
        (exists common x y a' b',
            a = (common ++ x :: a')%list /\ b = (common ++ y :: b')%list /\ x < y)
        \/ (exists y b', b = (a ++ y :: b')%list))
  /\ (forall x y,
        list_lt (key y) (key x) = false -> list_lt (key x) (key y) = false ->
        key x = key y)
  /\ (NoDup (keys interfaces) ->
      eth_interfaces interfaces
      = filter (fun item => PyStr.startswith (fst item) "Eth") interfaces)
  /\ (forall rates errors,
        eth_interfaces (combined_data rates errors)
        = filter (fun item => PyStr.startswith (fst item) "Eth")
            (combined_data rates errors))
  /\ (forall p1 p2 p3 p4 : PortCounters,
        map interface_sort_key ["Eth1/1"; "Eth1/2"; "Eth1/10"; "Eth2/1"]
        = [[1; 1]; [1; 2]; [1; 10]; [2; 1]]
        /\ sort_eth_interfaces
             [("Eth2/1", p1); ("Eth1/10", p2); ("Eth1/2", p3); ("Eth1/1", p4)]
           = [("Eth1/1", p4); ("Eth1/2", p3); ("Eth1/10", p2); ("Eth2/1", p1)]).
Proof.
  intros key ordered. split; [apply sorted_perm|].
  split; [apply (sorted_sorted key)|].
  split; [intros k; apply sorted_stable|].
  split; [apply list_lt_lexicographic|].
  split; [intros x y Hyx Hxy; now apply list_lt_connected|].
  split; [apply eth_interfaces_filter|].
  split; [intros rates errors; apply eth_interfaces_filter, combined_data_NoDup|].
  intros p1 p2 p3 p4. split; reflexivity.
Qed.

Lemma port_ordering_by_digit_tuple_witness :
  eth_interfaces
    [("Eth1", mkPortCounters "" (Int 0) (Int 0) 0 0 0 0 0 0 0 0);
     ("Management1", mkPortCounters "" (Int 0) (Int 0) 0 0 0 0 0 0 0 0)]
  = [("Eth1", mkPortCounters "" (Int 0) (Int 0) 0 0 0 0 0 0 0 0)].
Proof.
  apply (proj1 (proj2 (proj2 (proj2 (proj2 (proj2
           (port_ordering_by_digit_tuple
              [("Eth1", mkPortCounters "" (Int 0) (Int 0) 0 0 0 0 0 0 0 0);
               ("Management1", mkPortCounters "" (Int 0) (Int 0) 0 0 0 0 0 0 0 0)]))))))).
  simpl. repeat constructor; simpl; intuition discriminate.
Defined.

(** ** Projection *)

Lemma mapM_Forall2 {A B : Type} (f : A -> outcome B) (l : list A) (r : list B) :
  mapM f l = Ok r -> Forall2 (fun a b => f a = Ok b) l r.
Proof.
  revert r. induction l as [|a l IH]; simpl; intros r H.
  - inversion H. constructor.
  - destruct (f a) as [b|e] eqn:Ea; simpl in H; [|discriminate].
    destruct (mapM f l) as [bs|e] eqn:El; simpl in H; [|discriminate].
    inversion H; subst. constructor; auto.
Qed.

Lemma Forall2_nth_error {A B : Type} (R : A -> B -> Prop) (l : list A) (r : list B) :
  Forall2 R l r ->
  forall i a, nth_error l i = Some a -> exists b, nth_error r i = Some b /\ R a b.
Proof.
  induction 1 as [|a b l r Hab _ IH]; intros [|i] x; simpl; try discriminate.
  - intros [= <-]. now exists b.
  - apply IH.
Qed.

Lemma mapM_length {A B : Type} (f : A -> outcome B) (l : list A) (r : list B) :
  mapM f l = Ok r -> List.length r = List.length l.
Proof.
  intros H. apply mapM_Forall2 in H. symmetry. exact (Forall2_length H).
Qed.

Lemma mapM_nth_error {A B : Type} (f : A -> outcome B) (l : list A) (r : list B) :
  mapM f l = Ok r ->
  forall i a, nth_error l i = Some a -> exists b, nth_error r i = Some b /\ f a = Ok b.
Proof.
  intros H. apply mapM_Forall2 in H. now apply Forall2_nth_error.
Qed.

(** A raise inside the list raises the whole. *)
Lemma mapM_raises {A B : Type} (f : A -> outcome B) (l : list A) (a : A) :
  In a l -> (exists e, f a = Raise e) -> exists e, mapM f l = Raise e.
Proof.
  induction l as [|x l IH]; simpl; intros Hin Hf; [contradiction|].
  destruct (f x) as [b|e] eqn:Ex; simpl; [|now exists e].
  destruct Hin as [->|Hin].
  - destruct Hf as [e He]. congruence.
  - destruct (IH Hin Hf) as [e He]. rewrite He. now exists e.
Qed.

Lemma port_number_raises_IndexError (port : string) (e : exn) :
  port_number port = Raise e -> e = IndexError "list index out of range".
Proof.
  unfold port_number. destruct (PyStr.findall_digits port); congruence.
Qed.

Lemma mapM_port_number_raises (ports : list string) (e : exn) :
  mapM port_number ports = Raise e -> e = IndexError "list index out of range".
Proof.
  induction ports as [|p ports IH]; simpl; [discriminate|].
  destruct (port_number p) as [n|e'] eqn:Ep; simpl.
  - destruct (mapM port_number ports) as [ns|e'']; simpl; [discriminate|].
    intros [= <-]. now apply IH.
  - intros [= <-]. now apply port_number_raises_IndexError in Ep.
Qed.

Lemma prepare_interface_data_inv (sorted_interfaces : list (string * PortCounters))
  (data : Series) :
  prepare_interface_data sorted_interfaces = Ok data ->
  exists numbers ins outs,
    mapM port_number (map fst sorted_interfaces) = Ok numbers
    /\ mapM (fun item => scaled (inBpsRate (snd item))) sorted_interfaces = Ok ins
    /\ mapM (fun item => scaled (outBpsRate (snd item))) sorted_interfaces = Ok outs
    /\ data = {| labels := map fst sorted_interfaces;
                 port_numbers := numbers;
                 in_bps_data := ins;
                 out_bps_data := outs;
                 in_errors_data := map (fun item => inErrors (snd item)) sorted_interfaces;
                 out_errors_data := map (fun item => outErrors (snd item)) sorted_interfaces;
                 frame_too_longs_data := map (fun item => frameTooLongs (snd item)) sorted_interfaces;
                 frame_too_shorts_data := map (fun item => frameTooShorts (snd item)) sorted_interfaces;
                 fcs_errors_data := map (fun item => fcsErrors (snd item)) sorted_interfaces;
                 alignment_errors_data := map (fun item => alignmentErrors (snd item)) sorted_interfaces;
                 symbol_errors_data := map (fun item => symbolErrors (snd item)) sorted_interfaces;
                 total_errors_data := map (fun item => totalErrors (snd item)) sorted_interfaces |}.
Proof.
  unfold prepare_interface_data. intros H.
  destruct (mapM port_number (map fst sorted_interfaces)) as [numbers|e]; simpl in H;
    [|discriminate].
  destruct (mapM (fun item => scaled (inBpsRate (snd item))) sorted_interfaces)
    as [ins|e]; simpl in H; [|discriminate].
  destruct (mapM (fun item => scaled (outBpsRate (snd item))) sorted_interfaces)
    as [outs|e]; simpl in H; [|discriminate].
  exists numbers, ins, outs. inversion H. auto.
Qed.

Lemma prepare_interface_data_lengths (sorted_interfaces : list (string * PortCounters))
  (data : Series) :
  prepare_interface_data sorted_interfaces = Ok data ->
  all_of_length data (List.length sorted_interfaces).
Proof.
  intros H. apply prepare_interface_data_inv in H.
  destruct H as (numbers & ins & outs & Hn & Hi & Ho & ->).
  apply mapM_length in Hn, Hi, Ho. rewrite length_map in Hn.
  unfold all_of_length. simpl. rewrite !length_map. tauto.
Qed.

Lemma prepare_interface_data_aligned (sorted_interfaces : list (string * PortCounters))
  (data : Series) (i : nat) (port : string) (p : PortCounters) :
  prepare_interface_data sorted_interfaces = Ok data ->
  nth_error sorted_interfaces i = Some (port, p) ->
  describes data i port p.
Proof.
  intros H Hi. apply prepare_interface_data_inv in H.
  destruct H as (numbers & ins & outs & Hn & Hin & Hout & ->).
  assert (Hmap : forall (B : Type) (f : string * PortCounters -> B),
             nth_error (map f sorted_interfaces) i = Some (f (port, p)))
    by (intros; now apply map_nth_error).
  unfold describes. simpl. rewrite !Hmap. simpl.
  destruct (mapM_nth_error _ _ _ Hn i port (Hmap _ fst)) as (n & Hn1 & Hn2).
  destruct (mapM_nth_error _ _ _ Hin i _ Hi) as (r1 & Hr1 & Hr1').
  destruct (mapM_nth_error _ _ _ Hout i _ Hi) as (r2 & Hr2 & Hr2').
  repeat split; eauto.
Qed.

(** C7. In every series the projection returns, the twelve sequences have
    the length of the sorted port list, and every index below that length
    holds, in each sequence, the value of one and the same port: the port at
    that index of the sorted list. *)
Theorem series_sequences_aligned (sorted_interfaces : list (string * PortCounters))
  (data : Series) :
  prepare_interface_data sorted_interfaces = Ok data ->
  all_of_length data (List.length sorted_interfaces)
  /\ forall i, (i < List.length sorted_interfaces)%nat ->
       exists port p,
         nth_error sorted_interfaces i = Some (port, p) /\ describes data i port p.
Proof.
  intros H. split; [now apply prepare_interface_data_lengths|].
  intros i Hi. apply nth_error_Some in Hi.
  destruct (nth_error sorted_interfaces i) as [[port p]|] eqn:E; [|congruence].
  exists port, p. split; auto.
  now apply prepare_interface_data_aligned with sorted_interfaces.
Qed.

Lemma series_sequences_aligned_witness :
  let ports :=
    [("Eth1", mkPortCounters "uplink" (Int 1000000) (Int 2000000) 3 1 2 0 0 0 0 0);
     ("Eth2", mkPortCounters "" (Int 0) (Float 0) 0 0 0 0 0 0 0 0)] in
  let data :=
    mkSeries ["Eth1"; "Eth2"] [1; 2] [Float 2; Int 0] [Float 1; Int 0]
      [1; 0] [2; 0] [0; 0] [0; 0] [0; 0] [0; 0] [0; 0] [3; 0] in
  all_of_length data (List.length ports)
  /\ forall i, (i < List.length ports)%nat ->
       exists port p, nth_error ports i = Some (port, p) /\ describes data i port p.
Proof.
  apply series_sequences_aligned. vm_compute. reflexivity.
Defined.

(** C4: what the code does with a port whose canonical name has no decimal
    digit. The projection does not leave the port out: it raises
    [IndexError], whatever the other ports are. *)
Theorem projection_raises_on_digitless_port
  (sorted_interfaces : list (string * PortCounters)) (port : string) (p : PortCounters) :
  In (port, p) sorted_interfaces ->
  PyStr.findall_digits port = [] ->
  prepare_interface_data sorted_interfaces
  = Raise (IndexError "list index out of range").
Proof.
  intros Hin Hnone.
  destruct (mapM_raises port_number (map fst sorted_interfaces) port) as [e He].
  - change port with (fst (port, p)). now apply in_map.
  - unfold port_number. rewrite Hnone. eauto.
  - unfold prepare_interface_data. rewrite He. simpl.
    now rewrite (mapM_port_number_raises _ _ He).
Qed.

Lemma projection_raises_on_digitless_port_witness :
  prepare_interface_data
    (sort_eth_interfaces
       (combined_data
          [("Ethernet1", mkRateData None None None);
           ("Ethernet", mkRateData None None None)] []))
  = Raise (IndexError "list index out of range").
Proof.
  apply (projection_raises_on_digitless_port _ "Eth" (port_record (mkRateData None None None) [])).
  - vm_compute. left. reflexivity.
  - reflexivity.
Defined.

(** C8. Scenario A: the rate counters of [Ethernet1], 2_000_000 in and
    1_000_000 out, described "uplink", with no error counters, normalize to
    the record labelled [Eth1] with all error fields and [totalErrors] zero,
    and project to the rates 2.0 and 1.0. A rate of zero is projected to the
    integer 0 at the index of its port: it is in the sequence, not left
    out. *)
Theorem scenario_A_and_zero_rates (sorted_interfaces : list (string * PortCounters))
  (data : Series) (i : nat) (port : string) (p : PortCounters) :
  prepare_interface_data sorted_interfaces = Ok data ->
  nth_error sorted_interfaces i = Some (port, p) ->
  (let normalized :=
     combined_data
       [("Ethernet1",
         mkRateData (Some "uplink") (Some (Int 1000000)) (Some (Int 2000000)))] [] in
   normalized
   = [("Eth1", mkPortCounters "uplink" (Int 1000000) (Int 2000000) 0 0 0 0 0 0 0 0)]
   /\ prepare_interface_data (sort_eth_interfaces normalized)
      = Ok (mkSeries ["Eth1"] [1] [Float 2] [Float 1] [0] [0] [0] [0] [0] [0] [0] [0]))
  /\ (truthy (inBpsRate p) = false -> nth_error (in_bps_data data) i = Some (Int 0))
  /\ (truthy (outBpsRate p) = false -> nth_error (out_bps_data data) i = Some (Int 0))
  /\ scaled (Int 0) = Ok (Int 0)
  /\ scaled (Float 0) = Ok (Int 0).
Proof.
  intros H Hi. split; [split; vm_compute; reflexivity|].
  destruct (prepare_interface_data_aligned _ _ _ _ _ H Hi)
    as (_ & _ & (r1 & Hr1 & Hs1) & (r2 & Hr2 & Hs2) & _).
  unfold scaled in Hs1, Hs2.
  split; [|split; [|split; reflexivity]].
  - intros Hz. rewrite Hz in Hs1. congruence.
  - intros Hz. rewrite Hz in Hs2. congruence.
Qed.

Lemma scenario_A_and_zero_rates_witness :
  nth_error [Float 2; Int 0] 1 = Some (Int 0)
  /\ nth_error [Float 1; Int 0] 1 = Some (Int 0).
Proof.
  pose proof
    (scenario_A_and_zero_rates
       [("Eth1", mkPortCounters "uplink" (Int 1000000) (Int 2000000) 0 0 0 0 0 0 0 0);
        ("Eth2", mkPortCounters "" (Int 0) (Float 0) 0 0 0 0 0 0 0 0)]
       (mkSeries ["Eth1"; "Eth2"] [1; 2] [Float 2; Int 0] [Float 1; Int 0]
          [0; 0] [0; 0] [0; 0] [0; 0] [0; 0] [0; 0] [0; 0] [0; 0])
       1%nat "Eth2" (mkPortCounters "" (Int 0) (Float 0) 0 0 0 0 0 0 0 0)
       ltac:(vm_compute; reflexivity) ltac:(reflexivity)) as (_ & Hin & Hout & _).
  split; [apply Hin|apply Hout]; reflexivity.
Defined.

(** ** Regular expressions *)

Module ReFacts.
Import Re.

Lemma longest_first_some {R : Type} (least k : nat) (rest : nat -> option R) (r : R) :
  longest_first least k rest = Some r ->
  exists j, (least <= j <= k)%nat /\ rest j = Some r.
Proof.
  induction k as [|k IH]; simpl.
  - destruct (0 <? least)%nat eqn:E; [discriminate|].
    apply Nat.ltb_ge in E.
    destruct (rest O) eqn:E0; [|discriminate].
    intros [= <-]. exists O. split; [lia|auto].
  - destruct (S k <? least)%nat eqn:E; [discriminate|].
    apply Nat.ltb_ge in E.
    destruct (rest (S k)) eqn:Ek.
    + intros [= <-]. exists (S k). split; [lia|auto].
    + intros H. destruct (IH H) as (j & Hj & Hr). exists j. split; [lia|auto].
Qed.

(** The longest run is taken when the rest of the pattern accepts it. *)
Lemma longest_first_greedy {R : Type} (least k : nat) (rest : nat -> option R) (r : R) :
  (least <= k)%nat -> rest k = Some r -> longest_first least k rest = Some r.
Proof.
  intros Hle Hr. destruct k; simpl.
  - destruct (0 <? least)%nat eqn:E; [apply Nat.ltb_lt in E; lia|].
    now rewrite Hr.
  - destruct (S k <? least)%nat eqn:E; [apply Nat.ltb_lt in E; lia|].
    now rewrite Hr.
Qed.

Lemma match_from_groups (p : list item) :
  forall s cur groups r,
    match_from p s cur groups = Some r ->
    List.length r = (List.length groups + closes p)%nat.
Proof.
  induction p as [|[t|least cls| |] p IH]; intros s cur groups r; simpl.
  - intros [= <-]. lia.
  - destruct (String.prefix t s); [apply IH|discriminate].
  - intros H. apply longest_first_some in H. destruct H as (j & _ & H).
    now apply IH in H.
  - apply IH.
  - destruct cur as [g|]; [|discriminate].
    intros H. apply IH in H. rewrite length_app in H. simpl in H. lia.
Qed.

(** A match has as many groups as the pattern has. *)
Lemma re_match_groups (p : list item) (s : string) (m : list string) :
  re_match p s = Some m -> List.length m = closes p.
Proof.
  unfold re_match. intros H. now apply match_from_groups in H.
Qed.

Lemma group_in_range (m : list string) (i : nat) :
  (1 <= i <= List.length m)%nat -> exists g, group m i = Ok g.
Proof.
  intros Hi. unfold group.
  destruct (nth_error m (i - 1)) as [g|] eqn:E; [now exists g|].
  apply nth_error_None in E. lia.
Qed.

(** A pattern that opens with a literal does not match a line that opens with
    another character. *)
Lemma re_match_other_start (c c' : ascii) (t : string) (p : list item) (rest : string) :
  c <> c' -> re_match (Lit (String c t) :: p) (String c' rest) = None.
Proof.
  intros Hne. unfold re_match. simpl.
  destruct (Ascii.ascii_dec c c'); [contradiction|reflexivity].
Qed.

End ReFacts.

(** ** Text table parser *)

Lemma fan_row_total (m : list string) :
  List.length m = 4%nat -> exists row, fan_row m = Ok row.
Proof.
  destruct m as [|g1 [|g2 [|g3 [|g4 [|]]]]]; try discriminate.
  intros _. unfold fan_row. simpl. eauto.
Qed.

Lemma power_row_total (m : list string) :
  List.length m = 7%nat -> exists row, power_row m = Ok row.
Proof.
  destruct m as [|g1 [|g2 [|g3 [|g4 [|g5 [|g6 [|g7 [|]]]]]]]]; try discriminate.
  intros _. unfold power_row. simpl. eauto.
Qed.

Lemma group_1_total (p : list Re.item) (line : string) (m : list string) :
  Re.re_match p line = Some m -> Re.closes p = 1%nat ->
  exists g, Re.group m 1 = Ok g.
Proof.
  intros Hm Hp. apply ReFacts.re_match_groups in Hm.
  apply ReFacts.group_in_range. lia.
Qed.

(** No rule of the loop raises, and each does one of the effects above. *)
Lemma parse_stripped_effect (st : ParserState) (line : string) :
  exists st', parse_stripped st line = Ok st' /\ line_effect st line st'.
Proof.
  unfold parse_stripped.
  destruct (Re.re_match Patterns.cooling line) as [m|] eqn:E1.
  { destruct (group_1_total _ _ _ E1 eq_refl) as [g ->]. simpl.
    eexists; split; [reflexivity|now apply effect_cooling with m]. }
  destruct (Re.re_match Patterns.temperature line) as [m|] eqn:E2.
  { destruct (group_1_total _ _ _ E2 eq_refl) as [g ->]. simpl.
    eexists; split; [reflexivity|constructor]. }
  destruct (Re.re_match Patterns.airflow line) as [m|] eqn:E3.
  { destruct (group_1_total _ _ _ E3 eq_refl) as [g ->]. simpl.
    eexists; split; [reflexivity|constructor]. }
  fold (fan_header line). destruct (fan_header line) eqn:E4.
  { eexists; split; [reflexivity|now constructor]. }
  fold (power_header line). destruct (power_header line) eqn:E5.
  { eexists; split; [reflexivity|now constructor]. }
  destruct (Re.re_match Patterns.header line) as [m|] eqn:E6.
  { eexists; split; [reflexivity|constructor]. }
  destruct (parsing_fan st) eqn:E7.
  { destruct (Re.re_match Patterns.fan line) as [m|] eqn:E8.
    - apply ReFacts.re_match_groups in E8.
      destruct (fan_row_total m E8) as [row ->]. simpl.
      eexists; split; [reflexivity|now constructor].
    - eexists; split; [reflexivity|constructor]. }
  destruct (parsing_power st) eqn:E9.
  { destruct (Re.re_match Patterns.power line) as [m|] eqn:E10.
    - apply ReFacts.re_match_groups in E10.
      destruct (power_row_total m E10) as [row ->]. simpl.
      eexists; split; [reflexivity|now constructor].
    - eexists; split; [reflexivity|constructor]. }
  eexists; split; [reflexivity|constructor].
Qed.

Lemma parse_line_total (st : ParserState) (raw : string) :
  exists st', parse_line st raw = Ok st'.
Proof.
  unfold parse_line. destruct (is_empty (PyStr.strip raw)); [eauto|].
  destruct (parse_stripped_effect st (PyStr.strip raw)) as (st' & H & _). eauto.
Qed.

Lemma parse_lines_total (lines : list string) (st : ParserState) :
  exists st', parse_lines st lines = Ok st'.
Proof.
  revert st. induction lines as [|raw lines IH]; intros st; simpl; [eauto|].
  destruct (parse_line_total st raw) as [st1 ->]. simpl. apply IH.
Qed.

(** An invariant of the loop: a property of the variables that every effect
    of the lines met keeps holds at the end. *)
Lemma parse_lines_invariant (I : ParserState -> Prop) (lines : list string) :
  (forall st raw st',
      In raw lines -> I st -> line_effect st (PyStr.strip raw) st' -> I st') ->
  forall st st', I st -> parse_lines st lines = Ok st' -> I st'.
Proof.
  induction lines as [|raw lines IH]; intros Hkeep st st' Hst; simpl.
  - now intros [= <-].
  - unfold parse_line at 1.
    destruct (is_empty (PyStr.strip raw)); simpl.
    + apply IH; auto. intros; eapply Hkeep; eauto. now right.
    + destruct (parse_stripped_effect st (PyStr.strip raw)) as (st1 & -> & Heff).
      simpl. apply IH.
      * intros; eapply Hkeep; eauto. now right.
      * eapply Hkeep; eauto. now left.
Qed.

(** Without a fan header no fan row is read. *)
Lemma no_fan_header_no_fan_rows (lines : list string) (st : ParserState) :
  (forall raw, In raw lines -> fan_header (PyStr.strip raw) = false) ->
  parse_lines initial_state lines = Ok st ->
  fan_status_list st = [].
Proof.
  intros Hno H.
  apply (parse_lines_invariant
           (fun st => parsing_fan st = false /\ fan_status_list st = []) lines)
    in H; [tauto| |split; reflexivity].
  intros st0 raw st1 Hin [Hoff Hnil] Heff.
  destruct Heff as [m g Hm|g|g|Hh|Hh| |row Hon|row Hoff' Hon]; simpl; auto.
  - rewrite (Hno raw Hin) in Hh. discriminate.
  - congruence.
Qed.

(** Without a power supply header no power supply row is read. *)
Lemma no_power_header_no_power_rows (lines : list string) (st : ParserState) :
  (forall raw, In raw lines -> power_header (PyStr.strip raw) = false) ->
  parse_lines initial_state lines = Ok st ->
  power_supply_status_list st = [].
Proof.
  intros Hno H.
  apply (parse_lines_invariant
           (fun st => parsing_power st = false /\ power_supply_status_list st = []) lines)
    in H; [tauto| |split; reflexivity].
  intros st0 raw st1 Hin [Hoff Hnil] Heff.
  destruct Heff as [m g Hm|g|g|Hh|Hh| |row Hon|row Hoff' Hon]; simpl; auto.
  - rewrite (Hno raw Hin) in Hh. discriminate.
  - congruence.
Qed.

Lemma or_sentinel_not_empty (l : list string) : or_sentinel l <> [].
Proof. destruct l; discriminate. Qed.

Lemma or_sentinel_cases (l : list string) :
  (l = [] -> or_sentinel l = ["N/A"]) /\ (l <> [] -> or_sentinel l = l).
Proof. destruct l; simpl; split; congruence. Qed.

(** A stripped line that opens with a dash is taken for a table header and
    changes nothing. *)
Lemma parse_stripped_dash (st : ParserState) (rest : string) :
  parse_stripped st (String "-" rest) = Ok st.
Proof.
  unfold parse_stripped, Patterns.cooling, Patterns.temperature, Patterns.airflow.
  rewrite !ReFacts.re_match_other_start by discriminate.
  change (PyStr.startswith (String "-" rest) "Fan") with false.
  change (PyStr.startswith (String "-" rest) "Power") with false.
  cbn [andb].
  assert (H : Re.re_match Patterns.header (String "-" rest) = Some []).
  { unfold Re.re_match, Patterns.header. cbn [Re.match_from].
    apply ReFacts.longest_first_greedy; [|reflexivity].
    change (PyStr.run_length (Re.either (Re.chr "-") Re.s) (String "-" rest))
      with (S (PyStr.run_length (Re.either (Re.chr "-") Re.s) rest)).
    lia. }
  now rewrite H.
Qed.

Lemma parse_environment_lines (env_info : EnvInfo) (snap : EnvironmentSnapshot) :
  parse_environment env_info = Ok snap ->
  exists st,
    parse_lines initial_state (text_lines env_info) = Ok st
    /\ Cooling_Status snap = cooling_status st
    /\ Ambient_Temperature snap = ambient_temperature st
    /\ Fan_Status snap = or_sentinel (fan_status_list st)
    /\ Power_Supply_Status snap = or_sentinel (power_supply_status_list st).
Proof.
  unfold parse_environment, text_lines.
  destruct (or_default (env_messages env_info) []) as [|message_str rest].
  - intros [= <-]. exists initial_state. repeat split.
  - destruct (parse_lines initial_state (PyStr.splitlines message_str)) as [st|e];
      simpl; [|discriminate].
    intros [= <-]. exists st. repeat split.
Qed.

Lemma parse_environment_total (env_info : EnvInfo) :
  exists snap, parse_environment env_info = Ok snap.
Proof.
  unfold parse_environment.
  destruct (or_default (env_messages env_info) []) as [|message_str rest]; [eauto|].
  destruct (parse_lines_total (PyStr.splitlines message_str) initial_state) as [st ->].
  simpl. eauto.
Qed.

Lemma parse_stripped_unrecognized (st : ParserState) (line : string) :
  recognized st line = false -> parse_stripped st line = Ok st.
Proof.
  unfold recognized, parse_stripped, fan_header, power_header.
  destruct (Re.re_match Patterns.cooling line); [discriminate|].
  destruct (Re.re_match Patterns.temperature line); [discriminate|].
  destruct (Re.re_match Patterns.airflow line); [discriminate|].
  destruct (PyStr.startswith line "Fan" && PyStr.contains "Status" line);
    [discriminate|].
  destruct (PyStr.startswith line "Power" && PyStr.contains "Supply" line);
    [discriminate|].
  destruct (Re.re_match Patterns.header line); [reflexivity|].
  destruct (parsing_fan st).
  - destruct (Re.re_match Patterns.fan line); [discriminate|reflexivity].
  - destruct (parsing_power st); [|reflexivity].
    destruct (Re.re_match Patterns.power line); [discriminate|reflexivity].
Qed.

(** The environment step raises only what the executor or the shape of its
    answer raises: the parser adds nothing. *)
Lemma environment_info_raise (execute_command : list string -> outcome Response)
  (e : exn) :
  get_environment_info execute_command = Raise e ->
  execute_command ["show environment all"] = Raise e
  \/ exists response,
       execute_command ["show environment all"] = Ok response
       /\ result_at response 0 = Raise e.
Proof.
  unfold get_environment_info.
  destruct (execute_command ["show environment all"]) as [response|e0]; simpl.
  - destruct (result_at response 0) as [p0|e0] eqn:E; simpl.
    + destruct (parse_environment_total (env_info_of p0)) as [snap ->]. discriminate.
    + intros [= <-]. right. now exists response.
  - intros [= <-]. now left.
Qed.

(** C5. The text table parser returns a snapshot for every input and never
    raises; a line no rule recognizes leaves the variables of the loop as
    they were; and with the messages absent or empty the result is the
    all-sentinel snapshot, the same at every run. What
    [get_environment_info] raises is the executor's exception or that of a
    response without a first result, never the parser's. *)
Theorem parser_is_total (env_info : EnvInfo) (st : ParserState) (raw : string) :
  (exists snap, parse_environment env_info = Ok snap)
  /\ (exists st', parse_line st raw = Ok st')
  /\ (recognized st (PyStr.strip raw) = false -> parse_line st raw = Ok st)
  /\ (or_default (env_messages env_info) [] = [] ->
      parse_environment env_info = Ok sentinel)
  /\ (forall execute_command e,
        get_environment_info execute_command = Raise e ->
        execute_command ["show environment all"] = Raise e
        \/ exists response,
             execute_command ["show environment all"] = Ok response
             /\ result_at response 0 = Raise e).
Proof.
  split; [apply parse_environment_total|].
  split; [apply parse_line_total|]. split; [|split].
  - intros H. unfold parse_line.
    destruct (is_empty (PyStr.strip raw)); [reflexivity|].
    now apply parse_stripped_unrecognized.
  - intros H. unfold parse_environment. now rewrite H.
  - intros execute_command e. apply environment_info_raise.
Qed.

Lemma parser_is_total_witness :
  parse_line (set_parsing true false initial_state) "  Fan1  is missing  "
  = Ok (set_parsing true false initial_state)
  /\ parse_environment (mkEnvInfo None) = Ok sentinel
  /\ parse_environment (mkEnvInfo (Some [])) = Ok sentinel.
Proof.
  split; [|split].
  - apply (parser_is_total (mkEnvInfo None)). vm_compute. reflexivity.
  - apply (parser_is_total (mkEnvInfo None) initial_state ""). reflexivity.
  - apply (parser_is_total (mkEnvInfo (Some [])) initial_state ""). reflexivity.
Defined.

(** The cooling status is the one of the last line that declares it. *)
Lemma cooling_status_kept (lines : list string) (v : string) (st st' : ParserState) :
  (forall raw, In raw lines -> Re.re_match Patterns.cooling (PyStr.strip raw) = None) ->
  cooling_status st = v ->
  parse_lines st lines = Ok st' ->
  cooling_status st' = v.
Proof.
  intros Hno Hv H.
  apply (parse_lines_invariant (fun st => cooling_status st = v) lines) in H; auto.
  intros st0 raw st1 Hin Hst Heff.
  destruct Heff as [m g Hm|g|g|Hh|Hh| |row Hon|row Hoff' Hon]; simpl; auto.
  rewrite (Hno raw Hin) in Hm. discriminate.
Qed.

Lemma parse_lines_app (l1 l2 : list string) (st st' : ParserState) :
  parse_lines st (l1 ++ l2)%list = Ok st' ->
  exists st1, parse_lines st l1 = Ok st1 /\ parse_lines st1 l2 = Ok st'.
Proof.
  revert st. induction l1 as [|raw l1 IH]; intros st; simpl.
  - intros H. now exists st.
  - destruct (parse_line st raw) as [st0|e]; simpl; [apply IH|discriminate].
Qed.

(** C6, as the code has it. In every snapshot the parser returns, the fan
    sequence and the power supply sequence are never empty: each is the rows
    read, or the single sentinel entry when no row was read, which is the
    case when the text has no header of that table or when there is no text.
    A text with the line [System cooling status is: OK], no later line that
    declares a cooling status and no fan or power supply header gives the
    cooling status [OK] and the two single-sentinel sequences; so does the
    text made of that line alone. *)
Theorem sub_tables_never_empty (env_info : EnvInfo) (snap : EnvironmentSnapshot) :
  parse_environment env_info = Ok snap ->
  (exists st,
      parse_lines initial_state (text_lines env_info) = Ok st
      /\ (fan_status_list st = [] -> Fan_Status snap = ["N/A"])
      /\ (fan_status_list st <> [] -> Fan_Status snap = fan_status_list st)
      /\ (power_supply_status_list st = [] -> Power_Supply_Status snap = ["N/A"])
      /\ (power_supply_status_list st <> [] ->
          Power_Supply_Status snap = power_supply_status_list st))
  /\ Fan_Status snap <> []
  /\ Power_Supply_Status snap <> []
  /\ ((forall raw, In raw (text_lines env_info) -> fan_header (PyStr.strip raw) = false) ->
      Fan_Status snap = ["N/A"])
  /\ ((forall raw, In raw (text_lines env_info) -> power_header (PyStr.strip raw) = false) ->
      Power_Supply_Status snap = ["N/A"])
  /\ (forall before after raw,
        text_lines env_info = (before ++ raw :: after)%list ->
        PyStr.strip raw = "System cooling status is: OK" ->
        (forall later, In later after ->
                       Re.re_match Patterns.cooling (PyStr.strip later) = None) ->
        Cooling_Status snap = "OK")
  /\ parse_environment (mkEnvInfo (Some ["System cooling status is: OK"]))
     = Ok (mkEnvironmentSnapshot "OK" "N/A" ["N/A"] ["N/A"]).
Proof.
  intros H. destruct (parse_environment_lines _ _ H) as (st & Hst & Hc & _ & Hf & Hp).
  split.
  { exists st. split; auto. rewrite Hf, Hp.
    destruct (or_sentinel_cases (fan_status_list st)).
    destruct (or_sentinel_cases (power_supply_status_list st)). auto. }
  split; [rewrite Hf; apply or_sentinel_not_empty|].
  split; [rewrite Hp; apply or_sentinel_not_empty|].
  split; [intros Hno; now rewrite Hf, (no_fan_header_no_fan_rows _ _ Hno Hst)|].
  split; [intros Hno; now rewrite Hp, (no_power_header_no_power_rows _ _ Hno Hst)|].
  split; [|reflexivity].
  intros before after raw Hlines Hraw Hlater. rewrite Hc.
  rewrite Hlines in Hst. apply parse_lines_app in Hst.
  destruct Hst as (st1 & _ & Hrest). simpl in Hrest.
  unfold parse_line in Hrest at 1. rewrite Hraw in Hrest. simpl in Hrest.
  exact (cooling_status_kept after "OK" (set_cooling_status "OK" st1) st
           Hlater eq_refl Hrest).
Qed.

Lemma sub_tables_never_empty_witness :
  let text :=
    "System cooling status is: OK" ++ String "010" "Ambient temperature: 31C" in
  let snap := mkEnvironmentSnapshot "OK" "31C" ["N/A"] ["N/A"] in
  Fan_Status snap <> [] /\ Power_Supply_Status snap <> []
  /\ Cooling_Status snap = "OK".
Proof.
  destruct (sub_tables_never_empty
              (mkEnvInfo
                 (Some ["System cooling status is: OK"
                        ++ String "010" "Ambient temperature: 31C"]))
              (mkEnvironmentSnapshot "OK" "31C" ["N/A"] ["N/A"])
              ltac:(vm_compute; reflexivity))
    as (_ & Hfan & Hpower & _ & _ & Hcool & _).
  split; [exact Hfan|]. split; [exact Hpower|].
  apply (Hcool [] ["Ambient temperature: 31C"] "System cooling status is: OK").
  - reflexivity.
  - reflexivity.
  - intros later [<-|[]]. reflexivity.
Defined.

(** C6 as stated fails on the cooling status: the loop assigns the status at
    every line that declares one, so the last declaration stands. The text
    below contains the line [System cooling status is: OK] and no fan or
    power supply header, and its cooling status is [Failed]. *)
Lemma later_cooling_line_overrides :
  let text :=
    "System cooling status is: OK" ++ String "010" "System cooling status is: Failed" in
  text_lines (mkEnvInfo (Some [text]))
  = ["System cooling status is: OK"; "System cooling status is: Failed"]
  /\ forallb (fun raw => negb (fan_header (PyStr.strip raw))
                         && negb (power_header (PyStr.strip raw)))
       (text_lines (mkEnvInfo (Some [text]))) = true
  /\ parse_environment (mkEnvInfo (Some [text]))
     = Ok (mkEnvironmentSnapshot "Failed" "N/A" ["N/A"] ["N/A"])
  /\ "Failed" <> "OK".
Proof.
  cbv zeta. repeat split; try (vm_compute; reflexivity). discriminate.
Qed.

(** C10. A stripped, non-empty line whose first character is a dash is
    skipped whole: the header check matches a leading run of dashes and
    white space, not the whole line. The line [-1/1 Ok 35% 36%] is skipped in
    the fan table though it is not made of dashes and white space only, and
    though it, and what follows its dash, are well-formed fan rows. *)
Theorem dash_line_skipped (st : ParserState) (raw rest : string) :
  PyStr.strip raw = String "-" rest ->
  parse_line st raw = Ok st
  /\ (let fan_table := set_parsing true false initial_state in
      parse_line fan_table "-1/1 Ok 35% 36%" = Ok fan_table
      /\ Re.re_match Patterns.fan "-1/1 Ok 35% 36%" = Some ["-1/1"; "Ok"; "35"; "36"]
      /\ Re.re_match Patterns.fan "1/1 Ok 35% 36%" = Some ["1/1"; "Ok"; "35"; "36"]
      /\ parse_line fan_table "1/1 Ok 35% 36%"
         = Ok (append_fan
                 "<strong>1/1 Status:</strong> Ok, <strong>Configured Speed:</strong> 35%, <strong>Actual Speed:</strong> 36%"
                 fan_table)
      /\ (PyStr.run_length (Re.either (Re.chr "-") Re.s) "-1/1 Ok 35% 36%"
          < String.length "-1/1 Ok 35% 36%")%nat).
Proof.
  intros Hraw. split.
  - unfold parse_line. rewrite Hraw. simpl. apply parse_stripped_dash.
  - cbv zeta. repeat split; try (vm_compute; reflexivity).
    vm_compute. lia.
Qed.

Lemma dash_line_skipped_witness :
  parse_line (set_parsing false true initial_state)
    "  -1  PWR-500AC-R  500W  0.25A  4.12A  49.5W  Ok  "
  = Ok (set_parsing false true initial_state).
Proof.
  apply (dash_line_skipped (set_parsing false true initial_state)
           "  -1  PWR-500AC-R  500W  0.25A  4.12A  49.5W  Ok  "
           "1  PWR-500AC-R  500W  0.25A  4.12A  49.5W  Ok").
  reflexivity.
Defined.

(** ** The run *)

Section RunFacts.

Variable execute_command : list string -> outcome Response.
Variable seconds_since : num -> Z.
Variable megabytes : num -> string.
Variable formatted_datetime : string.
Variable html_content :
  SwitchInfo -> EnvironmentSnapshot -> list (string * PortCounters) -> Series -> string.

Let report :=
  generate_html_report execute_command seconds_since megabytes formatted_datetime
    html_content.
Let run :=
  main execute_command seconds_since megabytes formatted_datetime html_content.

Lemma report_raises_first (w : World) (e : exn) :
  first_raise execute_command seconds_since megabytes e -> report w = (w, Raise e).
Proof.
  unfold first_raise, report, generate_html_report, and_then, lift.
  intros [H|[(s & Hs & H)|(s & c & Hs & Hc & H)]].
  - now rewrite H.
  - now rewrite Hs, H.
  - now rewrite Hs, Hc, H.
Qed.

(** A report that raises has written and printed nothing. *)
Lemma report_raise_leaves_world (w w' : World) (e : exn) :
  report w = (w', Raise e) -> w' = w.
Proof.
  unfold report, generate_html_report, and_then, lift, write_file.
  destruct (get_switch_info _ _ _); [|congruence].
  destruct (get_interface_counters _); [|congruence].
  destruct (get_environment_info _); [|congruence].
  destruct (prepare_interface_data _); congruence.
Qed.

Lemma run_after_raise (w : World) (e : exn) :
  report w = (w, Raise e) ->
  run w
  = (mkWorld (files w) (stdout w ++ [("Error generating report: " ++ exn_message e)%string])%list,
     Ok tt).
Proof.
  unfold run, main, try_except, and_then. fold report. now intros ->.
Qed.

(** [main] catches whatever the report raises. *)
Lemma run_returns (w : World) : snd (run w) = Ok tt.
Proof.
  unfold run, main, try_except, and_then.
  destruct (generate_html_report _ _ _ _ _ w) as [w' [[]|e]]; reflexivity.
Qed.

Lemma exit_status_zero (w : World) :
  exit_status execute_command seconds_since megabytes formatted_datetime html_content w
  = 0.
Proof.
  unfold exit_status. fold run. now rewrite run_returns.
Qed.

(** A failure of the first command is the first raise of the run. *)
Lemma first_command_fails (e : exn) :
  execute_command ["show version"; "show hostname"] = Raise e ->
  first_raise execute_command seconds_since megabytes e.
Proof.
  intros H. left. unfold get_switch_info. now rewrite H.
Qed.

End RunFacts.

(** C9, as the code has it. An exception raised while the facts, the
    counters or the environment are fetched (the executor's, or a missing
    [result] or top-level key) is not caught inside the report: the report
    raises it, having written no file and printed nothing; [main] catches it
    and prints the message after [Error generating report: ]; [main] then
    returns, so that the process ends with the status 0. A failure of the
    first command is such an exception, and a report that raises, at
    whatever step, leaves no file behind. *)
Theorem fetch_error_reported_without_file
  (execute_command : list string -> outcome Response)
  (seconds_since : num -> Z) (megabytes : num -> string)
  (formatted_datetime : string)
  (html_content :
     SwitchInfo -> EnvironmentSnapshot -> list (string * PortCounters) -> Series -> string)
  (w : World) (e : exn) :
  first_raise execute_command seconds_since megabytes e ->
  generate_html_report execute_command seconds_since megabytes formatted_datetime
    html_content w
  = (w, Raise e)
  /\ main execute_command seconds_since megabytes formatted_datetime html_content w
     = (mkWorld (files w)
          (stdout w ++ [("Error generating report: " ++ exn_message e)%string])%list,
        Ok tt)
  /\ exit_status execute_command seconds_since megabytes formatted_datetime
       html_content w
     = 0
  /\ (forall e0,
        execute_command ["show version"; "show hostname"] = Raise e0 ->
        first_raise execute_command seconds_since megabytes e0)
  /\ (forall w' e',
        generate_html_report execute_command seconds_since megabytes
          formatted_datetime html_content w
        = (w', Raise e') ->
        w' = w).
Proof.
  intros H.
  pose proof (report_raises_first execute_command seconds_since megabytes
                formatted_datetime html_content w e H) as Hreport.
  split; [exact Hreport|]. split; [now apply run_after_raise|].
  split; [apply exit_status_zero|].
  split; [intros e0; apply first_command_fails|].
  intros w' e'. apply report_raise_leaves_world.
Qed.

Lemma fetch_error_reported_without_file_witness :
  let device (commands : list string) : outcome Response :=
    match commands with
    | ["show interfaces counters rates"] => Ok (mkResponse (Some [RateCounters None]))
    | _ => Ok (mkResponse (Some [Hostname (Some "sw1"); Hostname (Some "sw1")]))
    end in
  main device (fun _ => 0) (fun _ => "0.00") "2024-01-02-03-04" (fun _ _ _ _ => "")
    (mkWorld [] [])
  = (mkWorld [] ["Error generating report: 'interfaces'"], Ok tt).
Proof.
  refine (proj1 (proj2
    (fetch_error_reported_without_file _ (fun _ => 0) (fun _ => "0.00")
       "2024-01-02-03-04" (fun _ _ _ _ => "") (mkWorld [] []) (KeyError "interfaces") _))).
  right. left. vm_compute. eexists. split; reflexivity.
Defined.

(** C9 as stated fails on the exit status: with an executor that times out,
    the run prints the error, writes no file, and ends with the status 0. *)
Lemma failed_run_exits_with_zero :
  let message := "Connection timed out while trying to reach the switch." in
  main (fun _ => Raise (Exception message)) (fun _ => 0) (fun _ => "0.00")
    "2024-01-02-03-04" (fun _ _ _ _ => "") (mkWorld [] [])
  = (mkWorld [] ["Error generating report: " ++ message], Ok tt)
  /\ exit_status (fun _ => Raise (Exception message)) (fun _ => 0) (fun _ => "0.00")
       "2024-01-02-03-04" (fun _ _ _ _ => "") (mkWorld [] [])
     = 0.
Proof.
  split; reflexivity.
Qed.

(** * Further properties *)

(** ** Uptime *)

(** X1. [format_uptime] prints the four parts of the uptime; for every number
    of seconds, negative ones included, the days are below 7, the hours below
    24 and the minutes below 60, none of them negative, the weeks are
    negative exactly when the seconds are, and the parts add up to the
    seconds but for the seconds that do not fill a minute. *)
Theorem uptime_parts_add_up (seconds weeks days hours minutes : Z) :
  uptime_parts seconds = (weeks, days, hours, minutes) ->
  format_uptime seconds
  = str weeks ++ " weeks, " ++ str days ++ " days, " ++ str hours ++ " hours and "
    ++ str minutes ++ " minutes"
  /\ 0 <= days < 7 /\ 0 <= hours < 24 /\ 0 <= minutes < 60
  /\ (0 <= weeks <-> 0 <= seconds)
  /\ seconds
     = weeks * 604800 + days * 86400 + hours * 3600 + minutes * 60 + seconds mod 60.
Proof.
  unfold uptime_parts. intros [= <- <- <- <-]. split; [reflexivity|].
  change (7 * 24 * 60 * 60) with 604800. change (24 * 60 * 60) with 86400.
  repeat split; Z.div_mod_to_equations; lia.
Qed.

Lemma uptime_parts_add_up_witness :
  format_uptime 1000000 = "1 weeks, 4 days, 13 hours and 46 minutes"
  /\ 1000000 = 1 * 604800 + 4 * 86400 + 13 * 3600 + 46 * 60 + 1000000 mod 60.
Proof.
  destruct (uptime_parts_add_up 1000000 1 4 13 46 eq_refl) as (Hs & _ & _ & _ & _ & Hsum).
  split; [exact Hs|exact Hsum].
Defined.

(** ** Canonical names *)

Lemma prefix_split (p s : string) :
  String.prefix p s = true -> s = p ++ PyStr.drop (String.length p) s.
Proof.
  revert s. induction p as [|a p IH]; intros [|b s]; simpl; try discriminate; auto.
  destruct (Ascii.ascii_dec a b) as [->|]; [|discriminate].
  intros H. f_equal. now apply IH.
Qed.

Lemma replace_absent (old new s : string) :
  PyStr.contains old s = false -> PyStr.replace old new s = s.
Proof.
  unfold PyStr.replace. induction s as [|c s IH].
  - reflexivity.
  - cbn [PyStr.contains PyStr.replace_from].
    destruct (String.prefix old (String c s)); [discriminate|].
    simpl. intros H. f_equal. now apply IH.
Qed.

Lemma canonical_long (rest : string) :
  canonical ("Ethernet" ++ rest) = "Eth" ++ canonical rest.
Proof. unfold canonical, PyStr.replace. simpl. now destruct rest. Qed.

(** X2. A name without the long form is its own canonical name, and the long
    form in front of it is collapsed to the short alias, the rest being
    kept. *)
Theorem canonical_collapses_long_form (name : string) :
  PyStr.contains "Ethernet" name = false ->
  canonical name = name /\ canonical ("Ethernet" ++ name) = "Eth" ++ name.
Proof.
  intros H. assert (Hid : canonical name = name) by now apply replace_absent.
  split; [exact Hid|]. now rewrite canonical_long, Hid.
Qed.

Lemma canonical_collapses_long_form_witness :
  canonical "Management1" = "Management1" /\ canonical "Ethernet49/1" = "Eth49/1".
Proof.
  split.
  - apply (canonical_collapses_long_form "Management1"). reflexivity.
  - apply (canonical_collapses_long_form "49/1"). reflexivity.
Defined.

Lemma findall_digits_other (c : ascii) (cur s : string) :
  PyStr.isdigit c = false ->
  PyStr.findall_digits_from cur (String c s)
  = (flush cur ++ PyStr.findall_digits_from EmptyString s)%list.
Proof.
  intros H. cbn [PyStr.findall_digits_from]. rewrite H. now destruct cur.
Qed.

Lemma findall_digits_Eth (cur s : string) :
  PyStr.findall_digits_from cur ("Eth" ++ s)
  = (flush cur ++ PyStr.findall_digits_from EmptyString s)%list.
Proof.
  change ("Eth" ++ s) with (String "E" ("th" ++ s)).
  rewrite findall_digits_other by reflexivity. reflexivity.
Qed.

Lemma findall_digits_Ethernet (cur s : string) :
  PyStr.findall_digits_from cur ("Ethernet" ++ s)
  = (flush cur ++ PyStr.findall_digits_from EmptyString s)%list.
Proof.
  change ("Ethernet" ++ s) with (String "E" ("thernet" ++ s)).
  rewrite findall_digits_other by reflexivity. reflexivity.
Qed.

Lemma drop_length_le (n : nat) (s : string) :
  (String.length (PyStr.drop n s) <= String.length s)%nat.
Proof.
  revert s. induction n as [|n IH]; intros [|c s]; simpl; auto.
Qed.

Lemma findall_digits_canonical_from (n : nat) :
  forall s cur,
    (String.length s <= n)%nat ->
    PyStr.findall_digits_from cur (canonical s) = PyStr.findall_digits_from cur s.
Proof.
  induction n as [|n IH]; intros [|c s] cur Hlen; simpl in Hlen; try reflexivity;
    try lia.
  destruct (String.prefix "Ethernet" (String c s)) eqn:E.
  - apply prefix_split in E. rewrite E.
    change (String.length "Ethernet") with 8%nat.
    set (t := PyStr.drop 8 (String c s)).
    assert (Ht : (String.length t <= n)%nat).
    { subst t. simpl. destruct s as [|c1 s]; [simpl; lia|].
      pose proof (drop_length_le 6 s). simpl in Hlen. simpl.
      destruct s as [|c2 s]; [simpl; lia|].
      pose proof (drop_length_le 6 s). simpl in *. lia. }
    rewrite canonical_long, findall_digits_Eth, findall_digits_Ethernet.
    now rewrite IH.
  - assert (Hstep : canonical (String c s) = String c (canonical s)).
    { unfold canonical, PyStr.replace. cbn [PyStr.replace_from]. now rewrite E. }
    rewrite Hstep. cbn [PyStr.findall_digits_from].
    destruct (PyStr.isdigit c); [apply IH; lia|].
    rewrite (IH s EmptyString) by lia. reflexivity.
Qed.

(** X3. The canonical name has the digit runs of the device's name: the sort
    key and the chart number of a port do not depend on which of the two is
    read. *)
Theorem canonical_keeps_digit_runs (port : string) :
  PyStr.findall_digits (canonical port) = PyStr.findall_digits port
  /\ interface_sort_key (canonical port) = interface_sort_key port
  /\ port_number (canonical port) = port_number port.
Proof.
  assert (H : PyStr.findall_digits (canonical port) = PyStr.findall_digits port)
    by (apply (findall_digits_canonical_from (String.length port)); lia).
  unfold interface_sort_key, port_number. now rewrite H.
Qed.

Lemma prefix_empty (s : string) : String.prefix "" s = true.
Proof. now destruct s. Qed.

(** How the canonical name starts. *)
Lemma canonical_cases (s : string) :
  (exists t, s = "Ethernet" ++ t /\ canonical s = "Eth" ++ canonical t)
  \/ s = ""
  \/ (exists c s', s = String c s' /\ String.prefix "Ethernet" s = false
                   /\ canonical s = String c (canonical s')).
Proof.
  destruct s as [|c s]; [now right; left|].
  destruct (String.prefix "Ethernet" (String c s)) eqn:E.
  - left. apply prefix_split in E. exists (PyStr.drop 8 (String c s)).
    split; [exact E|]. rewrite E at 1. apply canonical_long.
  - right. right. exists c, s. repeat split; auto.
    unfold canonical, PyStr.replace. cbn [PyStr.replace_from]. now rewrite E.
Qed.

Lemma prefix_of_Ethernet (p t : string) (c : ascii) :
  c <> "E"%char -> String.prefix (String c p) ("Ethernet" ++ t) = false.
Proof.
  intros H. change ("Ethernet" ++ t) with (String "E" ("thernet" ++ t)).
  cbn [String.prefix]. destruct (Ascii.ascii_dec c "E"); [contradiction|reflexivity].
Qed.

Lemma prefix_of_Eth (p t : string) (c : ascii) :
  c <> "E"%char -> String.prefix (String c p) ("Eth" ++ t) = false.
Proof.
  intros H. change ("Eth" ++ t) with (String "E" ("th" ++ t)).
  cbn [String.prefix]. destruct (Ascii.ascii_dec c "E"); [contradiction|reflexivity].
Qed.

Lemma prefix_cons (a b : ascii) (p s : string) :
  String.prefix (String a p) (String b s)
  = if Ascii.ascii_dec a b then String.prefix p s else false.
Proof. reflexivity. Qed.

(** X4. The canonical name starts with the short alias exactly when the
    device's name does: the ports the ordering keeps are the ports whose
    device name starts with [Eth], and no other name is turned into one. *)
Theorem canonical_keeps_alias_prefix (port : string) :
  PyStr.startswith (canonical port) "Eth" = PyStr.startswith port "Eth".
Proof.
  unfold PyStr.startswith.
  destruct (canonical_cases port) as [(t & -> & ->)|[->|(c1 & s1 & -> & _ & ->)]];
    [cbn; now rewrite !prefix_empty|reflexivity|].
  rewrite !prefix_cons. destruct (Ascii.ascii_dec "E" c1); [|reflexivity].
  destruct (canonical_cases s1) as [(t & -> & ->)|[->|(c2 & s2 & -> & _ & ->)]];
    [now rewrite prefix_of_Ethernet, prefix_of_Eth by discriminate|reflexivity|].
  rewrite !prefix_cons. destruct (Ascii.ascii_dec "t" c2); [|reflexivity].
  destruct (canonical_cases s2) as [(t & -> & ->)|[->|(c3 & s3 & -> & _ & ->)]];
    [now rewrite prefix_of_Ethernet, prefix_of_Eth by discriminate|reflexivity|].
  rewrite !prefix_cons. destruct (Ascii.ascii_dec "h" c3); [|reflexivity].
  now rewrite !prefix_empty.
Qed.

(** ** The stable sort *)

Section StableSort.

Context {A : Type} (key : A -> list Z).

Lemma has_key_true (k : list Z) (x : A) : has_key key k x = true <-> key x = k.
Proof.
  unfold has_key. destruct (list_eq_dec Z.eq_dec (key x) k); split; congruence.
Qed.

Lemma key_le_refl (x : A) : key_le key x x.
Proof. apply list_lt_irrefl. Qed.

Lemma head_of_filter (k : list Z) (x : A) (l l' : list A) :
  filter (has_key key k) l = x :: l' -> In x l /\ key x = k.
Proof.
  intros H. assert (Hin : In x (filter (has_key key k) l)) by (rewrite H; now left).
  apply filter_In in Hin. now rewrite has_key_true in Hin.
Qed.

Lemma filter_head (x : A) (l : list A) :
  filter (has_key key (key x)) (x :: l) = x :: filter (has_key key (key x)) l.
Proof.
  cbn [filter]. now rewrite (proj2 (has_key_true (key x) x) eq_refl).
Qed.

(** Two lists in key order in which the entries of every key come in the
    same order are the same list. *)
Lemma stable_order_unique (l1 l2 : list A) :
  StronglySorted (key_le key) l1 -> StronglySorted (key_le key) l2 ->
  (forall k, filter (has_key key k) l1 = filter (has_key key k) l2) ->
  l1 = l2.
Proof.
  intros H1. revert l2. induction H1 as [|x l1 Hs1 IH Hx]; intros l2 H2 Hsame.
  - destruct l2 as [|y l2]; auto.
    specialize (Hsame (key y)). simpl in Hsame.
    rewrite (proj2 (has_key_true (key y) y) eq_refl) in Hsame. discriminate.
  - destruct H2 as [|y l2 Hs2 Hy].
    + specialize (Hsame (key x)). simpl in Hsame.
      rewrite (proj2 (has_key_true (key x) x) eq_refl) in Hsame. discriminate.
    + assert (Hxy : key x = key y).
      { pose proof (Hsame (key x)) as Ex. pose proof (Hsame (key y)) as Ey.
        rewrite (filter_head x l1) in Ex. rewrite (filter_head y l2) in Ey.
        symmetry in Ex. apply head_of_filter in Ex. apply head_of_filter in Ey.
        destruct Ex as [Ex _], Ey as [Ey _].
        assert (Lyx : key_le key y x).
        { destruct Ex as [<-|Ex]; [apply key_le_refl|].
          rewrite Forall_forall in Hy. now apply Hy. }
        assert (Lxy : key_le key x y).
        { destruct Ey as [<-|Ey]; [apply key_le_refl|].
          rewrite Forall_forall in Hx. now apply Hx. }
        now apply list_lt_connected. }
      pose proof (Hsame (key x)) as E. cbn [filter] in E.
      rewrite (proj2 (has_key_true (key x) x) eq_refl) in E.
      rewrite (proj2 (has_key_true (key x) y) (eq_sym Hxy)) in E.
      injection E as <- Etail. f_equal. apply IH; auto.
      intros k. specialize (Hsame k). cbn [filter] in Hsame.
      destruct (has_key key k x) eqn:Ek; [|exact Hsame].
      apply has_key_true in Ek. subst k. exact Etail.
Qed.

End StableSort.

(** X5. The sort is the only stable sort: a list in key order in which the
    entries of every key stand in the order they have in the input is the
    list [sorted] returns, whatever algorithm made it. *)
Theorem stable_sort_is_unique {A : Type} (key : A -> list Z) (l out : list A) :
  StronglySorted (fun x y => list_lt (key y) (key x) = false) out ->
  (forall k, filter (has_key key k) out = filter (has_key key k) l) ->
  out = sorted key l.
Proof.
  intros Hsorted Hstable. apply (stable_order_unique key); auto.
  - apply sorted_sorted.
  - intros k. now rewrite Hstable, sorted_stable.
Qed.

Lemma stable_sort_is_unique_witness :
  [("Eth1", 7); ("Eth1/1", 5); ("Eth1/1", 6); ("Eth2", 4)]
  = sorted (fun x => interface_sort_key (fst x))
      [("Eth2", 4); ("Eth1/1", 5); ("Eth1", 7); ("Eth1/1", 6)].
Proof.
  apply stable_sort_is_unique.
  - repeat constructor.
  - intros k. cbn [filter]. unfold has_key. cbn [fst].
    replace (interface_sort_key "Eth1") with [1] by reflexivity.
    replace (interface_sort_key "Eth1/1") with [1; 1] by reflexivity.
    replace (interface_sort_key "Eth2") with [2] by reflexivity.
    destruct (list_eq_dec Z.eq_dec [1] k), (list_eq_dec Z.eq_dec [1; 1] k),
      (list_eq_dec Z.eq_dec [2] k); congruence.
Defined.

(** X6. A port list that is already in key order is returned as it is, and
    sorting twice is sorting once. *)
Theorem sorted_is_idempotent {A : Type} (key : A -> list Z) (l : list A) :
  (StronglySorted (fun x y => list_lt (key y) (key x) = false) l -> sorted key l = l)
  /\ sorted key (sorted key l) = sorted key l.
Proof.
  split.
  - intros H. symmetry. apply (stable_order_unique key).
    + exact H.
    + apply sorted_sorted.
    + intros k. now rewrite sorted_stable.
  - symmetry. apply (stable_order_unique key).
    + apply sorted_sorted.
    + apply sorted_sorted.
    + intros k. now rewrite !sorted_stable.
Qed.

Lemma sorted_is_idempotent_witness :
  sorted (fun x => interface_sort_key (fst x)) [("Eth1/2", 0); ("Eth1/10", 1); ("Eth2/1", 2)]
  = [("Eth1/2", 0); ("Eth1/10", 1); ("Eth2/1", 2)].
Proof.
  apply sorted_is_idempotent. repeat constructor.
Defined.

(** ** Which ports are kept *)

Lemma keys_In {V : Type} (d : dict V) (k : string) :
  In k (keys d) <-> exists v, In (k, v) d.
Proof.
  unfold keys. rewrite in_map_iff. split.
  - intros ([k' v] & <- & Hin). now exists v.
  - intros (v & Hin). now exists (k, v).
Qed.

(** X7. Of the ports of the rate counters, those whose name starts with
    [Eth], and only those, have their canonical name among the labels of the
    sorted list; no label occurs twice. *)
Theorem sorted_ports_are_the_eth_ports (rates : dict RateData)
  (errors : dict ErrorData) (port : string) :
  In port (keys rates) ->
  let sorted_interfaces := sort_eth_interfaces (combined_data rates errors) in
  (In (canonical port) (map fst sorted_interfaces)
   <-> PyStr.startswith port "Eth" = true)
  /\ NoDup (map fst sorted_interfaces).
Proof.
  intros Hin sorted_interfaces.
  pose proof (combined_data_NoDup rates errors) as Hnd.
  assert (Hperm : Permutation
                    (filter (fun item => PyStr.startswith (fst item) "Eth")
                       (combined_data rates errors))
                    sorted_interfaces).
  { unfold sorted_interfaces, sort_eth_interfaces.
    rewrite (eth_interfaces_filter _ Hnd). apply sorted_perm. }
  split.
  - fold (keys sorted_interfaces). rewrite keys_In. split.
    + intros (p & Hp). apply (Permutation_in _ (Permutation_sym Hperm)) in Hp.
      apply filter_In in Hp. simpl in Hp.
      now rewrite canonical_keeps_alias_prefix in Hp.
    + intros Hstart.
      assert (Hk : In (canonical port) (keys (combined_data rates errors))).
      { unfold combined_data. rewrite combined_data_keys_from. right.
        now apply in_map. }
      apply keys_In in Hk. destruct Hk as (p & Hp). exists p.
      apply (Permutation_in _ Hperm). apply filter_In. split; auto.
      simpl. now rewrite canonical_keeps_alias_prefix.
  - apply (Permutation_NoDup (Permutation_map fst Hperm)).
    now apply NoDup_keys_filter.
Qed.

Lemma sorted_ports_are_the_eth_ports_witness :
  let rates :=
    [("Management1", mkRateData None None None);
     ("Ethernet2", mkRateData None None None);
     ("Ethernet1", mkRateData None None None)] in
  ~ In "Management1" (map fst (sort_eth_interfaces (combined_data rates [])))
  /\ In "Eth2" (map fst (sort_eth_interfaces (combined_data rates []))).
Proof.
  split.
  - intros H.
    apply (proj1 (sorted_ports_are_the_eth_ports
                    [("Management1", mkRateData None None None);
                     ("Ethernet2", mkRateData None None None);
                     ("Ethernet1", mkRateData None None None)] [] "Management1"
                    ltac:(simpl; auto))) in H.
    discriminate.
  - apply (proj1 (sorted_ports_are_the_eth_ports
                    [("Management1", mkRateData None None None);
                     ("Ethernet2", mkRateData None None None);
                     ("Ethernet1", mkRateData None None None)] [] "Ethernet2"
                    ltac:(simpl; auto))).
    reflexivity.
Defined.

(** ** Digit runs *)

Lemma all_chars_rev_onto (cls : ascii -> bool) (s acc : string) :
  all_chars cls (PyStr.rev_onto s acc) = all_chars cls s && all_chars cls acc.
Proof.
  revert acc. induction s as [|c s IH]; intros acc; simpl; auto.
  rewrite IH. simpl. destruct (cls c), (all_chars cls s); reflexivity.
Qed.

Lemma rev_onto_not_empty (s acc : string) :
  acc <> "" -> PyStr.rev_onto s acc <> "".
Proof.
  revert acc. induction s as [|c s IH]; intros acc H; simpl; auto.
  apply IH. discriminate.
Qed.

Lemma flush_digit_runs (cur : string) :
  all_chars PyStr.isdigit cur = true -> Forall digit_run (flush cur).
Proof.
  intros H. destruct cur as [|c cur]; constructor; [|constructor].
  split.
  - unfold PyStr.rev. simpl. apply rev_onto_not_empty. discriminate.
  - unfold PyStr.rev. rewrite all_chars_rev_onto. now rewrite H.
Qed.

Lemma findall_digits_from_runs (s cur : string) :
  all_chars PyStr.isdigit cur = true ->
  Forall digit_run (PyStr.findall_digits_from cur s).
Proof.
  revert cur. induction s as [|c s IH]; intros cur H.
  - apply (flush_digit_runs cur H).
  - cbn [PyStr.findall_digits_from]. destruct (PyStr.isdigit c) eqn:E.
    + apply IH. simpl. now rewrite E.
    + pose proof (flush_digit_runs cur H) as Hf.
      destruct cur; [now apply IH|].
      constructor; [now inversion Hf|now apply IH].
Qed.

Lemma digit_value_range (c : ascii) :
  PyStr.isdigit c = true -> 0 <= PyStr.digit_value c <= 9.
Proof.
  unfold PyStr.isdigit, PyStr.between, PyStr.digit_value.
  intros H. apply andb_true_iff in H. destruct H as [H1 H2].
  apply Nat.leb_le in H1, H2. lia.
Qed.

Lemma int_from_nonneg (s : string) (acc : Z) :
  0 <= acc -> all_chars PyStr.isdigit s = true -> acc <= PyStr.int_from acc s.
Proof.
  revert acc. induction s as [|c s IH]; intros acc Hacc H;
    cbn [all_chars PyStr.int_from] in *; [lia|].
  apply andb_true_iff in H. destruct H as [Hc Hs].
  pose proof (digit_value_range c Hc) as Hv.
  assert (Hnext : 0 <= 10 * acc + PyStr.digit_value c) by lia.
  specialize (IH _ Hnext Hs). lia.
Qed.

(** X8. Every run [re.findall(r'\d+', name)] returns is a non-empty string
    of decimal digits, so that [int] is applied to nothing else; the integers
    of a sort key are not negative, and neither is the chart number of a
    port. *)
Theorem digit_runs_are_numbers (name : string) :
  Forall (fun part => part <> "" /\ all_chars PyStr.isdigit part = true)
    (PyStr.findall_digits name)
  /\ Forall (fun n => 0 <= n) (interface_sort_key name)
  /\ (forall n, port_number name = Ok n -> 0 <= n).
Proof.
  assert (H : Forall digit_run (PyStr.findall_digits name))
    by now apply findall_digits_from_runs.
  assert (Hk : Forall (fun n => 0 <= n) (interface_sort_key name)).
  { unfold interface_sort_key. apply Forall_map.
    eapply Forall_impl; [|exact H]. intros part [_ Hd].
    apply (int_from_nonneg part 0); [lia|exact Hd]. }
  split; [exact H|]. split; [exact Hk|].
  unfold port_number, interface_sort_key in *.
  destruct (PyStr.findall_digits name) as [|part parts]; [discriminate|].
  intros n [= <-]. now inversion Hk.
Qed.

Lemma digit_runs_are_numbers_witness : 0 <= 49.
Proof.
  apply (proj2 (proj2 (digit_runs_are_numbers "Eth49/1"))). reflexivity.
Defined.

(** ** When the projection returns *)

Lemma mapM_ok_iff {A B : Type} (f : A -> outcome B) (l : list A) :
  (exists r, mapM f l = Ok r) <-> Forall (fun a => exists b, f a = Ok b) l.
Proof.
  induction l as [|a l IH]; simpl.
  - split; [constructor|eauto].
  - split.
    + intros (r & H). destruct (f a) as [b|e] eqn:Ea; simpl in H; [|discriminate].
      destruct (mapM f l) as [bs|e] eqn:El; simpl in H; [|discriminate].
      constructor; [eauto|]. apply IH. eauto.
    + intros H. inversion H as [|? ? (b & Hb) Hl]; subst.
      apply IH in Hl. destruct Hl as (bs & Hbs). rewrite Hb, Hbs. simpl. eauto.
Qed.

Lemma mapM_raise_from {A B : Type} (f : A -> outcome B) (l : list A) (e : exn) :
  mapM f l = Raise e -> exists a, In a l /\ f a = Raise e.
Proof.
  induction l as [|a l IH]; simpl; [discriminate|].
  destruct (f a) as [b|e'] eqn:Ea; simpl.
  - destruct (mapM f l) as [bs|e''] eqn:El; simpl; [discriminate|].
    intros [= <-]. destruct (IH eq_refl) as (a' & Hin & Ha'). eauto.
  - intros [= <-]. eauto.
Qed.

Lemma scaled_raises_OverflowError (rate : num) (e : exn) :
  scaled rate = Raise e ->
  e = OverflowError "integer division result too large for a float".
Proof.
  unfold scaled, div_million. destruct (truthy rate); [|discriminate].
  destruct rate as [z|f]; [|discriminate].
  destruct (SFdiv prec emax (float_of_int z) (float_of_int 1000000)); congruence.
Qed.

Lemma mapM_ext_in {A B : Type} (f g : A -> outcome B) (l : list A) :
  (forall a, In a l -> f a = g a) -> mapM f l = mapM g l.
Proof.
  induction l as [|a l IH]; intros H; simpl; [reflexivity|].
  rewrite (H a) by now left. rewrite IH; [reflexivity|].
  intros a' Ha'. apply H. now right.
Qed.

Lemma mapM_agrees {A B : Type} (f g : A -> outcome B) (l : list A) (r : list B) :
  (forall a b, f a = Ok b -> g a = Ok b) -> mapM f l = Ok r -> mapM g l = Ok r.
Proof.
  intros H. revert r. induction l as [|a l IH]; intros r; simpl; [auto|].
  destruct (f a) as [b|e] eqn:Ea; simpl; [|discriminate].
  destruct (mapM f l) as [bs|e] eqn:El; simpl; [|discriminate].
  intros [= <-]. now rewrite (H a b Ea), (IH bs eq_refl).
Qed.

(** What [int] does with a digit run, by its length. *)
Lemma checked_int_ok (s : string) :
  (String.length s <= int_max_str_digits)%nat -> Full.int s = Ok (PyStr.int s).
Proof.
  intros H. unfold Full.int. apply Nat.leb_le in H. now rewrite H.
Qed.

Lemma checked_int_inv (s : string) (z : Z) :
  Full.int s = Ok z -> (String.length s <= int_max_str_digits)%nat /\ z = PyStr.int s.
Proof.
  unfold Full.int. destruct (String.length s <=? int_max_str_digits)%nat eqn:E;
    [|discriminate].
  intros [= <-]. split; [now apply Nat.leb_le|reflexivity].
Qed.

Lemma checked_int_raises (s : string) (e : exn) :
  Full.int s = Raise e ->
  (int_max_str_digits < String.length s)%nat
  /\ e = ValueError (int_limit_message (String.length s)).
Proof.
  unfold Full.int. destruct (String.length s <=? int_max_str_digits)%nat eqn:E;
    [discriminate|].
  intros [= <-]. split; [now apply Nat.leb_gt|reflexivity].
Qed.

Lemma checked_port_number_ok_iff (port : string) :
  (exists n, Full.port_number port = Ok n) <-> has_port_number port.
Proof.
  unfold Full.port_number, has_port_number.
  destruct (PyStr.findall_digits port) as [|part parts].
  - split; [intros (n & H); discriminate|intros (part & parts & H & _); discriminate].
  - split.
    + intros (n & H). apply checked_int_inv in H. exists part, parts. tauto.
    + intros (part' & parts' & [= <- <-] & H). rewrite (checked_int_ok _ H). eauto.
Qed.

Lemma checked_port_number_agrees (port : string) (n : Z) :
  Full.port_number port = Ok n -> port_number port = Ok n.
Proof.
  unfold Full.port_number, port_number.
  destruct (PyStr.findall_digits port) as [|part parts]; [discriminate|].
  intros H. apply checked_int_inv in H. destruct H as [_ ->]. reflexivity.
Qed.

Lemma checked_port_number_raises (port : string) (e : exn) :
  Full.port_number port = Raise e ->
  e = IndexError "list index out of range"
  \/ exists digits,
       (int_max_str_digits < digits)%nat /\ e = ValueError (int_limit_message digits).
Proof.
  unfold Full.port_number.
  destruct (PyStr.findall_digits port) as [|part parts].
  - intros [= <-]. now left.
  - intros H. apply checked_int_raises in H. right. eauto.
Qed.

Lemma checked_port_number_within_limit (port : string) :
  within_int_limit port -> Full.port_number port = port_number port.
Proof.
  unfold within_int_limit, Full.port_number, port_number.
  destruct (PyStr.findall_digits port) as [|part parts]; [reflexivity|].
  intros H. inversion H; subst. now apply checked_int_ok.
Qed.

(** X9. With [int] refusing a digit run of more than 4300 digits, the
    projection returns exactly when every port has a digit run, the first
    one of at most 4300 digits, and no rate is an integer too large to
    divide; a rate that is a float never stands in the way. What it raises
    otherwise is the [IndexError] of the missing digit run, the [ValueError]
    of the digit run beyond the limit or the [OverflowError] of the
    division, nothing else. What it returns is what the projection without
    the limit returns, and the two are the same on names whose digit runs
    are within the limit. *)
Theorem projection_returns_iff (sorted_interfaces : list (string * PortCounters)) :
  ((exists data, Full.prepare_interface_data sorted_interfaces = Ok data)
   <-> Forall (fun item =>
                 has_port_number (fst item)
                 /\ (exists r, scaled (inBpsRate (snd item)) = Ok r)
                 /\ (exists r, scaled (outBpsRate (snd item)) = Ok r))
         sorted_interfaces)
  /\ (forall f, exists r, scaled (Float f) = Ok r)
  /\ (forall e, Full.prepare_interface_data sorted_interfaces = Raise e ->
                e = IndexError "list index out of range"
                \/ (exists digits,
                      (int_max_str_digits < digits)%nat
                      /\ e = ValueError (int_limit_message digits))
                \/ e = OverflowError "integer division result too large for a float")
  /\ (forall data, Full.prepare_interface_data sorted_interfaces = Ok data ->
                   prepare_interface_data sorted_interfaces = Ok data)
  /\ (Forall (fun item => within_int_limit (fst item)) sorted_interfaces ->
      Full.prepare_interface_data sorted_interfaces
      = prepare_interface_data sorted_interfaces).
Proof.
  split; [|split; [|split; [|split]]].
  - unfold Full.prepare_interface_data. split.
    + intros (data & H).
      destruct (mapM Full.port_number (map fst sorted_interfaces))
        as [numbers|e1] eqn:Hn; simpl in H; [|discriminate].
      destruct (mapM (fun item => scaled (inBpsRate (snd item))) sorted_interfaces)
        as [ins|e2] eqn:Hi; simpl in H; [|discriminate].
      destruct (mapM (fun item => scaled (outBpsRate (snd item))) sorted_interfaces)
        as [outs|e3] eqn:Ho; simpl in H; [|discriminate].
      assert (Hn' : Forall (fun a => exists b, Full.port_number a = Ok b)
                      (map fst sorted_interfaces)) by (apply mapM_ok_iff; eauto).
      assert (Hi' : exists r, mapM (fun item => scaled (inBpsRate (snd item)))
                                sorted_interfaces = Ok r) by eauto.
      assert (Ho' : exists r, mapM (fun item => scaled (outBpsRate (snd item)))
                                sorted_interfaces = Ok r) by eauto.
      apply mapM_ok_iff in Hi', Ho'. rewrite Forall_map in Hn'.
      rewrite Forall_forall in *. intros item Hin.
      repeat split; auto.
      apply checked_port_number_ok_iff. exact (Hn' item Hin).
    + intros H.
      assert (Hn : exists r, mapM Full.port_number (map fst sorted_interfaces) = Ok r).
      { apply mapM_ok_iff. rewrite Forall_map. eapply Forall_impl; [|exact H].
        intros item (Hd & _). now apply checked_port_number_ok_iff. }
      assert (Hi : exists r, mapM (fun item => scaled (inBpsRate (snd item)))
                               sorted_interfaces = Ok r).
      { apply mapM_ok_iff. eapply Forall_impl; [|exact H].
        intros item (_ & H' & _). exact H'. }
      assert (Ho : exists r, mapM (fun item => scaled (outBpsRate (snd item)))
                               sorted_interfaces = Ok r).
      { apply mapM_ok_iff. eapply Forall_impl; [|exact H].
        intros item (_ & _ & H'). exact H'. }
      destruct Hn as (numbers & Hn), Hi as (ins & Hi), Ho as (outs & Ho).
      rewrite Hn, Hi, Ho. simpl. eauto.
  - intros f. unfold scaled, div_million. destruct (truthy (Float f)); eauto.
  - unfold Full.prepare_interface_data. intros e.
    destruct (mapM Full.port_number (map fst sorted_interfaces)) as [numbers|e1] eqn:E1;
      simpl.
    + destruct (mapM (fun item => scaled (inBpsRate (snd item))) sorted_interfaces)
        as [ins|e2] eqn:E2; simpl.
      * destruct (mapM (fun item => scaled (outBpsRate (snd item))) sorted_interfaces)
          as [outs|e3] eqn:E3; simpl; [discriminate|].
        intros [= <-]. right. right. apply mapM_raise_from in E3.
        destruct E3 as (item & _ & E3). now apply scaled_raises_OverflowError in E3.
      * intros [= <-]. right. right. apply mapM_raise_from in E2.
        destruct E2 as (item & _ & E2). now apply scaled_raises_OverflowError in E2.
    + intros [= <-]. apply mapM_raise_from in E1.
      destruct E1 as (port & _ & E1).
      destruct (checked_port_number_raises _ _ E1) as [->|H]; [now left|right; now left].
  - unfold Full.prepare_interface_data, prepare_interface_data. intros data.
    destruct (mapM Full.port_number (map fst sorted_interfaces)) as [numbers|e1] eqn:E1;
      simpl; [|discriminate].
    rewrite (mapM_agrees Full.port_number port_number _ _
               checked_port_number_agrees E1).
    simpl. auto.
  - intros H. unfold Full.prepare_interface_data, prepare_interface_data.
    rewrite (mapM_ext_in Full.port_number port_number (map fst sorted_interfaces));
      [reflexivity|].
    intros port Hin. apply checked_port_number_within_limit.
    apply in_map_iff in Hin. destruct Hin as (item & <- & Hin).
    rewrite Forall_forall in H. now apply H.
Qed.

(** A port name with a digit run of 4301 digits: the projection without the
    limit returns, and [int] raises. *)
Example projection_refuses_long_digit_run :
  let port := "Eth" ++ repeated "1" 4301 in
  Full.prepare_interface_data
    [(port, mkPortCounters "" (Int 0) (Int 0) 0 0 0 0 0 0 0 0)]
  = Raise (ValueError (int_limit_message 4301))
  /\ exists data,
       prepare_interface_data
         [(port, mkPortCounters "" (Int 0) (Int 0) 0 0 0 0 0 0 0 0)]
       = Ok data.
Proof.
  cbv zeta. split; [vm_compute; reflexivity|]. eexists. vm_compute. reflexivity.
Qed.

(** ** Chart data *)

Lemma item_at_nth {A : Type} (l : list A) (i : nat) (a : A) :
  nth_error l i = Some a -> item_at l i = Ok a.
Proof. unfold item_at. now intros ->. Qed.

Lemma nth_error_range (n i : nat) : (i < n)%nat -> nth_error (range n) i = Some i.
Proof.
  intros H. unfold range. rewrite nth_error_nth' with (d := O).
  - now rewrite seq_nth.
  - now rewrite length_seq.
Qed.

Lemma range_In (n i : nat) : In i (range n) -> (i < n)%nat.
Proof. unfold range. rewrite in_seq. lia. Qed.

(** The chart entries an index has when the series describes a port there. *)
Lemma points_of_described_index (data : Series) (i : nat) (port : string)
  (p : PortCounters) :
  describes data i port p ->
  exists n rate_in rate_out,
    port_number port = Ok n
    /\ scaled (inBpsRate p) = Ok rate_in
    /\ scaled (outBpsRate p) = Ok rate_out
    /\ chart_category data i = Ok ("Eth" ++ str n)
    /\ traffic_point data i = Ok (Traffic.mkPoint ("Eth" ++ str n) rate_in rate_out)
    /\ error_point data i
       = Ok (Errors.mkPoint ("Eth" ++ str n) (inErrors p) (outErrors p)
               (frameTooLongs p) (frameTooShorts p) (fcsErrors p)
               (alignmentErrors p) (symbolErrors p))
    /\ item_at (total_errors_data data) i = Ok (totalErrors p).
Proof.
  intros (_ & (n & Hn & Hport) & (r1 & Hr1 & Hs1) & (r2 & Hr2 & Hs2)
          & H1 & H2 & H3 & H4 & H5 & H6 & H7 & H8).
  exists n, r1, r2.
  assert (Hc : chart_category data i = Ok ("Eth" ++ str n)).
  { unfold chart_category. now rewrite (item_at_nth _ _ _ Hn). }
  repeat split; auto.
  - unfold traffic_point. rewrite Hc. simpl.
    now rewrite (item_at_nth _ _ _ Hr1), (item_at_nth _ _ _ Hr2).
  - unfold error_point. rewrite Hc. simpl.
    now rewrite (item_at_nth _ _ _ H1), (item_at_nth _ _ _ H2),
      (item_at_nth _ _ _ H3), (item_at_nth _ _ _ H4), (item_at_nth _ _ _ H5),
      (item_at_nth _ _ _ H6), (item_at_nth _ _ _ H7).
  - now apply item_at_nth.
Qed.

Lemma described_indices (sorted_interfaces : list (string * PortCounters))
  (data : Series) (i : nat) :
  prepare_interface_data sorted_interfaces = Ok data ->
  (i < List.length (labels data))%nat ->
  exists port p, nth_error sorted_interfaces i = Some (port, p)
                 /\ describes data i port p.
Proof.
  intros H Hi.
  destruct (prepare_interface_data_lengths _ _ H) as (Hl & _). rewrite Hl in Hi.
  apply nth_error_Some in Hi.
  destruct (nth_error sorted_interfaces i) as [[port p]|] eqn:E; [|congruence].
  exists port, p. split; auto.
  now apply prepare_interface_data_aligned with sorted_interfaces.
Qed.

(** X10. On a series the projection returned, the traffic chart and the error
    chart are built without an index out of range; each has one entry per
    port, in the order of the sorted list, and the entry of a port carries
    the category [Eth] followed by the port's chart number, the port's two
    scaled rates, or its seven error counters. *)
Theorem chart_entries_follow_ports (sorted_interfaces : list (string * PortCounters))
  (data : Series) :
  prepare_interface_data sorted_interfaces = Ok data ->
  exists traffic errors,
    traffic_chart_data data = Ok traffic
    /\ error_chart_data data = Ok errors
    /\ List.length traffic = List.length sorted_interfaces
    /\ List.length errors = List.length sorted_interfaces
    /\ forall i port p,
         nth_error sorted_interfaces i = Some (port, p) ->
         exists n rate_in rate_out,
           port_number port = Ok n
           /\ scaled (inBpsRate p) = Ok rate_in
           /\ scaled (outBpsRate p) = Ok rate_out
           /\ nth_error traffic i
              = Some (Traffic.mkPoint ("Eth" ++ str n) rate_in rate_out)
           /\ nth_error errors i
              = Some (Errors.mkPoint ("Eth" ++ str n) (inErrors p) (outErrors p)
                        (frameTooLongs p) (frameTooShorts p) (fcsErrors p)
                        (alignmentErrors p) (symbolErrors p)).
Proof.
  intros H.
  destruct (prepare_interface_data_lengths _ _ H) as (Hl & _).
  assert (Ht : exists traffic, traffic_chart_data data = Ok traffic).
  { apply mapM_ok_iff. apply Forall_forall. intros i Hi. apply range_In in Hi.
    destruct (described_indices _ _ _ H Hi) as (port & p & _ & Hd).
    destruct (points_of_described_index _ _ _ _ Hd)
      as (n & r1 & r2 & _ & _ & _ & _ & Hp & _). eauto. }
  assert (He : exists errors, error_chart_data data = Ok errors).
  { apply mapM_ok_iff. apply Forall_forall. intros i Hi. apply range_In in Hi.
    destruct (described_indices _ _ _ H Hi) as (port & p & _ & Hd).
    destruct (points_of_described_index _ _ _ _ Hd)
      as (n & r1 & r2 & _ & _ & _ & _ & _ & Hp & _). eauto. }
  destruct Ht as (traffic & Ht), He as (errors & He).
  exists traffic, errors. split; [exact Ht|]. split; [exact He|].
  unfold traffic_chart_data in Ht. unfold error_chart_data in He.
  pose proof (mapM_length _ _ _ Ht) as Hlt. pose proof (mapM_length _ _ _ He) as Hle.
  unfold range in Hlt, Hle. rewrite length_seq, Hl in Hlt, Hle.
  split; [exact Hlt|]. split; [exact Hle|].
  intros i port p Hi.
  assert (Hlt' : (i < List.length (labels data))%nat).
  { rewrite Hl. apply nth_error_Some. congruence. }
  pose proof (prepare_interface_data_aligned _ _ _ _ _ H Hi) as Hd.
  destruct (points_of_described_index _ _ _ _ Hd)
    as (n & r1 & r2 & Hn & Hr1 & Hr2 & _ & Hp1 & Hp2 & _).
  exists n, r1, r2. repeat split; auto.
  - destruct (mapM_nth_error _ _ _ Ht i i (nth_error_range _ _ Hlt')) as (t & Hnth & Hpt).
    rewrite Hnth. congruence.
  - destruct (mapM_nth_error _ _ _ He i i (nth_error_range _ _ Hlt')) as (t & Hnth & Hpt).
    rewrite Hnth. congruence.
Qed.

Lemma chart_entries_follow_ports_witness :
  exists traffic errors,
    traffic_chart_data
      (mkSeries ["Eth1/2"] [1] [Float 2] [Int 0] [3] [0] [0] [0] [0] [0] [0] [3])
    = Ok traffic
    /\ error_chart_data
         (mkSeries ["Eth1/2"] [1] [Float 2] [Int 0] [3] [0] [0] [0] [0] [0] [0] [3])
       = Ok errors
    /\ List.length traffic = 1%nat /\ List.length errors = 1%nat.
Proof.
  destruct (chart_entries_follow_ports
              [("Eth1/2", mkPortCounters "" (Int 0) (Int 2000000) 3 3 0 0 0 0 0 0)]
              (mkSeries ["Eth1/2"] [1] [Float 2] [Int 0] [3] [0] [0] [0] [0] [0] [0] [3])
              ltac:(vm_compute; reflexivity))
    as (traffic & errors & Ht & He & Hlt & Hle & _).
  exists traffic, errors. auto.
Defined.

Lemma pie_chart_from_ok (sorted_interfaces : list (string * PortCounters))
  (data : Series) :
  prepare_interface_data sorted_interfaces = Ok data ->
  forall rest i,
    (forall j item, nth_error rest j = Some item ->
                    nth_error sorted_interfaces (i + j) = Some item) ->
    exists points,
      pie_chart_from data i rest = Ok points
      /\ Forall2
           (fun item point =>
              exists n, port_number (fst item) = Ok n
                        /\ point = Pie.mkPoint ("Eth" ++ str n) (totalErrors (snd item)))
           (filter (fun item => (0 <? totalErrors (snd item))%Z) rest) points.
Proof.
  intros H. induction rest as [|[port p] rest IH]; intros i Hrest.
  - exists []. split; [reflexivity|constructor].
  - assert (Hi : nth_error sorted_interfaces i = Some (port, p)).
    { specialize (Hrest O (port, p) eq_refl). now rewrite Nat.add_0_r in Hrest. }
    pose proof (prepare_interface_data_aligned _ _ _ _ _ H Hi) as Hd.
    destruct (points_of_described_index _ _ _ _ Hd)
      as (n & _ & _ & Hn & _ & _ & Hc & _ & _ & Ht).
    destruct (IH (S i)) as (points & Hpoints & Hall).
    { intros j item Hj. specialize (Hrest (S j) item Hj).
      now rewrite Nat.add_succ_r in Hrest. }
    cbn [pie_chart_from filter snd]. rewrite Ht. cbn [bind].
    destruct (0 <? totalErrors p)%Z.
    + rewrite Hc. cbn [bind]. rewrite Hpoints. cbn [bind].
      eexists. split; [reflexivity|]. constructor; auto. now exists n.
    + exists points. split; auto.
Qed.

Lemma pie_points_positive (l : list (string * PortCounters)) (points : list Pie.point) :
  Forall2
    (fun item point =>
       exists n, port_number (fst item) = Ok n
                 /\ point = Pie.mkPoint ("Eth" ++ str n) (totalErrors (snd item)))
    l points ->
  Forall (fun item => 0 < totalErrors (snd item)) l ->
  Forall (fun point => 0 < Pie.totalErrors point) points.
Proof.
  induction 1 as [|item point l points (n & _ & ->) _ IH]; intros Hl; constructor.
  - now inversion Hl.
  - apply IH. now inversion Hl.
Qed.

(** X11. On a series the projection returned, the pie chart is built without
    an index out of range and holds, in the order of the sorted list, the
    ports whose total is positive and no other, each with its category and
    its total. *)
Theorem pie_chart_holds_the_ports_in_error
  (sorted_interfaces : list (string * PortCounters)) (data : Series) :
  prepare_interface_data sorted_interfaces = Ok data ->
  exists points,
    pie_chart_data sorted_interfaces data = Ok points
    /\ Forall2
         (fun item point =>
            exists n, port_number (fst item) = Ok n
                      /\ point = Pie.mkPoint ("Eth" ++ str n) (totalErrors (snd item)))
         (filter (fun item => (0 <? totalErrors (snd item))%Z) sorted_interfaces)
         points
    /\ Forall (fun point => 0 < Pie.totalErrors point) points.
Proof.
  intros H.
  destruct (pie_chart_from_ok _ _ H sorted_interfaces O) as (points & Hp & Hall);
    [now intros j item Hj|].
  exists points. split; [exact Hp|]. split; [exact Hall|].
  apply (pie_points_positive _ _ Hall).
  apply Forall_forall. intros item Hitem. apply filter_In in Hitem.
  now apply Z.ltb_lt.
Qed.

Lemma pie_chart_holds_the_ports_in_error_witness :
  exists points,
    pie_chart_data
      [("Eth1", mkPortCounters "" (Int 0) (Int 0) 0 0 0 0 0 0 0 0);
       ("Eth2", mkPortCounters "" (Int 0) (Int 0) 4 4 0 0 0 0 0 0)]
      (mkSeries ["Eth1"; "Eth2"] [1; 2] [Int 0; Int 0] [Int 0; Int 0]
         [0; 4] [0; 0] [0; 0] [0; 0] [0; 0] [0; 0] [0; 0] [0; 4])
    = Ok points
    /\ Forall (fun point => 0 < Pie.totalErrors point) points.
Proof.
  destruct (pie_chart_holds_the_ports_in_error
              [("Eth1", mkPortCounters "" (Int 0) (Int 0) 0 0 0 0 0 0 0 0);
               ("Eth2", mkPortCounters "" (Int 0) (Int 0) 4 4 0 0 0 0 0 0)]
              (mkSeries ["Eth1"; "Eth2"] [1; 2] [Int 0; Int 0] [Int 0; Int 0]
                 [0; 4] [0; 0] [0; 0] [0; 0] [0; 0] [0; 0] [0; 0] [0; 4])
              ltac:(vm_compute; reflexivity))
    as (points & Hp & _ & Hpos).
  exists points. auto.
Defined.

(** ** The rows of the statistics table *)

Lemma div_million_after_scaled (rate r : num) :
  scaled rate = Ok r -> exists q, div_million rate = Ok q.
Proof.
  unfold scaled. destruct (truthy rate) eqn:E; [eauto|].
  intros _. destruct rate as [z|f]; [|unfold div_million; eauto].
  cbn [truthy] in E. apply negb_false_iff, Z.eqb_eq in E. subst z.
  vm_compute. eauto.
Qed.

Section RowsFacts.

Variable format_2f : num -> string.

Lemma interface_rows_from_ok (sorted_interfaces : list (string * PortCounters)) :
  Forall (fun item => (exists q, div_million (outBpsRate (snd item)) = Ok q)
                      /\ (exists q, div_million (inBpsRate (snd item)) = Ok q))
    sorted_interfaces ->
  forall index rows,
    exists rows', interface_rows_from format_2f index rows sorted_interfaces = Ok rows'.
Proof.
  induction 1 as [|[port p] rest ((q1 & H1) & (q2 & H2)) _ IH]; intros index rows;
    cbn [interface_rows_from interface_row]; [eauto|].
  cbn [snd] in H1, H2. rewrite H1. cbn [bind]. rewrite H2. cbn [bind]. apply IH.
Qed.

Lemma interface_rows_from_raise (sorted_interfaces : list (string * PortCounters)) :
  forall index rows e,
    interface_rows_from format_2f index rows sorted_interfaces = Raise e ->
    e = OverflowError "integer division result too large for a float".
Proof.
  assert (Hdiv : forall rate e, div_million rate = Raise e ->
                   e = OverflowError "integer division result too large for a float").
  { intros [z|f] e; unfold div_million; [|discriminate].
    destruct (SFdiv prec emax (float_of_int z) (float_of_int 1000000)); congruence. }
  induction sorted_interfaces as [|[port p] rest IH]; intros index rows e;
    cbn [interface_rows_from interface_row]; [discriminate|].
  destruct (div_million (outBpsRate p)) as [q1|e1] eqn:E1; cbn [bind];
    [|intros [= <-]; now apply Hdiv in E1].
  destruct (div_million (inBpsRate p)) as [q2|e2] eqn:E2; cbn [bind];
    [|intros [= <-]; now apply Hdiv in E2].
  apply IH.
Qed.

End RowsFacts.

(** X12. Once the projection has returned for a sorted list, the rows of the
    statistics table are built for it without a raise, although the rows
    divide every rate, the zero ones included; and whatever list they are
    built for, the only thing the rows raise is the [OverflowError] of the
    division. *)
Theorem rows_built_after_projection (format_2f : num -> string)
  (sorted_interfaces : list (string * PortCounters)) (data : Series) :
  prepare_interface_data sorted_interfaces = Ok data ->
  (exists rows, generate_interface_rows format_2f sorted_interfaces = Ok rows)
  /\ (forall other e,
        generate_interface_rows format_2f other = Raise e ->
        e = OverflowError "integer division result too large for a float").
Proof.
  intros H. split;
    [|intros other e; exact (interface_rows_from_raise format_2f other O "" e)].
  unfold generate_interface_rows.
  apply prepare_interface_data_inv in H.
  destruct H as (numbers & ins & outs & _ & Hi & Ho & _).
  assert (Hi' : exists r, mapM (fun item => scaled (inBpsRate (snd item)))
                            sorted_interfaces = Ok r) by eauto.
  assert (Ho' : exists r, mapM (fun item => scaled (outBpsRate (snd item)))
                            sorted_interfaces = Ok r) by eauto.
  apply mapM_ok_iff in Hi', Ho'. rewrite Forall_forall in Hi', Ho'.
  apply interface_rows_from_ok. apply Forall_forall. intros item Hin.
  destruct (Hi' item Hin) as (r1 & Hr1). destruct (Ho' item Hin) as (r2 & Hr2).
  split; [exact (div_million_after_scaled _ _ Hr2)
         |exact (div_million_after_scaled _ _ Hr1)].
Qed.

Lemma rows_built_after_projection_witness :
  exists rows,
    generate_interface_rows (fun _ => "0.00")
      [("Eth1", mkPortCounters "uplink" (Int 0) (Float 0) 0 0 0 0 0 0 0 0)]
    = Ok rows.
Proof.
  apply (rows_built_after_projection (fun _ => "0.00")
           [("Eth1", mkPortCounters "uplink" (Int 0) (Float 0) 0 0 0 0 0 0 0 0)]
           (mkSeries ["Eth1"] [1] [Int 0] [Int 0] [0] [0] [0] [0] [0] [0] [0] [0])).
  vm_compute. reflexivity.
Defined.

(** ** What a run leaves behind *)




Lemma checked_key_raises (name : string) (e : exn) :
  Full.interface_sort_key name = Raise e ->
  exists digits,
    (int_max_str_digits < digits)%nat /\ e = ValueError (int_limit_message digits).
Proof.
  unfold Full.interface_sort_key. intros H. apply mapM_raise_from in H.
  destruct H as (part & _ & H). apply checked_int_raises in H. eauto.
Qed.



Lemma checked_sort_raises (interfaces : dict PortCounters) (e : exn) :
  Full.sort_eth_interfaces interfaces = Raise e ->
  exists digits,
    (int_max_str_digits < digits)%nat /\ e = ValueError (int_limit_message digits).
Proof.
  unfold Full.sort_eth_interfaces.
  destruct (mapM (fun x => k <- Full.interface_sort_key (fst x) ;; Ok (k, x))
              (eth_interfaces interfaces)) as [keyed|e'] eqn:E; simpl; [discriminate|].
  intros [= <-]. apply mapM_raise_from in E. destruct E as (x & _ & E).
  destruct (Full.interface_sort_key (fst x)) as [k|e''] eqn:Ek; simpl in E;
    [discriminate|].
  injection E as <-. exact (checked_key_raises _ _ Ek).
Qed.

Section FullRunFacts.

Variable execute_command : list string -> outcome Response.
Variable current_timestamp : float.
Variable format_2f : num -> string.
Variable formatted_datetime : string.
Variable html_content :
  SwitchInfo -> EnvironmentSnapshot -> list (string * PortCounters) -> Series -> string.
Variable open_file : string -> outcome unit.
Variable write_text : string -> string -> outcome unit.
Variable left_behind : string -> string -> string.


End FullRunFacts.


(** Three runs that end with the error line and without a file, and one that
    writes the report. The device answers every command; in the first run it
    has no FQDN and the file system has no directory [N], in the second its
    total memory is [10 ** 400], in the third a port name has a digit run of
    4301 digits. *)
Example run_with_refused_name :
  let device (commands : list string) : outcome Response :=
    match commands with
    | ["show version"; "show hostname"] =>
        Ok (mkResponse
              (Some [Version (mkVersionInfo None None None None None None None None);
                     Hostname None]))
    | ["show interfaces counters rates"] => Ok (mkResponse (Some [RateCounters (Some [])]))
    | ["show interfaces counters errors"] =>
        Ok (mkResponse (Some [ErrorCounters (Some [])]))
    | _ => Ok (mkResponse (Some [Environment (mkEnvInfo None)]))
    end in
  let open_file (name : string) : outcome unit :=
    if PyStr.contains "/" name
    then Raise (OSError ("[Errno 2] No such file or directory: '" ++ name ++ "'"))
    else Ok tt in
  Full.main device 1700000000%float (fun _ => "0.00") "2024-02-01-03-04"
    (fun _ _ _ _ => "<html>") open_file (fun _ _ => Ok tt) (fun _ _ => "")
    (mkWorld [] [])
  = (mkWorld []
       ["Error generating report: [Errno 2] No such file or directory: 'N/A-2024-02-01-03-04-report.html'"],
     Ok tt).
Proof.
  vm_compute. reflexivity.
Qed.

Example run_with_memory_overflow :
  let device (commands : list string) : outcome Response :=
    match commands with
    | ["show version"; "show hostname"] =>
        Ok (mkResponse
              (Some [Version (mkVersionInfo None None None None None None
                                (Some (Int (10 ^ 400))) None);
                     Hostname (Some "sw1.example.net")]))
    | ["show interfaces counters rates"] => Ok (mkResponse (Some [RateCounters (Some [])]))
    | ["show interfaces counters errors"] =>
        Ok (mkResponse (Some [ErrorCounters (Some [])]))
    | _ => Ok (mkResponse (Some [Environment (mkEnvInfo None)]))
    end in
  Full.main device 1700000000%float (fun _ => "0.00") "2024-02-01-03-04"
    (fun _ _ _ _ => "<html>") (fun _ => Ok tt) (fun _ _ => Ok tt) (fun _ _ => "")
    (mkWorld [] [])
  = (mkWorld []
       ["Error generating report: integer division result too large for a float"],
     Ok tt).
Proof.
  vm_compute. reflexivity.
Qed.

Example run_with_long_digit_run :
  let port := "Ethernet" ++ repeated "1" 4301 in
  let device (commands : list string) : outcome Response :=
    match commands with
    | ["show version"; "show hostname"] =>
        Ok (mkResponse
              (Some [Version (mkVersionInfo None None None None None None None None);
                     Hostname (Some "sw1.example.net")]))
    | ["show interfaces counters rates"] =>
        Ok (mkResponse (Some [RateCounters (Some [(port, mkRateData None None None)])]))
    | ["show interfaces counters errors"] =>
        Ok (mkResponse (Some [ErrorCounters (Some [])]))
    | _ => Ok (mkResponse (Some [Environment (mkEnvInfo None)]))
    end in
  Full.main device 1700000000%float (fun _ => "0.00") "2024-02-01-03-04"
    (fun _ _ _ _ => "<html>") (fun _ => Ok tt) (fun _ _ => Ok tt) (fun _ _ => "")
    (mkWorld [] [])
  = (mkWorld [] [("Error generating report: " ++ int_limit_message 4301)%string], Ok tt).
Proof.
  vm_compute. reflexivity.
Qed.

Example run_that_writes_the_report :
  let device (commands : list string) : outcome Response :=
    match commands with
    | ["show version"; "show hostname"] =>
        Ok (mkResponse
              (Some [Version (mkVersionInfo (Some (Float 1699990000.5)) None None None
                                None None (Some (Int 8000000)) (Some (Int 4000000)));
                     Hostname (Some "sw1.example.net")]))
    | ["show interfaces counters rates"] =>
        Ok (mkResponse
              (Some [RateCounters (Some [("Ethernet1", mkRateData None None None)])]))
    | ["show interfaces counters errors"] =>
        Ok (mkResponse (Some [ErrorCounters (Some [])]))
    | _ => Ok (mkResponse (Some [Environment (mkEnvInfo None)]))
    end in
  Full.main device 1700000000%float (fun _ => "0.00") "2024-02-01-03-04"
    (fun switch_info _ _ _ => Uptime switch_info) (fun _ => Ok tt) (fun _ _ => Ok tt)
    (fun _ _ => "") (mkWorld [] [])
  = (mkWorld
       [("sw1.example.net-2024-02-01-03-04-report.html",
         "0 weeks, 0 days, 2 hours and 46 minutes")]
       ["Report generated successfully"],
     Ok tt).
Proof.
  vm_compute. reflexivity.
Qed.

(** ** What the patterns capture *)

Lemma take_of_run (cls : ascii -> bool) (s : string) (k : nat) :
  (1 <= k <= PyStr.run_length cls s)%nat -> run_of cls (PyStr.take k s) = true.
Proof.
  unfold run_of. revert k. induction s as [|c s IH]; intros k Hk; simpl in Hk; [lia|].
  destruct (cls c) eqn:E; [|lia].
  destruct k as [|k]; [lia|]. cbn [PyStr.take is_empty all_chars negb andb].
  rewrite E. cbn [andb]. destruct k as [|k].
  - now destruct s.
  - assert (Hk' : (1 <= S k <= PyStr.run_length cls s)%nat) by lia.
    specialize (IH _ Hk'). apply andb_true_iff in IH. tauto.
Qed.

Lemma cooling_captures_word (line : string) (m : list string) :
  Re.re_match Patterns.cooling line = Some m ->
  exists g, m = [g] /\ run_of PyStr.isword g = true.
Proof.
  unfold Re.re_match, Patterns.cooling. cbn [Re.match_from].
  destruct (String.prefix "System cooling status is:" line); [|discriminate].
  intros H. apply ReFacts.longest_first_some in H. destruct H as (j & _ & H).
  cbn [Re.match_from Re.capture] in H.
  apply ReFacts.longest_first_some in H. destruct H as (k & Hk & H).
  cbn [Re.match_from Re.capture app] in H. injection H as <-.
  eexists. split; [reflexivity|]. now apply take_of_run.
Qed.

Lemma temperature_captures_digits (line : string) (m : list string) :
  Re.re_match Patterns.temperature line = Some m ->
  exists g, m = [g] /\ run_of PyStr.isdigit g = true.
Proof.
  unfold Re.re_match, Patterns.temperature. cbn [Re.match_from].
  destruct (String.prefix "Ambient temperature:" line); [|discriminate].
  intros H. apply ReFacts.longest_first_some in H. destruct H as (j & _ & H).
  cbn [Re.match_from Re.capture] in H.
  apply ReFacts.longest_first_some in H. destruct H as (k & Hk & H).
  cbn [Re.match_from Re.capture app] in H.
  match type of H with
  | (if ?b then _ else _) = _ => destruct b; [|discriminate]
  end.
  injection H as <-.
  eexists. split; [reflexivity|]. now apply take_of_run.
Qed.

Lemma parse_stripped_status_values (st st' : ParserState) (line : string) :
  status_values_well_formed (cooling_status st) (ambient_temperature st) ->
  parse_stripped st line = Ok st' ->
  status_values_well_formed (cooling_status st') (ambient_temperature st').
Proof.
  intros [Hc Ht]. unfold parse_stripped.
  destruct (Re.re_match Patterns.cooling line) as [m|] eqn:E1.
  { destruct (cooling_captures_word _ _ E1) as (g & -> & Hg). cbn.
    intros [= <-]. split; cbn; auto. }
  destruct (Re.re_match Patterns.temperature line) as [m|] eqn:E2.
  { destruct (temperature_captures_digits _ _ E2) as (g & -> & Hg). cbn.
    intros [= <-]. split; cbn; eauto. }
  destruct (Re.re_match Patterns.airflow line) as [m|] eqn:E3.
  { destruct (group_1_total _ _ _ E3 eq_refl) as [g ->]. cbn [bind].
    intros [= <-]. now split. }
  destruct (PyStr.startswith line "Fan" && PyStr.contains "Status" line);
    [intros [= <-]; now split|].
  destruct (PyStr.startswith line "Power" && PyStr.contains "Supply" line);
    [intros [= <-]; now split|].
  destruct (Re.re_match Patterns.header line); [intros [= <-]; now split|].
  destruct (parsing_fan st).
  { destruct (Re.re_match Patterns.fan line) as [m|]; [|intros [= <-]; now split].
    destruct (fan_row m) as [row|e]; cbn [bind]; [|discriminate].
    intros [= <-]. now split. }
  destruct (parsing_power st); [|intros [= <-]; now split].
  destruct (Re.re_match Patterns.power line) as [m|]; [|intros [= <-]; now split].
  destruct (power_row m) as [row|e]; cbn [bind]; [|discriminate].
  intros [= <-]. now split.
Qed.

Lemma parse_lines_status_values (lines : list string) (st st' : ParserState) :
  status_values_well_formed (cooling_status st) (ambient_temperature st) ->
  parse_lines st lines = Ok st' ->
  status_values_well_formed (cooling_status st') (ambient_temperature st').
Proof.
  revert st. induction lines as [|raw lines IH]; intros st Hst; cbn [parse_lines].
  - now intros [= <-].
  - unfold parse_line at 1. destruct (is_empty (PyStr.strip raw)); cbn [bind].
    + now apply IH.
    + destruct (parse_stripped st (PyStr.strip raw)) as [st1|e] eqn:E; cbn [bind];
        [|discriminate].
      apply IH. now apply parse_stripped_status_values with st (PyStr.strip raw).
Qed.

(** X14. In every snapshot the parser returns, the cooling status is the
    sentinel or a non-empty run of word characters, and the ambient
    temperature is the sentinel or a non-empty run of decimal digits followed
    by [C]: neither is ever empty or carries white space. *)
Theorem snapshot_values_well_formed (env_info : EnvInfo) (snap : EnvironmentSnapshot) :
  parse_environment env_info = Ok snap ->
  (Cooling_Status snap = "N/A" \/ run_of PyStr.isword (Cooling_Status snap) = true)
  /\ (Ambient_Temperature snap = "N/A"
      \/ exists digits, run_of PyStr.isdigit digits = true
                        /\ Ambient_Temperature snap = digits ++ "C").
Proof.
  intros H. destruct (parse_environment_lines _ _ H) as (st & Hst & -> & -> & _).
  apply (parse_lines_status_values (text_lines env_info) initial_state st);
    [|exact Hst].
  split; now left.
Qed.

Lemma snapshot_values_well_formed_witness :
  ("Ok" = "N/A" \/ run_of PyStr.isword "Ok" = true)
  /\ ("27C" = "N/A"
      \/ exists digits, run_of PyStr.isdigit digits = true /\ "27C" = digits ++ "C").
Proof.
  apply (snapshot_values_well_formed
           (mkEnvInfo
              (Some ["System cooling status is: Ok, fans fine"
                     ++ String "010" "Ambient temperature: 27C"]))
           (mkEnvironmentSnapshot "Ok" "27C" ["N/A"] ["N/A"])).
  vm_compute. reflexivity.
Defined.

(** ** Rows the patterns read *)

Module RowFacts.
Import Re.

Lemma prefix_app (t s : string) : String.prefix t (t ++ s) = true.
Proof.
  induction t as [|a t IH]; [apply prefix_empty|].
  cbn [append]. rewrite prefix_cons.
  destruct (Ascii.ascii_dec a a); [exact IH|contradiction].
Qed.

Lemma drop_app (t s : string) : PyStr.drop (String.length t) (t ++ s) = s.
Proof. induction t as [|a t IH]; [now destruct s|exact IH]. Qed.

Lemma take_app (t s : string) : PyStr.take (String.length t) (t ++ s) = t.
Proof.
  induction t as [|a t IH]; [now destruct s|].
  cbn [String.length append PyStr.take]. now rewrite IH.
Qed.

Lemma run_length_app (cls : ascii -> bool) (a s : string) :
  all_chars cls a = true -> stops cls s = true ->
  PyStr.run_length cls (a ++ s) = String.length a.
Proof.
  intros Ha Hs. induction a as [|c a IH]; cbn [append all_chars] in *.
  - destruct s as [|c s]; [reflexivity|]. cbn in *.
    now destruct (cls c).
  - apply andb_true_iff in Ha. destruct Ha as [Hc Ha].
    cbn [PyStr.run_length String.length]. rewrite Hc. f_equal. now apply IH.
Qed.

Lemma run_of_length (cls : ascii -> bool) (a : string) :
  run_of cls a = true -> (1 <= String.length a)%nat /\ all_chars cls a = true.
Proof.
  unfold run_of. intros H. apply andb_true_iff in H. destruct H as [H1 H2].
  split; [|exact H2]. destruct a; [discriminate|simpl; lia].
Qed.

(** A literal in front of the string is matched. *)
Lemma match_lit (t : string) (p : list item) (s : string) (cur : option string)
  (groups : list string) :
  match_from (Lit t :: p) (t ++ s) cur groups
  = match_from p s (capture t cur) groups.
Proof. cbn [match_from]. now rewrite prefix_app, drop_app. Qed.

(** A run of the class in front of a string that stops it is taken whole,
    when the rest of the pattern accepts what follows. *)
Lemma match_rep (least : nat) (cls : ascii -> bool) (p : list item) (a s : string)
  (cur : option string) (groups r : list string) :
  run_of cls a = true -> stops cls s = true -> (least <= 1)%nat ->
  match_from p s (capture a cur) groups = Some r ->
  match_from (Rep least cls :: p) (a ++ s) cur groups = Some r.
Proof.
  intros Ha Hs Hleast H. apply run_of_length in Ha. destruct Ha as [Hlen Ha].
  cbn [match_from]. rewrite (run_length_app cls a s Ha Hs).
  apply ReFacts.longest_first_greedy; [lia|].
  now rewrite drop_app, take_app.
Qed.

(** A run of another class stops the class. *)
Lemma stops_app (cls other : ascii -> bool) (a s : string) :
  run_of other a = true ->
  (forall c, other c = true -> cls c = false) ->
  stops cls (a ++ s) = true.
Proof.
  intros Ha Hdis. unfold run_of in Ha. destruct a as [|c a]; [discriminate|].
  cbn in Ha. apply andb_true_iff in Ha. destruct Ha as [Hc _].
  cbn. now rewrite (Hdis c Hc).
Qed.

Ltac all_characters c :=
  destruct c as [[] [] [] [] [] [] [] []]; vm_compute; intros;
  first [reflexivity | discriminate].

Lemma space_stops_nonspace (c : ascii) : s c = true -> S' c = false.
Proof. unfold S', s. now intros ->. Qed.

Lemma word_stops_space (c : ascii) : w c = true -> s c = false.
Proof. all_characters c. Qed.

Lemma space_stops_word (c : ascii) : s c = true -> w c = false.
Proof. all_characters c. Qed.

Lemma digit_stops_space (c : ascii) : d c = true -> s c = false.
Proof. all_characters c. Qed.

Lemma space_stops_model (c : ascii) : s c = true -> either w (chr "-") c = false.
Proof. all_characters c. Qed.

Lemma model_stops_space (c : ascii) : either w (chr "-") c = true -> s c = false.
Proof. all_characters c. Qed.

Lemma amount_stops_space (c : ascii) : either d (chr ".") c = true -> s c = false.
Proof. all_characters c. Qed.

Lemma digit_is_no_header (c : ascii) :
  PyStr.isdigit c = true -> either (chr "-") s c = false.
Proof. all_characters c. Qed.

Lemma digit_differs (c x : ascii) :
  PyStr.isdigit c = true -> PyStr.isdigit x = false -> x <> c.
Proof. intros Hc Hx ->. congruence. Qed.

Lemma match_open (p : list item) (s : string) (cur : option string)
  (groups : list string) :
  match_from (Open :: p) s cur groups = match_from p s (Some EmptyString) groups.
Proof. reflexivity. Qed.

Lemma match_close (p : list item) (s g : string) (groups : list string) :
  match_from (Close :: p) s (Some g) groups = match_from p s None (groups ++ [g])%list.
Proof. reflexivity. Qed.

Ltac read_run Hrun Hnext Hstops :=
  apply match_rep; [exact Hrun|exact (stops_app _ _ _ _ Hnext Hstops)|lia|];
  cbn [capture].

Ltac read_run_to_literal Hrun :=
  apply match_rep; [exact Hrun|reflexivity|lia|]; cbn [capture].

(** The fan pattern on a well-formed row. *)
Lemma fan_pattern_reads (label sp1 status sp2 configured sp3 actual rest : string) :
  run_of S' label = true -> run_of s sp1 = true -> run_of w status = true ->
  run_of s sp2 = true -> run_of d configured = true -> run_of s sp3 = true ->
  run_of d actual = true ->
  re_match Patterns.fan
    (label ++ sp1 ++ status ++ sp2 ++ configured ++ "%" ++ sp3 ++ actual ++ "%" ++ rest)
  = Some [label; status; configured; actual].
Proof.
  intros Hlabel Hsp1 Hstatus Hsp2 Hconf Hsp3 Hact.
  unfold re_match, Patterns.fan.
  rewrite match_open.
  read_run Hlabel Hsp1 space_stops_nonspace.
  rewrite match_close. cbn [app].
  read_run Hsp1 Hstatus word_stops_space.
  rewrite match_open.
  read_run Hstatus Hsp2 space_stops_word.
  rewrite match_close. cbn [app].
  read_run Hsp2 Hconf digit_stops_space.
  rewrite match_open.
  read_run_to_literal Hconf.
  rewrite match_close. cbn [app]. rewrite match_lit. cbn [capture].
  read_run Hsp3 Hact digit_stops_space.
  rewrite match_open.
  read_run_to_literal Hact.
  rewrite match_close. cbn [app]. rewrite match_lit. reflexivity.
Qed.

(** The power supply pattern on a well-formed row. *)
Lemma power_pattern_reads
  (label sp1 model sp2 capacity sp3 input sp4 output sp5 power sp6 status rest : string) :
  run_of S' label = true -> run_of s sp1 = true ->
  run_of (either w (chr "-")) model = true -> run_of s sp2 = true ->
  run_of d capacity = true -> run_of s sp3 = true ->
  run_of (either d (chr ".")) input = true -> run_of s sp4 = true ->
  run_of (either d (chr ".")) output = true -> run_of s sp5 = true ->
  run_of (either d (chr ".")) power = true -> run_of s sp6 = true ->
  run_of w status = true -> stops w rest = true ->
  re_match Patterns.power
    (label ++ sp1 ++ model ++ sp2 ++ capacity ++ "W" ++ sp3 ++ input ++ "A" ++ sp4
     ++ output ++ "A" ++ sp5 ++ power ++ "W" ++ sp6 ++ status ++ rest)
  = Some [label; model; capacity ++ "W"; input ++ "A"; output ++ "A"; power ++ "W";
          status].
Proof.
  intros Hlabel Hsp1 Hmodel Hsp2 Hcap Hsp3 Hin Hsp4 Hout Hsp5 Hpow Hsp6 Hstatus Hrest.
  unfold re_match, Patterns.power.
  rewrite match_open.
  read_run Hlabel Hsp1 space_stops_nonspace.
  rewrite match_close. cbn [app].
  read_run Hsp1 Hmodel model_stops_space.
  rewrite match_open.
  read_run Hmodel Hsp2 space_stops_model.
  rewrite match_close. cbn [app].
  read_run Hsp2 Hcap digit_stops_space.
  rewrite match_open.
  read_run_to_literal Hcap.
  rewrite match_lit. cbn [capture]. rewrite match_close. cbn [app].
  read_run Hsp3 Hin amount_stops_space.
  rewrite match_open.
  read_run_to_literal Hin.
  rewrite match_lit. cbn [capture]. rewrite match_close. cbn [app].
  read_run Hsp4 Hout amount_stops_space.
  rewrite match_open.
  read_run_to_literal Hout.
  rewrite match_lit. cbn [capture]. rewrite match_close. cbn [app].
  read_run Hsp5 Hpow amount_stops_space.
  rewrite match_open.
  read_run_to_literal Hpow.
  rewrite match_lit. cbn [capture]. rewrite match_close. cbn [app].
  read_run Hsp6 Hstatus word_stops_space.
  rewrite match_open.
  apply match_rep; [exact Hstatus|exact Hrest|lia|]. cbn [capture].
  rewrite match_close. reflexivity.
Qed.

End RowFacts.

(** A stripped line that starts with a decimal digit passes the declaration
    rules, the two header rules and the table header check, and is left to
    the table the parser is in. *)
Lemma parse_stripped_digit_start (st : ParserState) (c : ascii) (tail : string) :
  PyStr.isdigit c = true ->
  parse_stripped st (String c tail)
  = if parsing_fan st then
      match Re.re_match Patterns.fan (String c tail) with
      | Some fan_match => row <- fan_row fan_match ;; Ok (append_fan row st)
      | None => Ok st
      end
    else if parsing_power st then
      match Re.re_match Patterns.power (String c tail) with
      | Some power_match => row <- power_row power_match ;; Ok (append_power row st)
      | None => Ok st
      end
    else Ok st.
Proof.
  intros Hc.
  unfold parse_stripped, Patterns.cooling, Patterns.temperature, Patterns.airflow.
  rewrite !ReFacts.re_match_other_start
    by (apply (RowFacts.digit_differs c); [exact Hc|reflexivity]).
  unfold PyStr.startswith. rewrite !prefix_cons.
  destruct (Ascii.ascii_dec "F" c) as [<-|_]; [discriminate|].
  destruct (Ascii.ascii_dec "P" c) as [<-|_]; [discriminate|].
  cbn [andb].
  assert (Hh : Re.re_match Patterns.header (String c tail) = None).
  { unfold Re.re_match, Patterns.header. cbn [Re.match_from PyStr.run_length].
    now rewrite (RowFacts.digit_is_no_header c Hc). }
  now rewrite Hh.
Qed.

Lemma starts_with_split (cls : ascii -> bool) (label : string) :
  starts_with cls label = true ->
  exists c label', label = String c label' /\ cls c = true.
Proof. destruct label as [|c label']; [discriminate|]. intros H. eauto. Qed.

(** X15. In the fan table, a stripped line made of a label that starts with a
    digit, a status word and two percentages, separated by white space, is
    read as a row whatever follows the second percentage: the fan pattern
    captures the four fields, and the row appended names them, the label
    with its long form collapsed. *)
Theorem fan_row_is_read (st : ParserState)
  (label sp1 status sp2 configured sp3 actual rest : string) :
  parsing_fan st = true ->
  starts_with PyStr.isdigit label = true ->
  run_of Re.S' label = true -> run_of Re.s sp1 = true ->
  run_of Re.w status = true -> run_of Re.s sp2 = true ->
  run_of Re.d configured = true -> run_of Re.s sp3 = true ->
  run_of Re.d actual = true ->
  let line :=
    label ++ sp1 ++ status ++ sp2 ++ configured ++ "%" ++ sp3 ++ actual ++ "%" ++ rest in
  Re.re_match Patterns.fan line = Some [label; status; configured; actual]
  /\ parse_stripped st line
     = Ok (append_fan
             ("<strong>" ++ canonical label ++ " Status:</strong> " ++ status
              ++ ", <strong>Configured Speed:</strong> " ++ configured
              ++ "%, <strong>Actual Speed:</strong> " ++ actual ++ "%") st).
Proof.
  intros Hfan Hstart Hlabel Hsp1 Hstatus Hsp2 Hconf Hsp3 Hact line.
  assert (Hm : Re.re_match Patterns.fan line = Some [label; status; configured; actual])
    by now apply RowFacts.fan_pattern_reads.
  split; [exact Hm|].
  destruct (starts_with_split _ _ Hstart) as (c & label' & Hl & Hc).
  assert (Hline : line = String c (label' ++ sp1 ++ status ++ sp2 ++ configured ++ "%"
                                   ++ sp3 ++ actual ++ "%" ++ rest))
    by (unfold line; now rewrite Hl).
  rewrite Hline in *. rewrite (parse_stripped_digit_start st c _ Hc), Hfan, Hm.
  reflexivity.
Qed.

Lemma fan_row_is_read_witness :
  parse_stripped (set_parsing true false initial_state) "1/1   Ok  35%   36% extra"
  = Ok (append_fan
          "<strong>1/1 Status:</strong> Ok, <strong>Configured Speed:</strong> 35%, <strong>Actual Speed:</strong> 36%"
          (set_parsing true false initial_state)).
Proof.
  apply (fan_row_is_read (set_parsing true false initial_state)
           "1/1" "   " "Ok" "  " "35" "   " "36" " extra");
    reflexivity.
Defined.

(** X16. In the power supply table, a stripped line made of a label that
    starts with a digit, a model, a capacity in W, two currents in A, a power
    in W and a status word, separated by white space, is read as a row when
    no word character follows the status: the pattern captures the seven
    fields with their units, and the row appended names them. *)
Theorem power_row_is_read (st : ParserState)
  (label sp1 model sp2 capacity sp3 input sp4 output sp5 power sp6 status rest : string) :
  parsing_fan st = false -> parsing_power st = true ->
  starts_with PyStr.isdigit label = true ->
  run_of Re.S' label = true -> run_of Re.s sp1 = true ->
  run_of (Re.either Re.w (Re.chr "-")) model = true -> run_of Re.s sp2 = true ->
  run_of Re.d capacity = true -> run_of Re.s sp3 = true ->
  run_of (Re.either Re.d (Re.chr ".")) input = true -> run_of Re.s sp4 = true ->
  run_of (Re.either Re.d (Re.chr ".")) output = true -> run_of Re.s sp5 = true ->
  run_of (Re.either Re.d (Re.chr ".")) power = true -> run_of Re.s sp6 = true ->
  run_of Re.w status = true -> stops Re.w rest = true ->
  let line :=
    label ++ sp1 ++ model ++ sp2 ++ capacity ++ "W" ++ sp3 ++ input ++ "A" ++ sp4
    ++ output ++ "A" ++ sp5 ++ power ++ "W" ++ sp6 ++ status ++ rest in
  Re.re_match Patterns.power line
  = Some [label; model; capacity ++ "W"; input ++ "A"; output ++ "A"; power ++ "W";
          status]
  /\ parse_stripped st line
     = Ok (append_power
             ("<strong>" ++ canonical label ++ " Status:</strong> " ++ status
              ++ ", <strong>Model:</strong> " ++ model
              ++ ", <strong>Capacity:</strong> " ++ (capacity ++ "W")
              ++ ", <strong>Input Current:</strong> " ++ (input ++ "A")
              ++ ", <strong>Output Current:</strong> " ++ (output ++ "A")
              ++ ", <strong>Power:</strong> " ++ (power ++ "W")) st).
Proof.
  intros Hfan Hpower Hstart Hlabel Hsp1 Hmodel Hsp2 Hcap Hsp3 Hin Hsp4 Hout Hsp5 Hpow
    Hsp6 Hstatus Hrest line.
  assert (Hm : Re.re_match Patterns.power line
               = Some [label; model; capacity ++ "W"; input ++ "A"; output ++ "A";
                       power ++ "W"; status])
    by now apply RowFacts.power_pattern_reads.
  split; [exact Hm|].
  destruct (starts_with_split _ _ Hstart) as (c & label' & Hl & Hc).
  assert (Hline : line = String c (label' ++ sp1 ++ model ++ sp2 ++ capacity ++ "W"
                                   ++ sp3 ++ input ++ "A" ++ sp4 ++ output ++ "A"
                                   ++ sp5 ++ power ++ "W" ++ sp6 ++ status ++ rest))
    by (unfold line; now rewrite Hl).
  rewrite Hline in *. rewrite (parse_stripped_digit_start st c _ Hc), Hfan, Hpower, Hm.
  reflexivity.
Qed.

Lemma power_row_is_read_witness :
  parse_stripped (set_parsing false true initial_state)
    "1  PWR-500AC-R  500W  0.25A  4.12A  49.5W  Ok"
  = Ok (append_power
          "<strong>1 Status:</strong> Ok, <strong>Model:</strong> PWR-500AC-R, <strong>Capacity:</strong> 500W, <strong>Input Current:</strong> 0.25A, <strong>Output Current:</strong> 4.12A, <strong>Power:</strong> 49.5W"
          (set_parsing false true initial_state)).
Proof.
  apply (power_row_is_read (set_parsing false true initial_state)
           "1" "  " "PWR-500AC-R" "  " "500" "  " "0.25" "  " "4.12" "  " "49.5" "  "
           "Ok" "");
    reflexivity.
Defined.

(** ** The normalizer on distinct canonical names *)

Lemma combined_data_fresh (errors : dict ErrorData) (rates : dict RateData) :
  forall acc,
    NoDup (keys acc ++ map canonical (keys rates))%list ->
    fold_left (combine_step errors) rates acc
    = (acc ++ map (normalized_entry errors) rates)%list.
Proof.
  induction rates as [|[port rd] rates IH]; intros acc Hnd; cbn [fold_left map].
  - now rewrite app_nil_r.
  - cbn [keys map fst] in Hnd.
    assert (Hfresh : ~ In (canonical port) (keys acc)).
    { apply NoDup_remove_2 in Hnd. intros Hin. apply Hnd. apply in_or_app. now left. }
    unfold combine_step at 2. rewrite (dict_set_fresh _ _ _ Hfresh).
    rewrite IH.
    + rewrite <- app_assoc. reflexivity.
    + unfold keys. rewrite map_app. cbn [map fst]. rewrite <- app_assoc. exact Hnd.
Qed.

(** X17. When no two ports of the rate counters share a canonical name, the
    normalizer returns one record per port, in the order of the rate
    counters, each under the port's canonical name and built from the port's
    own rate entry and from the error entry found under the device's name of
    the port. *)
Theorem normalizer_keeps_ports_in_order (rates : dict RateData)
  (errors : dict ErrorData) :
  NoDup (map canonical (keys rates)) ->
  combined_data rates errors
  = map (fun item =>
           (canonical (fst item),
            port_record (snd item) (get errors (fst item) []))) rates
  /\ keys (combined_data rates errors) = map canonical (keys rates)
  /\ List.length (combined_data rates errors) = List.length rates.
Proof.
  intros Hnd.
  assert (H : combined_data rates errors = map (normalized_entry errors) rates)
    by (unfold combined_data; now rewrite combined_data_fresh).
  split; [exact H|]. rewrite H. split.
  - unfold keys. rewrite !map_map. reflexivity.
  - apply length_map.
Qed.

Lemma normalizer_keeps_ports_in_order_witness :
  keys (combined_data
          [("Ethernet2", mkRateData None None None);
           ("Management1", mkRateData None None None);
           ("Ethernet1", mkRateData None None None)]
          [("Ethernet1", [("inErrors", 2)])])
  = ["Eth2"; "Management1"; "Eth1"].
Proof.
  apply (normalizer_keeps_ports_in_order
           [("Ethernet2", mkRateData None None None);
            ("Management1", mkRateData None None None);
            ("Ethernet1", mkRateData None None None)]
           [("Ethernet1", [("inErrors", 2)])]).
  vm_compute. repeat constructor; simpl; intuition discriminate.
Defined.

(** ** The table in force *)

Lemma header_line_sets_table (st : ParserState) (raw : string) (t : table) :
  header_of (PyStr.strip raw) = Some t ->
  exists st', parse_line st raw = Ok st' /\ in_table t st'.
Proof.
  unfold header_of, parse_line. intros H.
  destruct (PyStr.strip raw) as [|c tail] eqn:E; [discriminate|].
  cbn [is_empty].
  assert (Hstart : c = "F"%char \/ c = "P"%char).
  { unfold fan_header, power_header, PyStr.startswith in H. rewrite !prefix_cons in H.
    destruct (Ascii.ascii_dec "F" c) as [<-|_]; [now left|].
    destruct (Ascii.ascii_dec "P" c) as [<-|_]; [now right|].
    discriminate. }
  unfold parse_stripped, Patterns.cooling, Patterns.temperature, Patterns.airflow.
  rewrite !ReFacts.re_match_other_start by (destruct Hstart as [->| ->]; discriminate).
  fold (fan_header (String c tail)). fold (power_header (String c tail)).
  destruct (fan_header (String c tail)).
  - injection H as <-. eexists. split; [reflexivity|]. now split.
  - destruct (power_header (String c tail)); [|discriminate].
    injection H as <-. eexists. split; [reflexivity|]. now split.
Qed.

Lemma table_kept (t : table) (lines : list string) (st st' : ParserState) :
  (forall raw, In raw lines -> header_of (PyStr.strip raw) = None) ->
  in_table t st -> parse_lines st lines = Ok st' -> in_table t st'.
Proof.
  intros Hno Hst H.
  apply (parse_lines_invariant (in_table t) lines) in H; auto.
  intros st0 raw st1 Hin Hin0 Heff. specialize (Hno raw Hin). unfold header_of in Hno.
  destruct Heff as [m g Hm|g|g|Hh|Hh| |row Hon|row Hoff' Hon]; auto.
  - rewrite Hh in Hno. discriminate.
  - rewrite Hh in Hno. destruct (fan_header (PyStr.strip raw)); discriminate.
Qed.

(** X18. The table the parser is in at the end of the text is the table of
    the last header line, a header line being a stripped line that starts
    with [Fan] and contains [Status], or starts with [Power] and contains
    [Supply]: the flag of that table is set and the other is clear, whatever
    the lines before it did. *)
Theorem last_header_sets_the_table (before after : list string) (raw : string)
  (t : table) (st st' : ParserState) :
  header_of (PyStr.strip raw) = Some t ->
  (forall later, In later after -> header_of (PyStr.strip later) = None) ->
  parse_lines st (before ++ raw :: after)%list = Ok st' ->
  match t with
  | FanTable => parsing_fan st' = true /\ parsing_power st' = false
  | PowerTable => parsing_fan st' = false /\ parsing_power st' = true
  end.
Proof.
  intros Hheader Hlater H. apply parse_lines_app in H.
  destruct H as (st1 & _ & H). cbn [parse_lines] in H.
  destruct (header_line_sets_table st1 raw t Hheader) as (st2 & Hst2 & Hin).
  rewrite Hst2 in H. cbn [bind] in H.
  exact (table_kept t after st2 st' Hlater Hin H).
Qed.

Lemma last_header_sets_the_table_witness :
  let row :=
    "<strong>1/1 Status:</strong> Ok, <strong>Configured Speed:</strong> 35%, <strong>Actual Speed:</strong> 36%" in
  let final := mkParserState "N/A" "N/A" "N/A" [row] [] false true in
  parsing_fan final = false /\ parsing_power final = true.
Proof.
  apply (last_header_sets_the_table
           ["Fan Tray Status"; "1/1 Ok 35% 36%"] ["Power                Input"]
           "Power Supply Status" PowerTable initial_state).
  - reflexivity.
  - intros later [<-|[]]. reflexivity.
  - vm_compute. reflexivity.
Defined.
